(** * Finlytics backend: the anomaly engine and the real-time sync bus

    A shallow embedding of
      - [backend/agents/anomaly_detection_agent.py] (class
        [AnomalyDetectionAgent]): feature engineering, the four detectors,
        consolidation and ranking;
      - [backend/services/realtime_sync.py] (class [RealtimeSyncService]):
        the event queue, the per-kind handlers, subscriber notification,
        WebSocket fan-out and the consumer task with its cancellation.

    Numbers that are Python/NumPy floats in the source are exact rationals
    here ([Q]); rounding, overflow, [inf] and [nan] scores are outside the
    model.  Timestamps are [datetime64[ns]] values: integers counting
    nanoseconds since the epoch. *)

From stdpp Require Import gmap strings list pretty.
From Stdlib Require Import ZArith QArith Qround Qabs Lia Lqa Permutation Sorted.
Import ListNotations.
Local Close Scope Q_scope.
Local Open Scope list_scope.
#[local] Set Warnings "-register-all".

(** ** Python values, exceptions and dictionaries *)

(** The exceptions the two modules can meet.  Since Python 3.8
    [asyncio.CancelledError] derives from [BaseException], so a clause
    [except Exception] does not catch it; every other exception below is an
    [Exception]. *)
Inductive exn : Type :=
| CancelledError
| TimeoutError
| AttributeError (msg : string)
| TypeError (msg : string)
| OtherError (msg : string).

Definition is_Exception (e : exn) : bool :=
  match e with
  | CancelledError => false
  | _ => true
  end.

(** The result of a call: a value, or a raised exception. *)
Inductive outcome (A : Type) : Type :=
| Ok (a : A)
| Raise (e : exn).
Arguments Ok {A} a.
Arguments Raise {A} e.

Definition obind {A B : Type} (o : outcome A) (f : A -> outcome B) : outcome B :=
  match o with
  | Ok a => f a
  | Raise e => Raise e
  end.

Notation "'do' x <- o ; k" := (obind o (fun x => k))
  (at level 10, x name, o at level 100, k at level 200).

(** Dynamically typed cell and payload values.  [VTime ns] is a
    [datetime]/[Timestamp]; [VNaN] and [VNaT] are the missing markers of
    pandas; [VDict] keeps the insertion order of a Python dict. *)
Inductive value : Type :=
| VNone
| VNaN
| VNaT
| VBool (b : bool)
| VNum (q : Q)
| VStr (s : string)
| VTime (ns : Z)
| VList (l : list value)
| VDict (d : list (string * value)).

Definition dict : Type := list (string * value).

(** [d.get(k)] on the entries of a dict ([None] when the key is absent). *)
Fixpoint dict_get (d : dict) (k : string) : option value :=
  match d with
  | [] => None
  | (k', v) :: d' => if String.eqb k' k then Some v else dict_get d' k
  end.

(** [d[k] = v]: overwrite in place, or append a new key. *)
Fixpoint dict_set (d : dict) (k : string) (v : value) : dict :=
  match d with
  | [] => [(k, v)]
  | (k', v') :: d' =>
      if String.eqb k' k then (k', v) :: d' else (k', v') :: dict_set d' k v
  end.

Definition dict_has (d : dict) (k : string) : bool :=
  match dict_get d k with Some _ => true | None => false end.

(** Python truthiness, [bool(v)]. *)
Definition truthy (v : value) : bool :=
  match v with
  | VNone => false
  | VNaN => true
  | VNaT => true
  | VBool b => b
  | VNum q => negb (Qeq_bool q 0)
  | VStr s => negb (String.eqb s "")
  | VTime _ => true
  | VList l => match l with [] => false | _ => true end
  | VDict d => match d with [] => false | _ => true end
  end.

(** [x == s] for a string literal [s]. *)
Definition value_eq_str (v : value) (s : string) : bool :=
  match v with
  | VStr s' => String.eqb s' s
  | _ => false
  end.

(** Comparisons on rationals, as booleans. *)
Definition Qlt_bool (a b : Q) : bool := negb (Qle_bool b a).

(** [enumerate start l]: the elements of [l] paired with consecutive
    labels. *)
Fixpoint enumerate {A : Type} (start : nat) (l : list A) : list (nat * A) :=
  match l with
  | [] => []
  | x :: l' => (start, x) :: enumerate (S start) l'
  end.

(** Stable insertion sort, used for every ordered view below. *)
Section InsertionSort.
Context {A : Type} (leb : A -> A -> bool).

Fixpoint insert_sorted (x : A) (l : list A) : list A :=
  match l with
  | [] => [x]
  | y :: l' => if leb x y then x :: y :: l' else y :: insert_sorted x l'
  end.

Fixpoint isort (l : list A) : list A :=
  match l with
  | [] => []
  | x :: l' => insert_sorted x (isort l')
  end.
End InsertionSort.

(** ** Data frames

    A [DataFrame] is its column names and its rows; each row carries its
    index label and one cell per column. *)
Record DataFrame : Type := mkDF {
  columns : list string;
  rows : list (nat * dict)
}.

Definition df_len (df : DataFrame) : nat := List.length (rows df).

(** [df.empty]: no rows or no columns. *)
Definition df_empty (df : DataFrame) : bool :=
  match rows df, columns df with
  | [], _ => true
  | _, [] => true
  | _, _ => false
  end.

Definition str_mem (s : string) (l : list string) : bool :=
  existsb (String.eqb s) l.

Definition has_column (df : DataFrame) (c : string) : bool :=
  str_mem c (columns df).

(** A cell; a key missing from a record reads as NaN. *)
Definition cell (r : dict) (c : string) : value :=
  match dict_get r c with Some v => v | None => VNaN end.

Definition add_keys (acc : list string) (d : dict) : list string :=
  fold_left (fun a kv => if str_mem (fst kv) a then a else a ++ [fst kv]) d acc.

Definition union_keys (acc : list string) (ds : list dict) : list string :=
  fold_left add_keys ds acc.

Definition reindex_row (cols : list string) (d : dict) : dict :=
  map (fun c => (c, cell d c)) cols.

(** [pd.DataFrame(records)] for a list of dicts: the columns are the keys
    in order of first appearance, the labels are 0, 1, ... *)
Definition pd_DataFrame (records : list dict) : DataFrame :=
  let cols := union_keys [] records in
  mkDF cols (enumerate 0 (map (reindex_row cols) records)).

(** [pd.concat([a, b], ignore_index=True)]. *)
Definition pd_concat (a b : DataFrame) : DataFrame :=
  let cols := fold_left (fun acc c => if str_mem c acc then acc else acc ++ [c])
                        (columns b) (columns a) in
  mkDF cols (enumerate 0 (map (fun r => reindex_row cols (snd r)) (rows a ++ rows b))).

(** [df[c] = f(row)]: assign a whole column. *)
Definition assign (df : DataFrame) (c : string) (f : dict -> value) : DataFrame :=
  mkDF (if has_column df c then columns df else columns df ++ [c])
       (map (fun r => (fst r, dict_set (snd r) c (f (snd r)))) (rows df)).

(** [df.iloc[i].to_dict()]: the row at position [i]. *)
Definition iloc_to_dict (df : DataFrame) (i : nat) : option dict :=
  option_map snd (nth_error (rows df) i).

(** ** Library calls

    What the agent and the bus take from pandas, NumPy, scikit-learn and the
    Python runtime, as a record of functions: those parts are not in the
    repository. *)
Record pylib : Type := {
  (** [pd.to_numeric] on one [str] cell; [None] when it is coerced to NaN *)
  to_numeric_str : string -> option Q;
  (** [pd.to_datetime] on one cell that is not a datetime; [None] for NaT *)
  to_datetime_obj : value -> option Z;
  (** [datetime.now()] during feature engineering *)
  datetime_now : Z;
  (** the square root inside [Series.std] *)
  np_sqrt : Q -> Q;
  (** scaling, fitting and scoring of the isolation forest on the feature
      frame: per row, in row order, the decision score and the prediction;
      [None] when one of these steps raises *)
  forest_fit_predict : DataFrame -> option (list (Q * Z));
  (** the format specs [:.2f] and [{hour}] of the reason strings *)
  format_2f : Q -> string;
  format_int : Z -> string;
  (** [str(v)] inside an f-string, and [datetime.isoformat()] *)
  py_str : value -> string;
  isoformat : Z -> string;
  (** [str(uuid.uuid4())]: the n-th identifier drawn *)
  uuid4 : nat -> string
}.

(** ** Feature engineering and raw flags *)

Inductive severity : Type := Low | Medium | High.

(** [severity_order = {'low': 0, 'medium': 1, 'high': 2}] *)
Definition severity_order (s : severity) : nat :=
  match s with Low => 0 | Medium => 1 | High => 2 end.

(** One raw detector hit: the dict a detector appends to its list.  The
    isolation forest gives no ['reason'] key. *)
Record flag : Type := mkFlag {
  f_index : nat;
  f_method : string;
  f_score : Q;
  f_severity : severity;
  f_reason : option string
}.

(** Typed readers of the engineered columns. *)
Definition amount_of (r : dict) : Q :=
  match cell r "amount" with VNum q => q | _ => 0%Q end.

Definition date_of (r : dict) : option Z :=
  match cell r "date" with VTime ns => Some ns | _ => None end.

Definition hour_of (r : dict) : option Z :=
  match cell r "hour" with VNum q => Some (Qfloor q) | _ => None end.

Definition ns_per_hour : Z := 3600 * 1000000000.
Definition ns_per_minute : Z := 60 * 1000000000.

(** [Series.sort_values] puts NaT last; ties keep their order. *)
Definition date_leb (a b : nat * dict) : bool :=
  match date_of (snd a), date_of (snd b) with
  | Some x, Some y => (x <=? y)%Z
  | Some _, None => true
  | None, Some _ => false
  | None, None => true
  end.

Definition sort_values_date (df : DataFrame) : DataFrame :=
  mkDF (columns df) (isort date_leb (rows df)).

Section Engine.
Variable L : pylib.

(** [pd.to_numeric(col, errors='coerce')] on one cell: NaN is [None]. *)
Definition to_numeric (v : value) : option Q :=
  match v with
  | VNum q => Some q
  | VBool b => Some (if b then 1%Q else 0%Q)
  | VStr s => to_numeric_str L s
  | _ => None
  end.

(** [pd.to_datetime(col, errors='coerce')] on one cell. *)
Definition to_datetime (v : value) : value :=
  match v with
  | VTime ns => VTime ns
  | VNone | VNaN | VNaT => VNaT
  | _ => match to_datetime_obj L v with Some ns => VTime ns | None => VNaT end
  end.

(** [_engineer_features].  Returns the feature frame and [current_df] as
    the caller sees it afterwards: with no historical rows [all_data] IS
    [current_df], and the column assignments before [all_data.copy()]
    write into it.  Of the derived columns only [hour] is read by code
    in the repository; the others (day, month, weekend, log, sqrt,
    category frequency, rolling statistics) are read by the isolation
    forest alone and are part of [forest_fit_predict]. *)
Definition _engineer_features (current_df historical_df : DataFrame)
  : DataFrame * DataFrame :=
  let aliased := df_empty historical_df in
  let all_data := if aliased then current_df
                  else pd_concat historical_df current_df in
  let all_data := if has_column all_data "amount" then all_data
                  else assign all_data "amount" (fun _ => VNum 0) in
  let all_data := if has_column all_data "category" then all_data
                  else assign all_data "category" (fun _ => VStr "Unknown") in
  let all_data := if has_column all_data "date" then all_data
                  else assign all_data "date" (fun _ => VTime (datetime_now L)) in
  let all_data := assign all_data "amount"
                    (fun r => VNum (default 0%Q (to_numeric (cell r "amount")))) in
  let all_data := assign all_data "date" (fun r => to_datetime (cell r "date")) in
  let features_df := all_data in
  let features_df := assign features_df "hour"
                       (fun r => match date_of r with
                                 | Some ns => VNum (inject_Z ((ns / ns_per_hour) mod 24))
                                 | None => VNaN
                                 end) in
  let features_df := if (7 <? df_len features_df)%nat
                     then sort_values_date features_df
                     else features_df in
  (features_df, if aliased then all_data else current_df).

(** *** Series statistics *)

Definition Qsum (xs : list Q) : Q := fold_right Qplus 0%Q xs.

Definition Qlen (n : nat) : Q := inject_Z (Z.of_nat n).

(** [Series.mean()] *)
Definition mean (xs : list Q) : Q := (Qsum xs / Qlen (List.length xs))%Q.

(** [Series.quantile(p)], linear interpolation between order statistics. *)
Definition quantile (xs : list Q) (p : Q) : Q :=
  let s := isort Qle_bool xs in
  let h := (Qlen (List.length s - 1) * p)%Q in
  let i := Z.to_nat (Qfloor h) in
  let frac := (h - inject_Z (Qfloor h))%Q in
  let lo := nth i s 0%Q in
  let hi := nth (S i) s lo in
  (lo + frac * (hi - lo))%Q.

(** [Series.median()] *)
Definition median (xs : list Q) : Q := quantile xs (1 # 2)%Q.

(** [Series.std()], the sample standard deviation (ddof = 1). *)
Definition std (xs : list Q) : Q :=
  let m := mean xs in
  np_sqrt L (Qsum (map (fun x => ((x - m) * (x - m))%Q) xs)
             / Qlen (List.length xs - 1))%Q.

Definition amounts (df : DataFrame) : list Q :=
  map (fun r => amount_of (snd r)) (rows df).

(** *** The four detectors *)

(** [_isolation_forest_detection]: the index of a flag is the POSITION
    of the row ([enumerate]); when the model code raises, the handler
    logs and returns the empty list. *)
Definition _isolation_forest_detection (features_df : DataFrame)
  : outcome (list flag) :=
  if (df_len features_df <? 10)%nat then Ok []
  else
    match forest_fit_predict L features_df with
    | Some results =>
        Ok (flat_map
              (fun '(idx, (score, prediction)) =>
                 if (prediction =? -1)%Z
                 then [mkFlag idx "isolation_forest" score
                         (if Qlt_bool score (-(2 # 10))%Q then High else Medium)
                         None]
                 else [])
              (enumerate 0 results))
    | None => Ok []
    end.

(** [_statistical_outlier_detection] *)
Definition _statistical_outlier_detection (features_df : DataFrame)
  : outcome (list flag) :=
  if has_column features_df "amount" && (4 <? df_len features_df)%nat then
    let Q1 := quantile (amounts features_df) (1 # 4)%Q in
    let Q3 := quantile (amounts features_df) (3 # 4)%Q in
    let IQR := (Q3 - Q1)%Q in
    let lower_bound := (Q1 - (3 # 2) * IQR)%Q in
    let upper_bound := (Q3 + (3 # 2) * IQR)%Q in
    let outliers :=
      List.filter (fun r => Qlt_bool (amount_of (snd r)) lower_bound
                            || Qlt_bool upper_bound (amount_of (snd r)))
                  (rows features_df) in
    Ok (map (fun r =>
               let amount := amount_of (snd r) in
               mkFlag (fst r) "statistical_iqr"
                 (Qabs (amount - median (amounts features_df)))
                 (if Qlt_bool (Q3 + 3 * IQR)%Q amount
                     || Qlt_bool amount (Q1 - 3 * IQR)%Q
                  then High else Medium)
                 (Some ("Amount $" +:+ format_2f L amount
                        +:+ " is outside normal range")))
            outliers)
  else Ok [].

(** [_zscore_detection], with [thresholds['amount_zscore'] = 3.0].  The
    column [amount_zscore] it adds to the frame is read by nothing
    else. *)
Definition _zscore_detection (features_df : DataFrame) : outcome (list flag) :=
  if has_column features_df "amount" && (2 <? df_len features_df)%nat then
    let mean_amount := mean (amounts features_df) in
    let std_amount := std (amounts features_df) in
    if Qlt_bool 0 std_amount then
      let amount_zscore r := ((amount_of (snd r) - mean_amount) / std_amount)%Q in
      let outliers :=
        List.filter (fun r => Qlt_bool 3 (Qabs (amount_zscore r)))
                    (rows features_df) in
      Ok (map (fun r =>
                 let zscore := amount_zscore r in
                 mkFlag (fst r) "zscore" (Qabs zscore)
                   (if Qlt_bool 4 (Qabs zscore) then High else Medium)
                   (Some ("Amount $" +:+ format_2f L (amount_of (snd r))
                          +:+ " has Z-score of " +:+ format_2f L zscore)))
              outliers)
    else Ok []
  else Ok [].

(** Rows of the date-sorted frame whose distance to the previous row is
    under five minutes ([diff()] is NaN on the first row and next to a
    NaT). *)
Fixpoint rapid_rows (prev : option Z) (rs : list (nat * dict)) : list (nat * dict) :=
  match rs with
  | [] => []
  | r :: rs' =>
      let here := date_of (snd r) in
      let rest := rapid_rows here rs' in
      match prev, here with
      | Some p, Some d => if (d - p <? 5 * ns_per_minute)%Z then r :: rest else rest
      | _, _ => rest
      end
  end.

(** [_business_rule_detection].  [historical_df.get('amount', [])] is the
    list [[]] when the column is missing; [pd.to_numeric] then returns an
    ndarray, which has no [dropna].  (The score [amount / historical_95th]
    is [inf] in the source when the percentile is 0; [Q] has none.) *)
Definition _business_rule_detection (features_df historical_df : DataFrame)
  : outcome (list flag) :=
  do rule1 <-
    (if has_column features_df "amount" && negb (df_empty historical_df) then
       if has_column historical_df "amount" then
         let historical_amounts :=
           omap (fun r => to_numeric (cell (snd r) "amount")) (rows historical_df) in
         if (0 <? List.length historical_amounts)%nat then
           let historical_95th := quantile historical_amounts (95 # 100)%Q in
           let large_transactions :=
             List.filter (fun r => Qlt_bool (historical_95th * 2)%Q (amount_of (snd r)))
                         (rows features_df) in
           Ok (map (fun r =>
                      let amount := amount_of (snd r) in
                      mkFlag (fst r) "business_rule_large_amount"
                        (amount / historical_95th)%Q High
                        (Some ("Transaction amount $" +:+ format_2f L amount
                               +:+ " is unusually large")))
                   large_transactions)
         else Ok []
       else Raise (AttributeError "'numpy.ndarray' object has no attribute 'dropna'")
     else Ok []);
  let rule2 :=
    if has_column features_df "hour" then
      let unusual_time :=
        List.filter (fun r => match hour_of (snd r) with
                              | Some h => (2 <=? h)%Z && (h <=? 5)%Z
                              | None => false
                              end)
                    (rows features_df) in
      map (fun r =>
             mkFlag (fst r) "business_rule_unusual_time" 1%Q Medium
               (Some ("Transaction at unusual hour: "
                      +:+ format_int L (default 0%Z (hour_of (snd r))) +:+ ":00")))
          unusual_time
    else [] in
  let rule3 :=
    if has_column features_df "date" && (1 <? df_len features_df)%nat then
      let features_df_sorted := sort_values_date features_df in
      let rapid_transactions := rapid_rows None (rows features_df_sorted) in
      map (fun r =>
             mkFlag (fst r) "business_rule_rapid_transactions" 1%Q Medium
               (Some "Multiple transactions in short time period"))
          rapid_transactions
    else [] in
  Ok (rule1 ++ rule2 ++ rule3).

(** [_run_multiple_detection_methods]: the four calls in order, with no
    handler around any of them; the result dict keeps this key order. *)
Definition _run_multiple_detection_methods (features_df historical_df : DataFrame)
  : outcome (list (string * list flag)) :=
  do isolation_anomalies <- _isolation_forest_detection features_df;
  do statistical_anomalies <- _statistical_outlier_detection features_df;
  do zscore_anomalies <- _zscore_detection features_df;
  do business_anomalies <- _business_rule_detection features_df historical_df;
  Ok [("isolation_forest", isolation_anomalies);
      ("statistical", statistical_anomalies);
      ("zscore", zscore_anomalies);
      ("business_rules", business_anomalies)].
End Engine.

(** ** Consolidation and ranking *)

(** An entry of [anomaly_by_index] while the flags are collected. *)
Record group : Type := mkGroup {
  g_transaction_index : nat;
  g_transaction_data : dict;
  g_detection_methods : list string;
  g_scores : list Q;
  g_reasons : list string;
  g_max_severity : severity
}.

(** A consolidated anomaly, as returned to the caller. *)
Record anomaly : Type := mkAnomaly {
  transaction_index : nat;
  transaction_data : dict;
  detection_methods : list string;
  composite_score : Q;
  confidence : Q;
  a_severity : severity;
  reasons : list string;
  method_count : nat
}.

(** [anomaly_by_index] is a dict keyed by index: an association list in
    insertion order, each key at most once. *)
Fixpoint by_index_get (m : list (nat * group)) (idx : nat) : option group :=
  match m with
  | [] => None
  | (i, g) :: m' => if (i =? idx)%nat then Some g else by_index_get m' idx
  end.

Fixpoint by_index_update (m : list (nat * group)) (idx : nat) (f : group -> group)
  : list (nat * group) :=
  match m with
  | [] => []
  | (i, g) :: m' =>
      if (i =? idx)%nat then (i, f g) :: m' else (i, g) :: by_index_update m' idx f
  end.

(** The body of the inner loop of [_consolidate_anomalies] for one raw
    flag. *)
Definition collect_flag (current_df : DataFrame) (anomaly_by_index : list (nat * group))
    (a : flag) : list (nat * group) :=
  let idx := f_index a in
  let anomaly_by_index :=
    match by_index_get anomaly_by_index idx with
    | Some _ => anomaly_by_index
    | None =>
        if (idx <? df_len current_df)%nat then
          match iloc_to_dict current_df idx with
          | Some transaction =>
              anomaly_by_index ++ [(idx, mkGroup idx transaction [] [] [] Low)]
          | None => anomaly_by_index
          end
        else anomaly_by_index
    end in
  match by_index_get anomaly_by_index idx with
  | Some _ =>
      by_index_update anomaly_by_index idx
        (fun g =>
           mkGroup (g_transaction_index g) (g_transaction_data g)
             (g_detection_methods g ++ [f_method a])
             (g_scores g ++ [f_score a])
             (g_reasons g ++ [default ""%string (f_reason a)])
             (if (severity_order (g_max_severity g) <? severity_order (f_severity a))%nat
              then f_severity a else g_max_severity g))
  | None => anomaly_by_index
  end.

(** The two nested loops over [anomaly_results.items()]. *)
Definition collect_by_index (anomaly_results : list (string * list flag))
    (current_df : DataFrame) : list (nat * group) :=
  fold_left (fun acc kv => fold_left (collect_flag current_df) (snd kv) acc)
            anomaly_results [].

(** [list(set(reasons))]: each reason once (a set has no order of its own;
    the order of first occurrence is used here). *)
Definition dedup_strings (l : list string) : list string :=
  fold_left (fun acc s => if str_mem s acc then acc else acc ++ [s]) l [].

(** The record appended to [consolidated_anomalies] for one entry. *)
Definition consolidate_group (n_methods : nat) (idx : nat) (anomaly_data : group)
  : anomaly :=
  let scores := g_scores anomaly_data in
  let composite := match scores with
                   | [] => 0%Q
                   | _ => (fold_right Qplus 0%Q scores
                           / inject_Z (Z.of_nat (List.length scores)))%Q
                   end in
  mkAnomaly idx (g_transaction_data anomaly_data) (g_detection_methods anomaly_data)
    composite
    (inject_Z (Z.of_nat (List.length (g_detection_methods anomaly_data)))
     / inject_Z (Z.of_nat n_methods))%Q
    (g_max_severity anomaly_data)
    (dedup_strings (g_reasons anomaly_data))
    (List.length (g_detection_methods anomaly_data)).

(** The list before it is sorted, in the order of [anomaly_by_index]. *)
Definition consolidated_unsorted (anomaly_results : list (string * list flag))
    (current_df : DataFrame) : list anomaly :=
  map (fun kv => consolidate_group (List.length anomaly_results) (fst kv) (snd kv))
      (collect_by_index anomaly_results current_df).

(** The order of two elements by their keys. *)
Definition key_leb {A : Type} (key : A -> Q) (a b : A) : bool :=
  Qle_bool (key a) (key b).

Definition key_below {A : Type} (key : A -> Q) (a b : A) : Prop :=
  (key a <= key b)%Q.

(** [l.sort(key=key, reverse=True)]: CPython reverses the list, sorts it
    stably in ascending key order, and reverses it again. *)
Definition sort_reverse {A : Type} (key : A -> Q) (l : list A) : list A :=
  rev (isort (key_leb key) (rev l)).

(** [_consolidate_anomalies] *)
Definition _consolidate_anomalies (anomaly_results : list (string * list flag))
    (current_df : DataFrame) : list anomaly :=
  sort_reverse composite_score (consolidated_unsorted anomaly_results current_df).

(** ** The entry point *)

Inductive detect_result : Type :=
| NoTransactions (user_id : string)
| Detected (user_id : string) (anomalies_detected : nat) (anomalies : list anomaly)
           (methods : list string)
| ErrorResult (user_id : string) (error : exn).

(** [_generate_insights] builds text; what matters here is whether it
    raises.  [sum(anomaly_amounts)] starts from the int 0 and fails on any
    amount that is not a number; the date arithmetic sits in a bare
    [try/except]. *)
Definition _generate_insights (anomalies : list anomaly) : outcome unit :=
  if forallb (fun a => match dict_get (transaction_data a) "amount" with
                       | None => true
                       | Some (VNum _) | Some (VBool _) | Some VNaN => true
                       | Some _ => false
                       end) anomalies
  then Ok tt
  else Raise (TypeError "unsupported operand type(s) for +").

Section Detect.
Variable L : pylib.

(** [detect_anomalies]: steps 1 to 5 inside one [try], whose handler turns
    any [Exception] into the error result. *)
Definition detect_anomalies (transactions historical_data : list dict)
    (user_id : string) : outcome detect_result :=
  let current_df := pd_DataFrame transactions in
  let historical_df := pd_DataFrame historical_data in
  let body : outcome detect_result :=
    if df_empty current_df then Ok (NoTransactions user_id)
    else
      let '(features_df, current_df) := _engineer_features L current_df historical_df in
      do anomaly_results <- _run_multiple_detection_methods L features_df historical_df;
      let consolidated_anomalies := _consolidate_anomalies anomaly_results current_df in
      do _insights <- _generate_insights consolidated_anomalies;
      Ok (Detected user_id (List.length consolidated_anomalies) consolidated_anomalies
            (map fst anomaly_results)) in
  match body with
  | Ok r => Ok r
  | Raise e => if is_Exception e then Ok (ErrorResult user_id e) else Raise e
  end.
End Detect.

(** ** The sync bus: events and state *)

Inductive EventType : Type :=
| TRANSACTION_ADDED
| TRANSACTION_UPDATED
| TRANSACTION_DELETED
| RECEIPT_PROCESSED
| GOAL_CREATED
| GOAL_UPDATED
| GOAL_PROGRESS_UPDATED
| BUDGET_UPDATED
| MILESTONE_ACHIEVED
| AUTO_SAVE_TRIGGERED.

(** [EventType.value] *)
Definition event_value (t : EventType) : string :=
  match t with
  | TRANSACTION_ADDED => "transaction_added"
  | TRANSACTION_UPDATED => "transaction_updated"
  | TRANSACTION_DELETED => "transaction_deleted"
  | RECEIPT_PROCESSED => "receipt_processed"
  | GOAL_CREATED => "goal_created"
  | GOAL_UPDATED => "goal_updated"
  | GOAL_PROGRESS_UPDATED => "goal_progress_updated"
  | BUDGET_UPDATED => "budget_updated"
  | MILESTONE_ACHIEVED => "milestone_achieved"
  | AUTO_SAVE_TRIGGERED => "auto_save_triggered"
  end.

(** The dataclass [SyncEvent]. *)
Record SyncEvent : Type := mkEvent {
  event_id : string;
  event_type : EventType;
  user_id : string;
  data : value;
  timestamp : Z;
  processed : bool;
  related_entities : list string
}.

Definition set_processed (e : SyncEvent) : SyncEvent :=
  mkEvent (event_id e) (event_type e) (user_id e) (data e) (timestamp e) true
          (related_entities e).

(** Subscriber callbacks and WebSocket connections are objects of the
    environment, known here by identity. *)
Definition callback : Type := nat.
Definition websocket : Type := nat.

Inductive level : Type := INFO | WARNING | ERROR.

(** The state of a [RealtimeSyncService] (the consumer task itself is kept
    apart, see [service]); [uuid_count] and [clock] stand for the process
    state behind [uuid.uuid4()] and [datetime.now()], and [log] collects
    the records handed to the logger (without the leading emoji). *)
Record bus : Type := mkBus {
  event_queue : list SyncEvent;
  subscribers : gmap string (list callback);
  active_connections : gmap string (list websocket);
  running : bool;
  uuid_count : nat;
  clock : Z;
  log : list (level * string)
}.

Definition set_queue (q : list SyncEvent) (b : bus) : bus :=
  mkBus q (subscribers b) (active_connections b) (running b) (uuid_count b)
        (clock b) (log b).

Definition set_subscribers (s : gmap string (list callback)) (b : bus) : bus :=
  mkBus (event_queue b) s (active_connections b) (running b) (uuid_count b)
        (clock b) (log b).

Definition set_connections (c : gmap string (list websocket)) (b : bus) : bus :=
  mkBus (event_queue b) (subscribers b) c (running b) (uuid_count b)
        (clock b) (log b).

Definition set_running (r : bool) (b : bus) : bus :=
  mkBus (event_queue b) (subscribers b) (active_connections b) r (uuid_count b)
        (clock b) (log b).

Definition set_uuid_count (n : nat) (b : bus) : bus :=
  mkBus (event_queue b) (subscribers b) (active_connections b) (running b) n
        (clock b) (log b).

Definition add_log (l : level) (msg : string) (b : bus) : bus :=
  mkBus (event_queue b) (subscribers b) (active_connections b) (running b)
        (uuid_count b) (clock b) (log b ++ [(l, msg)]).

(** [RealtimeSyncService.__init__] *)
Definition new_bus (now : Z) : bus :=
  mkBus [] ∅ ∅ false 0 now [].

(** [str(e)] *)
Definition exn_str (e : exn) : string :=
  match e with
  | CancelledError => ""
  | TimeoutError => ""
  | AttributeError msg | TypeError msg | OtherError msg => msg
  end.

(** ** Code that never suspends: state and exceptions *)

Definition action (A : Type) : Type := bus -> bus * outcome A.

Definition aret {A : Type} (a : A) : action A := fun b => (b, Ok a).

Definition abind {A B : Type} (m : action A) (f : A -> action B) : action B :=
  fun b => match m b with
           | (b', Ok a) => f a b'
           | (b', Raise e) => (b', Raise e)
           end.

Notation "'act' x <- m ; k" := (abind m (fun x => k))
  (at level 10, x name, m at level 100, k at level 200).

Definition logger (l : level) (msg : string) : action unit :=
  fun b => (add_log l msg b, Ok tt).

Definition lift_outcome {A : Type} (o : outcome A) : action A := fun b => (b, o).

(** [v.get(k)] and [v.get(k, dflt)] on a payload; a payload that is not a
    dict has no [get]. *)
Definition py_get (v : value) (k : string) : outcome value :=
  match v with
  | VDict d => Ok (default VNone (dict_get d k))
  | _ => Raise (AttributeError "object has no attribute 'get'")
  end.

Definition py_get_default (v : value) (k : string) (dflt : value) : outcome value :=
  match v with
  | VDict d => Ok (default dflt (dict_get d k))
  | _ => Raise (AttributeError "object has no attribute 'get'")
  end.

Definition py_getitem (v : value) (k : string) : outcome value :=
  match v with
  | VDict d => match dict_get d k with
               | Some x => Ok x
               | None => Raise (OtherError "KeyError")
               end
  | _ => Raise (TypeError "object is not subscriptable")
  end.

(** [l.remove(x)]: drop the first occurrence; [None] stands for the
    [ValueError] of a missing element. *)
Fixpoint list_remove (x : nat) (l : list nat) : option (list nat) :=
  match l with
  | [] => None
  | y :: l' => if (y =? x)%nat then Some l'
               else option_map (cons y) (list_remove x l')
  end.

Section Handlers.
Variable L : pylib.

(** [emit_event]: the queue is unbounded, so [put] never waits. *)
Definition emit_event (et : EventType) (uid : string) (d : value)
    (related : option (list string)) : action unit :=
  fun b =>
    let event := mkEvent (uuid4 L (uuid_count b)) et uid d (clock b) false
                         (default [] related) in
    (add_log INFO ("Event emitted: " +:+ event_value et +:+ " for user " +:+ uid)
       (set_uuid_count (S (uuid_count b))
          (set_queue (event_queue b ++ [event]) b)),
     Ok tt).

(** [subscribe] *)
Definition subscribe (et : EventType) (cb : callback) : action unit :=
  fun b =>
    let event_key := event_value et in
    let current := default [] (subscribers b !! event_key) in
    (add_log INFO ("Subscribed to " +:+ event_key)
       (set_subscribers (<[event_key := current ++ [cb]]> (subscribers b)) b),
     Ok tt).

(** [add_websocket_connection] *)
Definition add_websocket_connection (uid : string) (ws : websocket) : action unit :=
  fun b =>
    let current := default [] (active_connections b !! uid) in
    (add_log INFO ("WebSocket connected for user " +:+ uid)
       (set_connections (<[uid := current ++ [ws]]> (active_connections b)) b),
     Ok tt).

(** [remove_websocket_connection] *)
Definition remove_websocket_connection (uid : string) (ws : websocket) : action unit :=
  fun b =>
    let b' :=
      match active_connections b !! uid with
      | Some conns =>
          match list_remove ws conns with
          | Some [] => set_connections (delete uid (active_connections b)) b
          | Some rest => set_connections (<[uid := rest]> (active_connections b)) b
          | None => b
          end
      | None => b
      end in
    (add_log INFO ("WebSocket disconnected for user " +:+ uid) b', Ok tt).

(** [_handle_receipt_processed] *)
Definition _handle_receipt_processed (event : SyncEvent) : action unit :=
  let receipt_data := data event in
  act success <- lift_outcome (py_get receipt_data "success");
  act parsed <- (if truthy success
                 then lift_outcome (py_get receipt_data "parsed_data")
                 else aret success);
  if truthy parsed then
    act parsed_data <- lift_outcome (py_getitem receipt_data "parsed_data");
    act total <- lift_outcome (py_get_default parsed_data "total" (VNum 0));
    act category <- lift_outcome (py_get_default parsed_data "category" (VStr "Unknown"));
    act vendor <- lift_outcome (py_get_default parsed_data "vendor" (VStr "Unknown"));
    act now <- (fun b => (b, Ok (clock b)));
    act date <- lift_outcome (py_get_default parsed_data "date" (VStr (isoformat L now)));
    act receipt_id <- lift_outcome (py_get receipt_data "receipt_id");
    act receipt_url <- lift_outcome (py_get receipt_data "receipt_url");
    let transaction_data :=
      VDict [("amount", total);
             ("category", category);
             ("description", VStr ("Receipt from " +:+ py_str L vendor));
             ("date", date);
             ("type", VStr "expense");
             ("receipt_id", receipt_id);
             ("receipt_url", receipt_url)] in
    emit_event TRANSACTION_ADDED (user_id event) transaction_data
               (Some ["budget"; "goal"]%string)
  else aret tt.

(** [_update_budget_from_transaction] *)
Definition _update_budget_from_transaction (uid : string) (transaction : value)
  : action unit :=
  act ty <- lift_outcome (py_get transaction "type");
  if value_eq_str ty "expense" then
    act category <- lift_outcome (py_get_default transaction "category" (VStr "Unknown"));
    act amount <- lift_outcome (py_get_default transaction "amount" (VNum 0));
    act _l <- logger INFO ("Updating budget for category " +:+ py_str L category
                           +:+ ": -$" +:+ py_str L amount);
    act transaction_id <- lift_outcome (py_get transaction "id");
    emit_event BUDGET_UPDATED uid
      (VDict [("category", category); ("amount_spent", amount);
              ("transaction_id", transaction_id)])
      None
  else aret tt.

(** [a == 'x' or b == 'y'] on two [get]s, evaluated left to right. *)
Definition get_eq_or (v : value) (k1 s1 k2 s2 : string) : action bool :=
  act x <- lift_outcome (py_get v k1);
  if value_eq_str x s1 then aret true
  else act y <- lift_outcome (py_get v k2); aret (value_eq_str y s2).

(** [_update_goal_progress_from_transaction] *)
Definition _update_goal_progress_from_transaction (uid : string) (transaction : value)
  : action unit :=
  act go <- get_eq_or transaction "category" "Savings" "type" "income";
  if go then
    act amount <- lift_outcome (py_get_default transaction "amount" (VNum 0));
    act _l <- logger INFO ("Updating goal progress: +$" +:+ py_str L amount);
    act transaction_id <- lift_outcome (py_get transaction "id");
    emit_event GOAL_PROGRESS_UPDATED uid
      (VDict [("amount_added", amount); ("transaction_id", transaction_id);
              ("source", VStr "transaction")])
      None
  else aret tt.

(** [_check_spending_anomalies]: a placeholder that only logs. *)
Definition _check_spending_anomalies (uid : string) (transaction : value)
  : action unit :=
  act tid <- lift_outcome (py_get transaction "id");
  logger INFO ("Checking spending anomalies for transaction: " +:+ py_str L tid).

(** [_handle_transaction_added] *)
Definition _handle_transaction_added (event : SyncEvent) : action unit :=
  let transaction := data event in
  act _u <- _update_budget_from_transaction (user_id event) transaction;
  act savings <- get_eq_or transaction "type" "income" "category" "Savings";
  act _g <- (if savings
             then _update_goal_progress_from_transaction (user_id event) transaction
             else aret tt);
  _check_spending_anomalies (user_id event) transaction.

(** [_update_budget_from_goal_progress]: a placeholder that only logs. *)
Definition _update_budget_from_goal_progress (uid : string) (goal_data : value)
  : action unit :=
  act gid <- lift_outcome (py_get goal_data "goal_id");
  logger INFO ("Updating budget based on goal progress: " +:+ py_str L gid).

(** [_handle_goal_progress_updated] *)
Definition _handle_goal_progress_updated (event : SyncEvent) : action unit :=
  let goal_data := data event in
  act milestone <- lift_outcome (py_get goal_data "milestone_achieved");
  act _m <- (if truthy milestone then
               act goal_id <- lift_outcome (py_get goal_data "goal_id");
               act milestone' <- lift_outcome (py_get goal_data "milestone_achieved");
               act message <- lift_outcome (py_get goal_data "celebration_message");
               emit_event MILESTONE_ACHIEVED (user_id event)
                 (VDict [("goal_id", goal_id); ("milestone", milestone');
                         ("celebration_message", message)])
                 None
             else aret tt);
  _update_budget_from_goal_progress (user_id event) goal_data.

(** [_handle_budget_updated]: logs, and never looks into the payload. *)
Definition _handle_budget_updated (event : SyncEvent) : action unit :=
  logger INFO "Updating goal timelines based on budget changes".

(** [_process_event_by_type] *)
Definition _process_event_by_type (event : SyncEvent) : action unit :=
  match event_type event with
  | RECEIPT_PROCESSED => _handle_receipt_processed event
  | TRANSACTION_ADDED => _handle_transaction_added event
  | GOAL_PROGRESS_UPDATED => _handle_goal_progress_updated event
  | BUDGET_UPDATED => _handle_budget_updated event
  | _ => aret tt
  end.

(** [_get_entity_type_from_event]: the first of 'transaction', 'receipt',
    'goal', 'budget' that occurs in the kind's name. *)
Definition _get_entity_type_from_event (et : EventType) : string :=
  match et with
  | TRANSACTION_ADDED | TRANSACTION_UPDATED | TRANSACTION_DELETED => "transaction"
  | RECEIPT_PROCESSED => "receipt"
  | GOAL_CREATED | GOAL_UPDATED | GOAL_PROGRESS_UPDATED => "goal"
  | BUDGET_UPDATED => "budget"
  | MILESTONE_ACHIEVED | AUTO_SAVE_TRIGGERED => "unknown"
  end.

(** [self.entity_relationships] *)
Definition entity_relationships : list (string * list string) :=
  [("transaction", ["budget"; "goal"; "analytics"]);
   ("receipt", ["transaction"; "budget"; "goal"]);
   ("goal", ["transaction"; "budget"]);
   ("budget", ["transaction"; "goal"])]%string.

Fixpoint assoc_get {V : Type} (m : list (string * V)) (k : string) : option V :=
  match m with
  | [] => None
  | (k', v) :: m' => if String.eqb k' k then Some v else assoc_get m' k
  end.

(** [_update_related_entities]; [_update_entity] is a placeholder that
    only logs. *)
Definition _update_related_entities (event : SyncEvent) : action unit :=
  let entity_type := _get_entity_type_from_event (event_type event) in
  match assoc_get entity_relationships entity_type with
  | Some related =>
      fun b =>
        (fold_left (fun b' related_entity =>
                      add_log INFO ("Updating " +:+ related_entity +:+ " for user "
                                    +:+ user_id event) b')
                   related b,
         Ok tt)
  | None => aret tt
  end.
End Handlers.

(** ** Code that suspends: the consumer coroutine

    A coroutine runs until it finishes or reaches an [await] on the outside
    world.  There it hands a request to the event loop together with the
    shared state; the loop resumes it later with the outcome of the awaited
    call (a value, or an exception thrown into the coroutine, which is how
    [Task.cancel()] arrives) and with the shared state as it is by then. *)

Inductive request : Type :=
| QueueGet
    (** [asyncio.wait_for(self.event_queue.get(), timeout=1.0)] *)
| Callback (cb : callback) (event : SyncEvent)
    (** [callback(event)] *)
| SendText (ws : websocket) (message : dict).
    (** [websocket.send_text(json.dumps(message))]: the serialisation and
        the send, with the dict that is serialised *)

Inductive task (A : Type) : Type :=
| Return (b : bus) (r : outcome A)
| Await (b : bus) (rq : request) (k : outcome unit -> bus -> task A).
Arguments Return {A} b r.
Arguments Await {A} b rq k.

Definition coroutine (A : Type) : Type := bus -> task A.

Fixpoint tbind {A B : Type} (t : task A) (f : A -> coroutine B) : task B :=
  match t with
  | Return b (Ok a) => f a b
  | Return b (Raise e) => Return b (Raise e)
  | Await b rq k => Await b rq (fun ans b' => tbind (k ans b') f)
  end.

Definition cbind {A B : Type} (m : coroutine A) (f : A -> coroutine B) : coroutine B :=
  fun b => tbind (m b) f.

Notation "'co' x <- m ; k" := (cbind m (fun x => k))
  (at level 10, x name, m at level 100, k at level 200).

Definition cret {A : Type} (a : A) : coroutine A := fun b => Return b (Ok a).

(** A call of code that never suspends. *)
Definition lift {A : Type} (m : action A) : coroutine A :=
  fun b => let '(b', r) := m b in Return b' r.

(** [await] on the outside world. *)
Definition await (rq : request) : coroutine unit :=
  fun b => Await b rq (fun ans b' => Return b' ans).

(** [try: body  except Exception as e: handler e].  An exception that is
    not an [Exception] passes through. *)
Fixpoint ttry {A : Type} (t : task A) (handler : exn -> coroutine A) : task A :=
  match t with
  | Return b (Ok a) => Return b (Ok a)
  | Return b (Raise e) => if is_Exception e then handler e b else Return b (Raise e)
  | Await b rq k => Await b rq (fun ans b' => ttry (k ans b') handler)
  end.

Definition try_except {A : Type} (body : coroutine A) (handler : exn -> coroutine A)
  : coroutine A :=
  fun b => ttry (body b) handler.

(** [for x in l: body x], over the list as it is when the loop starts. *)
Fixpoint for_each {X : Type} (l : list X) (body : X -> coroutine unit) : coroutine unit :=
  match l with
  | [] => cret tt
  | x :: l' => co _u <- body x; for_each l' body
  end.

Inductive loop_end : Type :=
| LoopExit       (** [while self.running] saw [False] *)
| OutOfFuel.     (** the iterations modelled are used up *)

Section Consumer.
Variable L : pylib.

(** [SyncEvent.to_dict]: [asdict] in field order, three entries
    overwritten in place. *)
Definition to_dict (e : SyncEvent) : dict :=
  [("id", VStr (event_id e));
   ("event_type", VStr (event_value (event_type e)));
   ("user_id", VStr (user_id e));
   ("data", data e);
   ("timestamp", VStr (isoformat L (timestamp e)));
   ("processed", VBool (processed e));
   ("related_entities", VList (map VStr (related_entities e)))].

(** The body of the loop of [_notify_subscribers]: one callback, inside
    its own [try]. *)
Definition notify_one (event : SyncEvent) (cb : callback) : coroutine unit :=
  try_except (await (Callback cb event))
    (fun e => lift (logger ERROR ("Error in subscriber callback: " +:+ exn_str e))).

(** [_notify_subscribers] *)
Definition _notify_subscribers (event : SyncEvent) : coroutine unit :=
  fun b =>
    let event_key := event_value (event_type event) in
    match subscribers b !! event_key with
    | Some callbacks => for_each callbacks (notify_one event) b
    | None => Return b (Ok tt)
    end.

(** [message] in [_send_realtime_updates] *)
Definition wire_message (event : SyncEvent) : dict :=
  [("type", VStr "sync_event"); ("event", VDict (to_dict event))].

(** One send inside its own [try]; [true] when it raised. *)
Definition send_one (ws : websocket) (message : dict) : coroutine bool :=
  try_except
    (co _u <- await (SendText ws message); cret false)
    (fun e =>
       co _l <- lift (logger WARNING
                        ("Failed to send WebSocket message: " +:+ exn_str e));
       cret true).

(** The first loop of [_send_realtime_updates], collecting the
    connections whose send raised. *)
Fixpoint send_to_all (conns : list websocket) (message : dict)
    (disconnected : list websocket) : coroutine (list websocket) :=
  match conns with
  | [] => cret disconnected
  | ws :: conns' =>
      co failed <- send_one ws message;
      send_to_all conns' message
                  (if failed then disconnected ++ [ws] else disconnected)
  end.

(** [_send_realtime_updates] *)
Definition _send_realtime_updates (event : SyncEvent) : coroutine unit :=
  fun b =>
    match active_connections b !! user_id event with
    | Some conns =>
        (co disconnected <- send_to_all conns (wire_message event) [];
         for_each disconnected
           (fun ws => lift (remove_websocket_connection (user_id event) ws)))
          b
    | None => Return b (Ok tt)
    end.

(** [_handle_event].  The event object is mutable; the coroutine returns
    it as it is when the call ends. *)
Definition _handle_event (event : SyncEvent) : coroutine SyncEvent :=
  try_except
    (co _l <- lift (logger INFO ("Processing event: "
                                 +:+ event_value (event_type event)));
     co _p <- lift (_process_event_by_type L event);
     co _n <- _notify_subscribers event;
     co _s <- _send_realtime_updates event;
     co _r <- lift (_update_related_entities event);
     let event := set_processed event in
     co _d <- lift (logger INFO ("Event processed: " +:+ event_id event));
     cret event)
    (fun e =>
       co _l <- lift (logger ERROR ("Error handling event " +:+ event_id event
                                    +:+ ": " +:+ exn_str e));
       cret event).

(** [await asyncio.wait_for(self.event_queue.get(), timeout=1.0)]: the
    coroutine waits; it is resumed with the head of the queue, with
    [TimeoutError] when the second passes (also assumed when it is
    resumed on an empty queue), or with a cancellation. *)
Definition wait_for_queue_get : coroutine SyncEvent :=
  fun b =>
    Await b QueueGet
      (fun ans b' =>
         match ans with
         | Ok _ => match event_queue b' with
                   | event :: rest => Return (set_queue rest b') (Ok event)
                   | [] => Return b' (Raise TimeoutError)
                   end
         | Raise e => Return b' (Raise e)
         end).

(** One pass through the body of [while self.running] in
    [_process_events] ([task_done] only counts). *)
Definition process_one : coroutine unit :=
  try_except
    (co event <- wait_for_queue_get;
     co _e <- _handle_event event;
     cret tt)
    (fun e =>
       match e with
       | TimeoutError => cret tt
       | _ => lift (logger ERROR ("Error processing event: " +:+ exn_str e))
       end).

(** [_process_events], with the number of iterations modelled. *)
Fixpoint _process_events (fuel : nat) : coroutine loop_end :=
  match fuel with
  | O => cret OutOfFuel
  | S fuel' =>
      fun b =>
        if running b
        then (co _u <- process_one; _process_events fuel') b
        else Return b (Ok LoopExit)
  end.

(** The service: either [self.processing_task] is [None], or it is a
    task, which is suspended at an [Await] or has finished and which
    carries the state of the service. *)
Inductive service : Type :=
| NoTask (b : bus)
| Task (t : task loop_end).

Definition service_bus (s : service) : bus :=
  match s with
  | NoTask b => b
  | Task (Return b _) => b
  | Task (Await b _ _) => b
  end.

(** [start]: the task created runs up to its first [await]. *)
Definition start (fuel : nat) (s : service) : service :=
  let b := service_bus s in
  if running b then s
  else Task (_process_events fuel
               (add_log INFO "Real-time sync service started" (set_running true b))).

(** [stop]: [running] is cleared, [CancelledError] is thrown into the
    task where it is suspended, and [stop] awaits the task.  The second
    component tells whether the task has finished, that is, whether
    [stop] gets to return. *)
Definition stop (s : service) : service * bool :=
  match s with
  | NoTask b =>
      (NoTask (add_log INFO "Real-time sync service stopped" (set_running false b)),
       true)
  | Task (Return b r) =>
      (Task (Return (add_log INFO "Real-time sync service stopped"
                             (set_running false b)) r),
       true)
  | Task (Await b rq k) =>
      match k (Raise CancelledError) (set_running false b) with
      | Return b' r =>
          (Task (Return (add_log INFO "Real-time sync service stopped" b') r), true)
      | Await b' rq' k' => (Task (Await b' rq' k'), false)
      end
  end.
End Consumer.

(** The event loop resuming a suspended task with scripted outcomes, the
    shared state left as the task left it: the requests served, and the
    task as it stands afterwards. *)
Fixpoint exec {A : Type} (t : task A) (answers : list (outcome unit))
  : list request * task A :=
  match t, answers with
  | Await b rq k, ans :: rest =>
      let '(served, t') := exec (k ans b) rest in (rq :: served, t')
  | _, _ => ([], t)
  end.

(** The state a task shows: the one it ended in or is suspended in. *)
Definition task_bus {A : Type} (t : task A) : bus :=
  match t with
  | Return b _ => b
  | Await b _ _ => b
  end.

(** The event loop resuming the task of a service. *)
Definition resume (s : service) (answers : list (outcome unit)) : list request * service :=
  match s with
  | NoTask b => ([], NoTask b)
  | Task t => let '(served, t') := exec t answers in (served, Task t')
  end.

(** ** Notions of the specification *)

Definition seen_in (i : nat) (l : list nat) : bool := existsb (Nat.eqb i) l.

(** The indices of a list in the order in which each is met first. *)
Fixpoint first_occurrences (seen : list nat) (l : list nat) : list nat :=
  match l with
  | [] => []
  | i :: l' =>
      if seen_in i seen then first_occurrences seen l'
      else i :: first_occurrences (i :: seen) l'
  end.

(** The order in which consolidation first meets the indices it keeps:
    the raw flags are visited detector by detector, in the order of the
    result dict, and an index outside the current batch is skipped. *)
Definition first_encountered (anomaly_results : list (string * list flag))
    (current_df : DataFrame) : list nat :=
  first_occurrences []
    (List.filter (fun i => (i <? df_len current_df)%nat)
                 (map f_index (flat_map snd anomaly_results))).

(** The raw flags on one index, and what holds while consolidation runs
    through the flags [pre]: the keys are distinct, every group lists the
    methods of the flags met on its index, and every flag inside the batch
    has its group. *)
Definition flags_on (idx : nat) (fs : list flag) : list flag :=
  List.filter (fun f => (f_index f =? idx)%nat) fs.

Definition collected (df : DataFrame) (pre : list flag) (acc : list (nat * group)) : Prop :=
  List.NoDup (map fst acc)
  /\ (forall idx g, In (idx, g) acc ->
        g_detection_methods g = map f_method (flags_on idx pre))
  /\ (forall f, In f pre -> (f_index f < df_len df)%nat ->
        seen_in (f_index f) (map fst acc) = true).

(** The number of detectors (entries of the result dict) with at least one
    flag on index [idx], and the confidence the specification describes:
    that number over the number of detectors run. *)
Definition detectors_flagging (anomaly_results : list (string * list flag)) (idx : nat)
  : nat :=
  List.length
    (List.filter (fun kv => existsb (fun a => (f_index a =? idx)%nat) (snd kv))
                 anomaly_results).

Definition fraction_of_detectors (anomaly_results : list (string * list flag)) (idx : nat)
  : Q :=
  (Qlen (detectors_flagging anomaly_results idx) / Qlen (List.length anomaly_results))%Q.

(** The fence of the IQR rule as the specification words it, with [Q1] in
    the upper limit as well. *)
Definition outside_fence_as_specified (Q1 IQR amount : Q) : bool :=
  Qlt_bool amount (Q1 - (3 # 2) * IQR)%Q || Qlt_bool (Q1 + (3 # 2) * IQR)%Q amount.

(** The fence of the code: [Q1] below, [Q3] above. *)
Definition outside_fence (k Q1 Q3 amount : Q) : bool :=
  Qlt_bool amount (Q1 - k * (Q3 - Q1))%Q || Qlt_bool (Q3 + k * (Q3 - Q1))%Q amount.

(** What the detectors return for a batch and its history (nothing when
    one of them raises), and which indices each of them flagged. *)
Definition detector_results (L : pylib) (transactions historical_data : list dict)
  : list (string * list flag) :=
  let current_df := pd_DataFrame transactions in
  let historical_df := pd_DataFrame historical_data in
  let features_df := fst (_engineer_features L current_df historical_df) in
  match _run_multiple_detection_methods L features_df historical_df with
  | Ok anomaly_results => anomaly_results
  | Raise _ => []
  end.

Definition detector_hits (L : pylib) (transactions historical_data : list dict)
  : list (string * list nat) :=
  map (fun kv => (fst kv, map f_index (snd kv)))
      (detector_results L transactions historical_data).

Definition anomalies_of (r : outcome detect_result) : list anomaly :=
  match r with
  | Ok (Detected _ _ l _) => l
  | _ => []
  end.

(** ** A concrete runtime and concrete inputs *)

(** A square root that is exact on squares of rationals. *)
Definition exact_sqrt (q : Q) : Q :=
  let r := Qred q in (Z.sqrt (Qnum r) # Pos.sqrt (Qden r))%Q.

Definition two_digits (z : Z) : string :=
  if (z <? 10)%Z then "0" +:+ pretty z else pretty z.

(** Two decimals, rounding half up; enough for the amounts below. *)
Definition fixed_2f (q : Q) : string :=
  let c := Qfloor (Qabs q * 100 + (1 # 2))%Q in
  (if Qlt_bool q 0 then "-" else "")
  +:+ pretty (c / 100)%Z +:+ "." +:+ two_digits (c mod 100)%Z.

(** A runtime for the concrete runs: an agent whose [initialize()] was not
    called, so that [self.isolation_forest] is [None] and fitting raises;
    no string is parsed as a number or a date (the inputs below carry
    numbers and datetimes). *)
Definition example_lib : pylib := {|
  to_numeric_str := fun _ => None;
  to_datetime_obj := fun _ => None;
  datetime_now := 0;
  np_sqrt := exact_sqrt;
  forest_fit_predict := fun _ => None;
  format_2f := fixed_2f;
  format_int := pretty;
  py_str := fun v => match v with VStr s => s | _ => ""%string end;
  isoformat := pretty;
  uuid4 := fun n => "uuid-" +:+ pretty n
|}.

(** Day [day] of the epoch at [h]:[m]. *)
Definition at_time (day h m : Z) : value :=
  VTime ((((day * 24 + h) * 60 + m) * 60 * 1000000000)%Z).

Definition txn (amount : Q) (t : value) : dict :=
  [("amount", VNum amount); ("date", t)].

(** Two payments a minute apart, shortly after three at night. *)
Definition two_early_payments : list dict :=
  [txn 20 (at_time 0 3 0); txn 25 (at_time 0 3 1)].

(** Fifteen payments: one of 1000 at 03:00 of day 20, one of 10 a minute
    before it, thirteen of 10 at noon of days 1 to 13; and a history of one
    payment of 10. *)
Definition outlier_batch : list dict :=
  txn 1000 (at_time 20 3 0) :: txn 10 (at_time 20 2 59)
  :: map (fun d => txn 10 (at_time d 12 0)) [1; 2; 3; 4; 5; 6; 7; 8; 9; 10; 11; 12; 13]%Z.

Definition outlier_history : list dict := [txn 10 (at_time 0 12 0)].

(** A history of one payment at three at night, and a current batch of one
    payment at noon of the next day. *)
Definition night_history : list dict := [txn 5 (at_time 0 3 0)].
Definition noon_batch : list dict := [txn 7 (at_time 1 12 0)].

(** A history whose records have no amount. *)
Definition history_without_amount : list dict := [[("category", VStr "Food")]].

(** Five payments at noon of consecutive days, the last one far larger. *)
Definition uneven_batch : list dict :=
  map (fun '(d, a) => txn a (at_time d 12 0))
      [(1%Z, 10%Q); (2%Z, 12%Q); (3%Z, 11%Q); (4%Z, 13%Q); (5%Z, 500%Q)].

(** Every group keeps the row of [current_df] at the position of its key. *)
Definition group_ok (df : DataFrame) (kv : nat * group) : Prop :=
  iloc_to_dict df (fst kv) = Some (g_transaction_data (snd kv)).

(** Five amounts at noon of consecutive days. *)
Definition five_amounts : DataFrame :=
  fst (_engineer_features example_lib
         (pd_DataFrame (map (fun '(d, a) => txn a (at_time d 12 0))
                            [(1%Z, 0%Q); (2%Z, 1%Q); (3%Z, 2%Q); (4%Z, 3%Q); (5%Z, 5%Q)]))
         (pd_DataFrame [])).

(** ** Invariants of tasks *)

(** Every state a task exposes satisfies [I] and every request it makes
    satisfies [P], however the event loop answers, as long as the state it
    is resumed with satisfies [I] again. *)
Fixpoint respects {A : Type} (I : bus -> Prop) (P : request -> Prop) (t : task A) : Prop :=
  match t with
  | Return b _ => I b
  | Await b rq k => I b /\ P rq /\ forall ans b', I b' -> respects I P (k ans b')
  end.

(** A cancellation thrown into the task at any of its awaits ends it there,
    with the state it is resumed with. *)
Fixpoint dies_when_cancelled {A : Type} (t : task A) : Prop :=
  match t with
  | Return _ _ => True
  | Await _ _ k =>
      (forall b', k (Raise CancelledError) b' = Return b' (Raise CancelledError))
      /\ forall ans b', dies_when_cancelled (k ans b')
  end.

(** The task never ends with an [Exception]. *)
Fixpoint absorbs_exceptions {A : Type} (t : task A) : Prop :=
  match t with
  | Return _ (Ok _) => True
  | Return _ (Raise e) => is_Exception e = false
  | Await _ _ k => forall ans b', absorbs_exceptions (k ans b')
  end.

(** Every queued event is as [emit_event] made it: not processed. *)
Definition queue_fresh (b : bus) : Prop :=
  Forall (fun e => processed e = false) (event_queue b).

(** The [processed] entry of the event inside a wire message. *)
Definition wire_processed (message : dict) : option value :=
  match dict_get message "event" with
  | Some (VDict event) => dict_get event "processed"
  | _ => None
  end.

Definition sends_unprocessed (rq : request) : Prop :=
  match rq with
  | SendText _ message => wire_processed message = Some (VBool false)
  | _ => True
  end.

(** An outcome other than a cancellation. *)
Definition not_cancelled (ans : outcome unit) : Prop :=
  match ans with
  | Raise CancelledError => False
  | _ => True
  end.

(** Two states that differ in the log at most. *)
Definition same_but_log (b b' : bus) : Prop :=
  event_queue b' = event_queue b
  /\ subscribers b' = subscribers b
  /\ active_connections b' = active_connections b
  /\ running b' = running b
  /\ uuid_count b' = uuid_count b
  /\ clock b' = clock b.

(** An action that keeps an invariant of the state. *)
Definition preserves {A : Type} (I : bus -> Prop) (m : action A) : Prop :=
  forall b, I b -> I (fst (m b)).

(** ** Concrete payloads and a concrete bus *)

(** The payload of the cascade example of the specification. *)
Definition receipt_payload : value :=
  VDict [("success", VBool true);
         ("parsed_data",
          VDict [("total", VNum (85 # 2)); ("category", VStr "Groceries");
                 ("vendor", VStr "Acme"); ("date", VStr "2024-01-05")])].

(** A successful parse that found no total. *)
Definition receipt_without_total : value :=
  VDict [("success", VBool true);
         ("parsed_data", VDict [("category", VStr "Groceries"); ("vendor", VStr "Acme")])].

(** A payload whose [parsed_data] is the raw text, not a dict. *)
Definition receipt_raw_text : value :=
  VDict [("success", VBool true); ("parsed_data", VStr "ACME TOTAL 42.50")].

(** A fresh bus on which one receipt event was emitted for alice, callback
    7 subscribed to receipt events, and connection 3 registered for
    alice. *)
Definition bus_with_receipt (payload : value) : bus :=
  fst ((act _e <- emit_event example_lib RECEIPT_PROCESSED "alice" payload
                    (Some ["transaction"; "budget"]%string);
        act _s <- subscribe RECEIPT_PROCESSED 7;
        add_websocket_connection "alice" 3) (new_bus 1000)).

Definition receipt_event (payload : value) : SyncEvent :=
  mkEvent "uuid-0" RECEIPT_PROCESSED "alice" payload 1000 false
          ["transaction"; "budget"]%string.

(** What a service state shows from outside. *)
Definition observe (s : service)
  : list SyncEvent * list (level * string) * bool * option request
    * option (outcome loop_end) :=
  let b := service_bus s in
  (event_queue b, log b, running b,
   match s with Task (Await _ rq _) => Some rq | _ => None end,
   match s with Task (Return _ r) => Some r | _ => None end).
(** ** The bus: entry points for the other services *)

(** A dict display [{k: v, **extra}]: the entries of [extra] are stored
    after the written ones, a repeated key overwriting the value in
    place. *)
Definition dict_display (written extra : dict) : dict :=
  fold_left (fun acc kv => dict_set acc (fst kv) (snd kv)) extra written.

Section Integration.
Variable L : pylib.

(** [sync_receipt_to_transaction] *)
Definition sync_receipt_to_transaction (uid : string) (receipt_data : value)
  : action unit :=
  emit_event L RECEIPT_PROCESSED uid receipt_data
             (Some ["transaction"; "budget"]%string).

(** [sync_transaction_to_goals] *)
Definition sync_transaction_to_goals (uid : string) (transaction_data : value)
  : action unit :=
  emit_event L TRANSACTION_ADDED uid transaction_data
             (Some ["goal"; "budget"]%string).

(** [sync_goal_progress]; unpacking something that is not a mapping
    raises before anything is emitted. *)
Definition sync_goal_progress (uid : string) (goal_id progress_data : value)
  : action unit :=
  match progress_data with
  | VDict d =>
      emit_event L GOAL_PROGRESS_UPDATED uid
                 (VDict (dict_display [("goal_id", goal_id)] d))
                 (Some ["budget"; "analytics"]%string)
  | _ => lift_outcome (Raise (TypeError "object is not a mapping"))
  end.

(** [trigger_auto_save] *)
Definition trigger_auto_save (uid : string) (goal_id auto_save_data : value)
  : action unit :=
  match auto_save_data with
  | VDict d =>
      emit_event L AUTO_SAVE_TRIGGERED uid
                 (VDict (dict_display [("goal_id", goal_id)] d))
                 (Some ["transaction"; "goal"]%string)
  | _ => lift_outcome (Raise (TypeError "object is not a mapping"))
  end.

(** The dict returned by [get_sync_status]. *)
Record sync_status : Type := mkStatus {
  connected : bool;
  status_connections : nat;
  queue_size : nat;
  service_running : bool;
  last_sync : string
}.

(** [get_sync_status] *)
Definition get_sync_status (uid : string) (b : bus) : sync_status :=
  mkStatus (match active_connections b !! uid with Some _ => true | None => false end)
           (List.length (default [] (active_connections b !! uid)))
           (List.length (event_queue b))
           (running b)
           (isoformat L (clock b)).
End Integration.

(** [needle in s] on strings. *)
Fixpoint starts_with (needle s : string) : bool :=
  match needle, s with
  | EmptyString, _ => true
  | String a needle', String c s' => Ascii.eqb a c && starts_with needle' s'
  | String _ _, EmptyString => false
  end.

Fixpoint str_in (needle s : string) : bool :=
  starts_with needle s
  || match s with
     | EmptyString => false
     | String _ s' => str_in needle s'
     end.

(** The body of [_get_entity_type_from_event], on the name of the kind. *)
Definition entity_type_of_name (name : string) : string :=
  if str_in "transaction" name then "transaction"
  else if str_in "receipt" name then "receipt"
  else if str_in "goal" name then "goal"
  else if str_in "budget" name then "budget"
  else "unknown".

(** ** Notions for the properties of the bus *)

(** The connection registry holds no empty list: [add_websocket_connection]
    stores a list with the new connection, [remove_websocket_connection]
    deletes the key with the last one. *)
Definition registry_ok (b : bus) : Prop :=
  map_Forall (fun _ conns => conns <> []) (active_connections b).

(** How far a kind of event is from the end of a cascade. *)
Definition cascade_rank (et : EventType) : nat :=
  match et with
  | RECEIPT_PROCESSED => 3
  | TRANSACTION_ADDED => 2
  | GOAL_PROGRESS_UPDATED => 1
  | _ => 0
  end.

(** How many events the processing of one event of a kind can emit. *)
Definition cascade_fanout (et : EventType) : nat :=
  match et with
  | TRANSACTION_ADDED => 2
  | RECEIPT_PROCESSED | GOAL_PROGRESS_UPDATED => 1
  | _ => 0
  end.

(** A bound on the events an event of a kind stands for: itself and
    everything its processing can emit, directly or not. *)
Definition cascade_weight (et : EventType) : nat :=
  match et with
  | RECEIPT_PROCESSED => 6
  | TRANSACTION_ADDED => 5
  | GOAL_PROGRESS_UPDATED => 2
  | _ => 1
  end.

Definition queue_weight (q : list SyncEvent) : nat :=
  list_sum (map (fun e => cascade_weight (event_type e)) q).

(** An action that only appends to the queue: at most [n] events, each of
    them satisfying [C]. *)
Definition appends {A : Type} (C : SyncEvent -> Prop) (n : nat) (m : action A) : Prop :=
  forall b, exists children,
    event_queue (fst (m b)) = event_queue b ++ children
    /\ Forall C children
    /\ (List.length children <= n)%nat.

(** The connections of [conns] whose send returned, given the outcome of
    each send in order. *)
Fixpoint delivered (conns : list websocket) (answers : list (outcome unit))
  : list websocket :=
  match conns, answers with
  | ws :: conns', Ok _ :: answers' => ws :: delivered conns' answers'
  | _ :: conns', Raise _ :: answers' => delivered conns' answers'
  | _, _ => []
  end.

(** The connections of [conns] whose send raised. *)
Fixpoint failed (conns : list websocket) (answers : list (outcome unit))
  : list websocket :=
  match conns, answers with
  | _ :: conns', Ok _ :: answers' => failed conns' answers'
  | ws :: conns', Raise _ :: answers' => ws :: failed conns' answers'
  | _, _ => []
  end.

(** An entry of the event inside a wire message. *)
Definition wire_field (message : dict) (k : string) : option value :=
  match dict_get message "event" with
  | Some (VDict event) => dict_get event k
  | _ => None
  end.

(** The bus after [subs], a list of [subscribe] calls. *)
Definition subscribe_all (subs : list (EventType * callback)) (b : bus) : bus :=
  fold_left (fun b' s => fst (subscribe (fst s) (snd s) b')) subs b.

(** Two kinds are the same when their names are. *)
Definition EventType_eqb (a c : EventType) : bool :=
  String.eqb (event_value a) (event_value c).

(** What an event emitted while [event] is processed looks like: it is
    for the same user, not processed, and nearer to the end of a
    cascade. *)
Definition child_of (event c : SyncEvent) : Prop :=
  user_id c = user_id event
  /\ processed c = false
  /\ (cascade_rank (event_type c) < cascade_rank (event_type event))%nat.

(** The events [_handle_transaction_added] emits for the transaction [d]
    of user [uid]: the [n]-th identifier drawn, at time [now]. *)
Definition budget_event (L : pylib) (uid : string) (d : dict) (n : nat) (now : Z)
  : SyncEvent :=
  mkEvent (uuid4 L n) BUDGET_UPDATED uid
    (VDict [("category", default (VStr "Unknown") (dict_get d "category"));
            ("amount_spent", default (VNum 0) (dict_get d "amount"));
            ("transaction_id", default VNone (dict_get d "id"))])
    now false [].

Definition goal_event (L : pylib) (uid : string) (d : dict) (n : nat) (now : Z)
  : SyncEvent :=
  mkEvent (uuid4 L n) GOAL_PROGRESS_UPDATED uid
    (VDict [("amount_added", default (VNum 0) (dict_get d "amount"));
            ("transaction_id", default VNone (dict_get d "id"));
            ("source", VStr "transaction")])
    now false [].

Definition is_expense (d : dict) : bool :=
  value_eq_str (default VNone (dict_get d "type")) "expense".

Definition is_saving (d : dict) : bool :=
  value_eq_str (default VNone (dict_get d "type")) "income"
  || value_eq_str (default VNone (dict_get d "category")) "Savings".

(** An expense of 35 booked on the category Savings, the event
    [sync_transaction_to_goals] queues for it on a new bus, and that bus
    once the event is taken from the queue. *)
Definition savings_payload : dict :=
  [("id", VStr "t1"); ("type", VStr "expense");
   ("category", VStr "Savings"); ("amount", VNum 35)].

Definition savings_expense : SyncEvent :=
  mkEvent "uuid-0" TRANSACTION_ADDED "alice" (VDict savings_payload)
    1000 false ["goal"; "budget"]%string.

Definition bus_after_savings : bus :=
  set_queue [] (fst (sync_transaction_to_goals example_lib "alice"
                       (VDict savings_payload) (new_bus 1000))).

(** The bus on which [sync_receipt_to_transaction] queued the receipt of
    the cascade example, once that event is taken from the queue. *)
Definition bus_after_receipt : bus :=
  set_queue [] (fst (sync_receipt_to_transaction example_lib "alice" receipt_payload
                       (new_bus 1000))).

(** Where the consumer may deliver: a callback gets events of a kind it
    is subscribed to in [b], and a connection gets messages about events
    of a user it is registered for in [b]. *)
Definition routed (b : bus) (rq : request) : Prop :=
  match rq with
  | QueueGet => True
  | Callback cb event =>
      In cb (default [] (subscribers b !! event_value (event_type event)))
  | SendText ws message =>
      exists uid,
        wire_field message "user_id" = Some (VStr uid)
        /\ In ws (default [] (active_connections b !! uid))
  end.

(** The registries of [b'] hold nothing that those of [b] do not hold. *)
Definition registries_within (b b' : bus) : Prop :=
  subscribers b' = subscribers b
  /\ forall uid ws,
       In ws (default [] (active_connections b' !! uid)) ->
       In ws (default [] (active_connections b !! uid)).

(** The bus of the receipt example with a second connection of alice. *)
Definition bus_two_connections : bus :=
  fst (add_websocket_connection "alice" 4 (bus_with_receipt receipt_payload)).

(** An action that raises nothing but [Exception]s. *)
Definition raises_Exceptions {A : Type} (m : action A) : Prop :=
  forall b b' x, m b = (b', Raise x) -> is_Exception x = true.

(** The event [_handle_goal_progress_updated] emits for the goal data
    [d]. *)
Definition milestone_event (L : pylib) (uid : string) (d : dict) (n : nat) (now : Z)
  : SyncEvent :=
  mkEvent (uuid4 L n) MILESTONE_ACHIEVED uid
    (VDict [("goal_id", default VNone (dict_get d "goal_id"));
            ("milestone", default VNone (dict_get d "milestone_achieved"));
            ("celebration_message", default VNone (dict_get d "celebration_message"))])
    now false [].

(** Kind, user and payload of the queued events. *)
Definition queued (b : bus) : list (EventType * string * value) :=
  map (fun e => (event_type e, user_id e, data e)) (event_queue b).

(** Progress data that reports a milestone and names a goal itself. *)
Definition progress_with_milestone : dict :=
  [("amount", VNum 50); ("goal_id", VStr "g2"); ("milestone_achieved", VStr "50%")].

(** The event [sync_goal_progress] queues on a new bus for alice, goal
    g1 and [progress_with_milestone]. *)
Definition progress_event : SyncEvent :=
  mkEvent "uuid-0" GOAL_PROGRESS_UPDATED "alice"
    (VDict (dict_display [("goal_id", VStr "g1")] progress_with_milestone))
    1000 false ["budget"; "analytics"]%string.

(** ** Notions for the properties of the anomaly engine *)

(** The step of the running maximum kept in [max_severity], and the
    result over the flags of one index. *)
Definition severity_max (s : severity) (f : flag) : severity :=
  if (severity_order s <? severity_order (f_severity f))%nat then f_severity f else s.

Definition max_severity (fs : list flag) : severity := fold_left severity_max fs Low.

(** What every group holds while consolidation runs through the flags
    [pre]: its own key, and the scores, reasons and highest severity of
    the flags met on that key, of which there is at least one. *)
Definition summarised (pre : list flag) (acc : list (nat * group)) : Prop :=
  forall idx g, In (idx, g) acc ->
    g_transaction_index g = idx
    /\ flags_on idx pre <> []
    /\ g_scores g = map f_score (flags_on idx pre)
    /\ g_reasons g = map (fun f => default ""%string (f_reason f)) (flags_on idx pre)
    /\ g_max_severity g = max_severity (flags_on idx pre).

(** The names under which [_run_multiple_detection_methods] files the
    four detectors. *)
Definition detector_names : list string :=
  ["isolation_forest"; "statistical"; "zscore"; "business_rules"]%string.

(** ** The analysis summary *)

(** [severity_counts[severity] = severity_counts.get(severity, 0) + 1] on
    a dict in insertion order. *)
Fixpoint count_up (counts : list (severity * nat)) (s : severity)
  : list (severity * nat) :=
  match counts with
  | [] => [(s, 1)]
  | (s', n) :: rest =>
      if (severity_order s' =? severity_order s)%nat then (s', S n) :: rest
      else (s', n) :: count_up rest s
  end.

(** [_get_recommendation] *)
Definition _get_recommendation (risk_level : string) (anomaly_count : nat) : string :=
  if String.eqb risk_level "high" then
    "High anomaly rate detected. Review all flagged transactions and consider updating spending patterns."
  else if String.eqb risk_level "medium" then
    "Moderate anomaly rate. Review high-severity anomalies and monitor spending patterns."
  else if (0 <? anomaly_count)%nat then
    "Few anomalies detected. Review flagged transactions for any unauthorized activity."
  else
    "No significant anomalies detected. Your spending patterns appear normal.".

(** The dict returned by [_generate_analysis_summary]. *)
Record analysis : Type := mkAnalysis {
  total_transactions_analyzed : nat;
  analysis_anomalies_detected : nat;
  anomaly_rate_percentage : Q;
  severity_breakdown : list (severity * nat);
  risk_level : string;
  detection_methods_used : list string;
  recommendation : string
}.

Section Summary.
(** [round(x, 2)] *)
Variable round_2 : Q -> Q.

(** [_generate_analysis_summary] *)
Definition _generate_analysis_summary (anomalies : list anomaly) (current_df : DataFrame)
  : analysis :=
  let total_transactions := df_len current_df in
  let anomaly_count := List.length anomalies in
  let anomaly_rate :=
    if (0 <? total_transactions)%nat
    then (Qlen anomaly_count / Qlen total_transactions * 100)%Q
    else 0%Q in
  let severity_counts := fold_left count_up (map a_severity anomalies) [] in
  let risk_level :=
    if Qlt_bool 20 anomaly_rate then "high"%string
    else if Qlt_bool 10 anomaly_rate then "medium"%string
    else "low"%string in
  mkAnalysis total_transactions anomaly_count (round_2 anomaly_rate) severity_counts
             risk_level
             ["isolation_forest"; "statistical"; "zscore"; "business_rules"]%string
             (_get_recommendation risk_level anomaly_count).
End Summary.

(** The detector results, the batch after feature engineering and the
    first consolidated anomaly of [two_early_payments]. *)
Definition early_results : list (string * list flag) :=
  detector_results example_lib two_early_payments [].

Definition early_frame : DataFrame :=
  snd (_engineer_features example_lib (pd_DataFrame two_early_payments) (pd_DataFrame [])).

Definition early_anomaly : anomaly :=
  hd (mkAnomaly 0 [] [] 0 0 Low [] 0) (_consolidate_anomalies early_results early_frame).

(** The number of historical rows in front of the batch in the feature
    frame: none when the historical frame is empty. *)
Definition history_offset (historical_data : list dict) : nat :=
  if df_empty (pd_DataFrame historical_data) then 0 else List.length historical_data.

(** The feature frame of [uneven_batch] without history, and what the
    IQR detector returns for it. *)
Definition uneven_frame : DataFrame :=
  fst (_engineer_features example_lib (pd_DataFrame uneven_batch) (pd_DataFrame [])).

Definition uneven_flags : list flag :=
  match _statistical_outlier_detection example_lib uneven_frame with
  | Ok flags => flags
  | Raise _ => []
  end.
(** * Properties *)

(** ** The sort behind the ranking *)

Section SortPermutes.
Context {A : Type} (leb : A -> A -> bool).

Lemma insert_sorted_perm (x : A) (l : list A) :
  Permutation (x :: l) (insert_sorted leb x l).
Proof.
  induction l as [|y l IH]; simpl.
  - reflexivity.
  - destruct (leb x y).
    + reflexivity.
    + rewrite perm_swap. constructor. exact IH.
Qed.

Lemma isort_perm (l : list A) : Permutation l (isort leb l).
Proof.
  induction l as [|x l IH]; simpl.
  - reflexivity.
  - rewrite <- insert_sorted_perm. constructor. exact IH.
Qed.
End SortPermutes.

Section SortFacts.
Context {A : Type} (key : A -> Q).

Lemma leb_false_lt (x y : A) : key_leb key x y = false -> (key y < key x)%Q.
Proof.
  unfold key_leb. intros H. apply Qnot_le_lt. intros Hle.
  apply Qle_bool_iff in Hle. congruence.
Qed.

Lemma insert_sorted_sorted (x : A) (l : list A) :
  StronglySorted (key_below key) l ->
  StronglySorted (key_below key) (insert_sorted (key_leb key) x l).
Proof.
  induction 1 as [|y l Hs IH Hall]; simpl.
  - repeat constructor.
  - destruct (key_leb key x y) eqn:E.
    + apply Qle_bool_iff in E.
      constructor; [constructor; assumption|].
      constructor; [exact E|].
      eapply List.Forall_impl; [|exact Hall].
      intros z Hz. unfold key_below in *. eapply Qle_trans; eassumption.
    + apply leb_false_lt in E.
      constructor; [exact IH|].
      rewrite <- insert_sorted_perm.
      constructor; [|exact Hall].
      apply Qlt_le_weak, E.
Qed.

Lemma isort_sorted (l : list A) :
  StronglySorted (key_below key) (isort (key_leb key) l).
Proof.
  induction l as [|x l IH]; simpl.
  - constructor.
  - apply insert_sorted_sorted, IH.
Qed.

(** Insertion passes only elements of a strictly smaller key, so it
    leaves the elements of any one key in their order. *)
Lemma insert_sorted_filter (s : Q) (x : A) (l : list A) :
  let p := fun a => Qeq_bool (key a) s in
  List.filter p (insert_sorted (key_leb key) x l)
  = if p x then x :: List.filter p l else List.filter p l.
Proof.
  intros p. induction l as [|y l IH]; simpl.
  - reflexivity.
  - destruct (key_leb key x y) eqn:E; simpl.
    + reflexivity.
    + rewrite IH. destruct (p x) eqn:Px; [|reflexivity].
      assert (Py : p y = false).
      { apply leb_false_lt in E. unfold p in *.
        apply Qeq_bool_iff in Px.
        destruct (Qeq_bool (key y) s) eqn:Ey; [|reflexivity].
        apply Qeq_bool_iff in Ey. exfalso.
        rewrite Px, <- Ey in E. exact (Qlt_irrefl _ E). }
      rewrite Py. reflexivity.
Qed.

Lemma isort_filter (s : Q) (l : list A) :
  List.filter (fun a => Qeq_bool (key a) s) (isort (key_leb key) l)
  = List.filter (fun a => Qeq_bool (key a) s) l.
Proof.
  induction l as [|x l IH]; simpl.
  - reflexivity.
  - rewrite insert_sorted_filter, IH. reflexivity.
Qed.

Lemma StronglySorted_snoc (R : A -> A -> Prop) (l : list A) (x : A) :
  StronglySorted R l -> Forall (fun y => R y x) l -> StronglySorted R (l ++ [x]).
Proof.
  induction 1 as [|y l Hs IH Hall]; intros Hx; simpl.
  - repeat constructor.
  - inversion Hx; subst. constructor.
    + apply IH. assumption.
    + apply Forall_app. split; [exact Hall|]. constructor; [assumption|constructor].
Qed.

Lemma StronglySorted_rev_flip (R : A -> A -> Prop) (l : list A) :
  StronglySorted R l -> StronglySorted (fun a b => R b a) (rev l).
Proof.
  induction 1 as [|y l Hs IH Hall]; simpl.
  - constructor.
  - apply StronglySorted_snoc; [exact IH|].
    apply Forall_rev. exact Hall.
Qed.

Lemma sort_reverse_sorted (l : list A) :
  StronglySorted (fun a b => (key b <= key a)%Q) (sort_reverse key l).
Proof.
  unfold sort_reverse.
  apply (StronglySorted_rev_flip (key_below key)). apply isort_sorted.
Qed.

Lemma sort_reverse_perm (l : list A) : Permutation l (sort_reverse key l).
Proof.
  unfold sort_reverse.
  transitivity (rev l); [apply Permutation_rev|].
  transitivity (isort (key_leb key) (rev l));
    [apply isort_perm|apply Permutation_rev].
Qed.

Lemma sort_reverse_stable (s : Q) (l : list A) :
  List.filter (fun a => Qeq_bool (key a) s) (sort_reverse key l)
  = List.filter (fun a => Qeq_bool (key a) s) l.
Proof.
  unfold sort_reverse.
  rewrite List.filter_rev, isort_filter.
  rewrite List.filter_rev, rev_involutive. reflexivity.
Qed.
End SortFacts.

(** ** Consolidation: which indices are kept, and in which order *)

Lemma by_index_get_seen (m : list (nat * group)) (i : nat) :
  match by_index_get m i with
  | Some _ => seen_in i (map fst m) = true
  | None => seen_in i (map fst m) = false
  end.
Proof.
  induction m as [|[j g] m IH]; simpl.
  - reflexivity.
  - rewrite (Nat.eqb_sym i j). destruct (j =? i)%nat; simpl; [reflexivity|exact IH].
Qed.

Lemma by_index_update_keys (m : list (nat * group)) (i : nat) (f : group -> group) :
  map fst (by_index_update m i f) = map fst m.
Proof.
  induction m as [|[j g] m IH]; simpl.
  - reflexivity.
  - destruct (j =? i)%nat; simpl; [reflexivity|]. f_equal. exact IH.
Qed.

Lemma iloc_to_dict_lt (df : DataFrame) (i : nat) :
  (i < df_len df)%nat -> exists t, iloc_to_dict df i = Some t.
Proof.
  unfold df_len, iloc_to_dict. intros H.
  destruct (nth_error (rows df) i) as [r|] eqn:E.
  - exists (snd r). reflexivity.
  - apply nth_error_None in E. lia.
Qed.

(** One raw flag adds its index at the end when the index is new and lies
    inside the current batch, and adds nothing otherwise. *)
Lemma collect_flag_keys (df : DataFrame) (m : list (nat * group)) (a : flag) :
  map fst (collect_flag df m a)
  = if seen_in (f_index a) (map fst m) then map fst m
    else if (f_index a <? df_len df)%nat then map fst m ++ [f_index a]
         else map fst m.
Proof.
  unfold collect_flag.
  pose proof (by_index_get_seen m (f_index a)) as Hm.
  destruct (by_index_get m (f_index a)) as [g|] eqn:E.
  - rewrite E, Hm. apply by_index_update_keys.
  - rewrite Hm. destruct (f_index a <? df_len df)%nat eqn:Hlt.
    + apply Nat.ltb_lt in Hlt.
      destruct (iloc_to_dict_lt df _ Hlt) as [t Ht]. rewrite Ht.
      set (m' := m ++ [(f_index a, mkGroup (f_index a) t [] [] [] Low)]).
      assert (Hget : exists g, by_index_get m' (f_index a) = Some g).
      { pose proof (by_index_get_seen m' (f_index a)) as Hm'.
        destruct (by_index_get m' (f_index a)) as [g|]; [eauto|].
        unfold m', seen_in in Hm'. rewrite map_app, existsb_app in Hm'.
        simpl in Hm'. rewrite Nat.eqb_refl in Hm'.
        rewrite ?orb_true_l, ?orb_true_r in Hm'. discriminate. }
      destruct Hget as [g Hg]. rewrite Hg, by_index_update_keys.
      unfold m'. rewrite map_app. reflexivity.
    + rewrite E. reflexivity.
Qed.

Lemma first_occurrences_seen_ext (s1 s2 l : list nat) :
  (forall i, seen_in i s1 = seen_in i s2) ->
  first_occurrences s1 l = first_occurrences s2 l.
Proof.
  revert s1 s2. induction l as [|i l IH]; intros s1 s2 H; simpl.
  - reflexivity.
  - rewrite (H i).
    destruct (seen_in i s2); [apply IH, H|].
    f_equal. apply IH. intros j. unfold seen_in in *. simpl. rewrite (H j). reflexivity.
Qed.

Lemma collect_fold_keys (df : DataFrame) (flags : list flag) (m : list (nat * group)) :
  map fst (fold_left (collect_flag df) flags m)
  = map fst m
    ++ first_occurrences (map fst m)
         (List.filter (fun i => (i <? df_len df)%nat) (map f_index flags)).
Proof.
  revert m. induction flags as [|a flags IH]; intros m; simpl.
  - rewrite app_nil_r. reflexivity.
  - rewrite IH, collect_flag_keys.
    destruct (f_index a <? df_len df)%nat eqn:Hlt; simpl.
    + destruct (seen_in (f_index a) (map fst m)) eqn:Hs; [reflexivity|].
      rewrite <- app_assoc. simpl. do 2 f_equal.
      apply first_occurrences_seen_ext. intros j. unfold seen_in.
      rewrite existsb_app. simpl. rewrite orb_false_r. apply orb_comm.
    + destruct (seen_in (f_index a) (map fst m)); reflexivity.
Qed.

Lemma fold_left_flat_map {X Y S : Type} (g : S -> Y -> S) (proj : X -> list Y)
    (xs : list X) (acc : S) :
  fold_left (fun acc x => fold_left g (proj x) acc) xs acc
  = fold_left g (flat_map proj xs) acc.
Proof.
  revert acc. induction xs as [|x xs IH]; intros acc; simpl.
  - reflexivity.
  - rewrite fold_left_app. apply IH.
Qed.

Lemma collect_by_index_flat (anomaly_results : list (string * list flag))
    (current_df : DataFrame) :
  collect_by_index anomaly_results current_df
  = fold_left (collect_flag current_df) (flat_map snd anomaly_results) [].
Proof. unfold collect_by_index. apply fold_left_flat_map. Qed.

Lemma consolidated_unsorted_indices (anomaly_results : list (string * list flag))
    (current_df : DataFrame) :
  map transaction_index (consolidated_unsorted anomaly_results current_df)
  = first_encountered anomaly_results current_df.
Proof.
  unfold consolidated_unsorted, first_encountered.
  rewrite map_map. simpl.
  rewrite collect_by_index_flat, collect_fold_keys. reflexivity.
Qed.

Lemma first_occurrences_fresh (seen l : list nat) (i : nat) :
  In i (first_occurrences seen l) -> seen_in i seen = false.
Proof.
  revert seen. induction l as [|j l IH]; intros seen; simpl.
  - intros [].
  - destruct (seen_in j seen) eqn:Hs.
    + apply IH.
    + intros [->|H]; [exact Hs|].
      apply IH in H. unfold seen_in in *. simpl in H.
      apply orb_false_elim in H. tauto.
Qed.

Lemma first_occurrences_NoDup (seen l : list nat) :
  List.NoDup (first_occurrences seen l).
Proof.
  revert seen. induction l as [|j l IH]; intros seen; simpl.
  - constructor.
  - destruct (seen_in j seen); [apply IH|].
    constructor; [|apply IH].
    intros H. apply first_occurrences_fresh in H.
    unfold seen_in in H. simpl in H. rewrite Nat.eqb_refl in H. discriminate.
Qed.

(** ** Consolidation: what the confidence counts *)

Lemma seen_in_In (i : nat) (l : list nat) : seen_in i l = true <-> In i l.
Proof.
  unfold seen_in. rewrite existsb_exists. split.
  - intros [j [Hj E]]. apply Nat.eqb_eq in E. subst. exact Hj.
  - intros H. exists i. split; [exact H|apply Nat.eqb_refl].
Qed.

Lemma flags_on_snoc (idx : nat) (pre : list flag) (a : flag) :
  flags_on idx (pre ++ [a])
  = flags_on idx pre ++ (if (f_index a =? idx)%nat then [a] else []).
Proof. unfold flags_on. rewrite List.filter_app. reflexivity. Qed.

Lemma by_index_update_In (m : list (nat * group)) (i : nat) (f : group -> group)
    (idx : nat) (g : group) :
  List.NoDup (map fst m) ->
  In (idx, g) (by_index_update m i f) ->
  (idx <> i /\ In (idx, g) m) \/ (idx = i /\ exists g0, In (i, g0) m /\ g = f g0).
Proof.
  induction m as [|[j gj] m IH]; simpl; intros Hnd Hin; [contradiction|].
  inversion Hnd as [|? ? Hj Hnd']; subst.
  destruct (j =? i)%nat eqn:E.
  - apply Nat.eqb_eq in E. subst j. destruct Hin as [Hin|Hin].
    + injection Hin as <- <-. right. split; [reflexivity|]. exists gj. auto.
    + left. split; [|right; exact Hin].
      intros ->. apply Hj. apply in_map_iff. exists (i, g). auto.
  - apply Nat.eqb_neq in E. destruct Hin as [Hin|Hin].
    + injection Hin as <- <-. left. split; [exact E|left; reflexivity].
    + destruct (IH Hnd' Hin) as [[Hne H]|[-> [g0 [H0 Hg]]]].
      * left. split; [exact Hne|right; exact H].
      * right. split; [reflexivity|]. exists g0. split; [right; exact H0|exact Hg].
Qed.

Lemma collected_step (df : DataFrame) (pre : list flag) (acc : list (nat * group))
    (a : flag) :
  collected df pre acc -> collected df (pre ++ [a]) (collect_flag df acc a).
Proof.
  intros [Hnd [Hm Hseen]].
  assert (Hupd : forall acc',
            List.NoDup (map fst acc') ->
            (forall idx g, In (idx, g) acc' ->
               g_detection_methods g = map f_method (flags_on idx pre)) ->
            (forall f, In f (pre ++ [a]) -> (f_index f < df_len df)%nat ->
               seen_in (f_index f) (map fst acc') = true) ->
            collected df (pre ++ [a])
              (by_index_update acc' (f_index a)
                 (fun g =>
                    mkGroup (g_transaction_index g) (g_transaction_data g)
                      (g_detection_methods g ++ [f_method a])
                      (g_scores g ++ [f_score a])
                      (g_reasons g ++ [default ""%string (f_reason a)])
                      (if (severity_order (g_max_severity g)
                           <? severity_order (f_severity a))%nat
                       then f_severity a else g_max_severity g)))).
  { intros acc' Hnd' Hm' Hseen'. split; [|split].
    - rewrite by_index_update_keys. exact Hnd'.
    - intros idx g Hin. rewrite flags_on_snoc, map_app.
      destruct (by_index_update_In _ _ _ _ _ Hnd' Hin) as [[Hne H]|[-> [g0 [H0 ->]]]].
      + apply Nat.eqb_neq in Hne. rewrite Nat.eqb_sym in Hne. rewrite Hne.
        simpl. rewrite app_nil_r. apply Hm', H.
      + rewrite Nat.eqb_refl. simpl. rewrite (Hm' _ _ H0). reflexivity.
    - intros f Hf Hlt. rewrite by_index_update_keys. apply Hseen'; assumption. }
  unfold collect_flag.
  pose proof (by_index_get_seen acc (f_index a)) as Hget.
  destruct (by_index_get acc (f_index a)) as [g0|] eqn:E.
  - rewrite E. apply Hupd; [exact Hnd|exact Hm|].
    intros f Hf Hlt. apply in_app_or in Hf. destruct Hf as [Hf|[<-|[]]].
    + apply Hseen; assumption.
    + exact Hget.
  - destruct (f_index a <? df_len df)%nat eqn:Hlt.
    + apply Nat.ltb_lt in Hlt.
      destruct (iloc_to_dict_lt df _ Hlt) as [t Ht]. rewrite Ht.
      assert (Hfresh : ~ In (f_index a) (map fst acc)).
      { intros H. apply seen_in_In in H. congruence. }
      assert (Hnone : flags_on (f_index a) pre = []).
      { unfold flags_on. destruct (List.filter _ pre) as [|f fs] eqn:Ef; [reflexivity|].
        assert (Hin : In f (List.filter (fun f => (f_index f =? f_index a)%nat) pre))
          by (rewrite Ef; left; reflexivity).
        apply filter_In in Hin. destruct Hin as [Hin Heq].
        apply Nat.eqb_eq in Heq.
        specialize (Hseen f Hin). rewrite Heq in Hseen.
        rewrite (Hseen Hlt) in Hget. discriminate. }
      set (acc' := acc ++ [(f_index a, mkGroup (f_index a) t [] [] [] Low)]).
      assert (Hget' : exists g, by_index_get acc' (f_index a) = Some g).
      { pose proof (by_index_get_seen acc' (f_index a)) as H.
        destruct (by_index_get acc' (f_index a)); [eauto|].
        assert (H' : seen_in (f_index a) (map fst acc') = true).
        { apply seen_in_In. unfold acc'. rewrite map_app. apply in_or_app.
          right. left. reflexivity. }
        congruence. }
      destruct Hget' as [g Hg]. rewrite Hg.
      apply Hupd.
      * unfold acc'. rewrite map_app. simpl.
        apply List.NoDup_app; [exact Hnd|constructor; [intros []|constructor]|].
        intros x Hx [<-|[]]. exact (Hfresh Hx).
      * intros idx g' Hin. unfold acc' in Hin. apply in_app_or in Hin.
        destruct Hin as [Hin|[Hin|[]]]; [apply Hm, Hin|].
        injection Hin as <- <-. simpl. rewrite Hnone. reflexivity.
      * intros f Hf Hltf. apply seen_in_In. unfold acc'. rewrite map_app.
        apply in_or_app. apply in_app_or in Hf. destruct Hf as [Hf|[<-|[]]].
        -- left. apply seen_in_In. apply Hseen; assumption.
        -- right. left. reflexivity.
    + rewrite E. split; [exact Hnd|]. split.
      * intros idx g Hin. rewrite flags_on_snoc, map_app.
        destruct (f_index a =? idx)%nat eqn:Ei.
        -- apply Nat.eqb_eq in Ei. exfalso.
           assert (H : seen_in (f_index a) (map fst acc) = true).
           { apply seen_in_In. apply in_map_iff. exists (idx, g). auto. }
           congruence.
        -- simpl. rewrite app_nil_r. apply Hm, Hin.
      * intros f Hf Hltf. apply in_app_or in Hf. destruct Hf as [Hf|[<-|[]]].
        -- apply Hseen; assumption.
        -- apply Nat.ltb_lt in Hltf. congruence.
Qed.

Lemma collected_fold (df : DataFrame) (flags pre : list flag) (acc : list (nat * group)) :
  collected df pre acc ->
  collected df (pre ++ flags) (fold_left (collect_flag df) flags acc).
Proof.
  revert pre acc. induction flags as [|a flags IH]; intros pre acc H; simpl.
  - rewrite app_nil_r. exact H.
  - replace (pre ++ a :: flags) with ((pre ++ [a]) ++ flags)
      by (rewrite <- app_assoc; reflexivity).
    apply IH, collected_step, H.
Qed.

(** What the code computes as confidence, for every input: the number of
    raw flags on the index, each sub-rule of the business rules counted
    for itself, over the number of detectors. *)
Lemma confidence_is_flag_ratio (anomaly_results : list (string * list flag))
    (current_df : DataFrame) (a : anomaly) :
  In a (_consolidate_anomalies anomaly_results current_df) ->
  detection_methods a
  = map f_method (flags_on (transaction_index a) (flat_map snd anomaly_results))
  /\ confidence a
     = (Qlen (List.length (flags_on (transaction_index a)
                                   (flat_map snd anomaly_results)))
        / Qlen (List.length anomaly_results))%Q.
Proof.
  intros Ha. unfold _consolidate_anomalies in Ha.
  apply (Permutation_in a (Permutation_sym (sort_reverse_perm composite_score _))) in Ha.
  unfold consolidated_unsorted in Ha. apply in_map_iff in Ha.
  destruct Ha as [[idx g] [<- Hkv]]. simpl.
  rewrite collect_by_index_flat in Hkv.
  assert (Hc : collected current_df ([] ++ flat_map snd anomaly_results)
                 (fold_left (collect_flag current_df) (flat_map snd anomaly_results) [])).
  { apply collected_fold. split; [constructor|]. split; [intros ? ? []|intros ? []]. }
  destruct Hc as [_ [Hm _]]. simpl in Hm.
  rewrite (Hm idx g Hkv). split; [reflexivity|].
  rewrite length_map. reflexivity.
Qed.

Lemma by_index_update_ok (df : DataFrame) (m : list (nat * group)) (i : nat)
    (f : group -> group) :
  (forall g, g_transaction_data (f g) = g_transaction_data g) ->
  Forall (group_ok df) m -> Forall (group_ok df) (by_index_update m i f).
Proof.
  intros Hf. induction 1 as [|[j g] m Hg Hm IH]; simpl.
  - constructor.
  - destruct (j =? i)%nat; constructor; try assumption.
    unfold group_ok in *. simpl in *. rewrite Hf. exact Hg.
Qed.

Lemma collect_flag_ok (df : DataFrame) (m : list (nat * group)) (a : flag) :
  Forall (group_ok df) m -> Forall (group_ok df) (collect_flag df m a).
Proof.
  intros Hm. unfold collect_flag.
  assert (Hm' : Forall (group_ok df)
            match by_index_get m (f_index a) with
            | Some _ => m
            | None =>
                if (f_index a <? df_len df)%nat
                then match iloc_to_dict df (f_index a) with
                     | Some transaction =>
                         m ++ [(f_index a, mkGroup (f_index a) transaction [] [] [] Low)]
                     | None => m
                     end
                else m
            end).
  { destruct (by_index_get m (f_index a)); [exact Hm|].
    destruct (f_index a <? df_len df)%nat; [|exact Hm].
    destruct (iloc_to_dict df (f_index a)) eqn:E; [|exact Hm].
    apply Forall_app. split; [exact Hm|].
    constructor; [exact E|constructor]. }
  match goal with
  | |- Forall _ (match by_index_get ?m' _ with _ => _ end) =>
      destruct (by_index_get m' (f_index a)); [|exact Hm']
  end.
  apply by_index_update_ok; [reflexivity|exact Hm'].
Qed.

Lemma collect_by_index_ok (anomaly_results : list (string * list flag))
    (current_df : DataFrame) :
  Forall (group_ok current_df) (collect_by_index anomaly_results current_df).
Proof.
  rewrite collect_by_index_flat.
  assert (H : forall flags m, Forall (group_ok current_df) m ->
                Forall (group_ok current_df) (fold_left (collect_flag current_df) flags m)).
  { induction flags as [|a flags IH]; intros m Hm; simpl; [exact Hm|].
    apply IH, collect_flag_ok, Hm. }
  apply H. constructor.
Qed.

(** What consolidation does guarantee about the two fields: the indices of
    the output are pairwise distinct, and the data of an anomaly is the row
    of [current_df] at the position given by its index. *)
Lemma consolidated_index_and_data (anomaly_results : list (string * list flag))
    (current_df : DataFrame) :
  let out := _consolidate_anomalies anomaly_results current_df in
  List.NoDup (map transaction_index (consolidated_unsorted anomaly_results current_df))
  /\ forall a, In a out ->
       iloc_to_dict current_df (transaction_index a) = Some (transaction_data a).
Proof.
  split.
  - rewrite consolidated_unsorted_indices. apply first_occurrences_NoDup.
  - intros a Ha. unfold _consolidate_anomalies in Ha.
    apply (Permutation_in a (Permutation_sym (sort_reverse_perm composite_score _))) in Ha.
    unfold consolidated_unsorted in Ha. apply in_map_iff in Ha.
    destruct Ha as [kv [<- Hkv]].
    pose proof (collect_by_index_ok anomaly_results current_df) as Hok.
    rewrite List.Forall_forall in Hok. exact (Hok kv Hkv).
Qed.

(** C8.  The consolidated list is in descending order of composite score;
    it is the list of consolidated anomalies in the order in which their
    indices were first encountered, rearranged; and the anomalies of any
    one composite score appear in the output in that first-encountered
    order. *)
Theorem ranking_sorted_and_stable (anomaly_results : list (string * list flag))
    (current_df : DataFrame) :
  StronglySorted (fun a b => (composite_score b <= composite_score a)%Q)
                 (_consolidate_anomalies anomaly_results current_df)
  /\ Permutation (consolidated_unsorted anomaly_results current_df)
                 (_consolidate_anomalies anomaly_results current_df)
  /\ map transaction_index (consolidated_unsorted anomaly_results current_df)
     = first_encountered anomaly_results current_df
  /\ List.NoDup (first_encountered anomaly_results current_df)
  /\ forall s : Q,
       List.filter (fun a => Qeq_bool (composite_score a) s)
                   (_consolidate_anomalies anomaly_results current_df)
       = List.filter (fun a => Qeq_bool (composite_score a) s)
                     (consolidated_unsorted anomaly_results current_df).
Proof.
  unfold _consolidate_anomalies. repeat split.
  - apply sort_reverse_sorted.
  - apply sort_reverse_perm.
  - apply consolidated_unsorted_indices.
  - apply first_occurrences_NoDup.
  - intros s. apply sort_reverse_stable.
Qed.

(** C1 (a defect of the code).  In [two_early_payments] only the
    business-rules detector flags anything; it flags index 1 through two
    of its sub-rules, and the confidence reported for index 1 is 2/4, not
    the 1/4 that one detector out of four makes.  In [outlier_batch]
    three detectors flag index 1, the business rules through three
    sub-rules, and the confidence reported is 5/4: not the fraction 3/4
    of the detectors, and above 1. *)
Theorem confidence_counts_raw_flags :
  detector_hits example_lib two_early_payments []
  = [("isolation_forest", []); ("statistical", []); ("zscore", []);
     ("business_rules", [0; 1; 1])]%string
  /\ Qred (fraction_of_detectors (detector_results example_lib two_early_payments []) 1)
     = (1 # 4)%Q
  /\ map (fun a => (transaction_index a, detection_methods a, Qred (confidence a)))
         (anomalies_of (detect_anomalies example_lib two_early_payments [] "u1"))
     = [(0, ["business_rule_unusual_time"]%string, (1 # 4)%Q);
        (1, ["business_rule_unusual_time"; "business_rule_rapid_transactions"]%string,
         (1 # 2)%Q)]
  /\ detector_hits example_lib outlier_batch outlier_history
     = [("isolation_forest", []); ("statistical", [1]); ("zscore", [1]);
        ("business_rules", [1; 2; 1; 1])]%string
  /\ Qred (fraction_of_detectors
             (detector_results example_lib outlier_batch outlier_history) 1)
     = (3 # 4)%Q
  /\ map (fun a => (transaction_index a, List.length (detection_methods a),
                    Qred (confidence a)))
         (anomalies_of (detect_anomalies example_lib outlier_batch outlier_history "u1"))
     = [(1, 5, (5 # 4)%Q); (2, 1, (1 # 4)%Q)]
  /\ ~ (5 # 4 <= 1)%Q.
Proof.
  repeat split; try (vm_compute; reflexivity).
  intros H. vm_compute in H. apply H. reflexivity.
Qed.

(** C4 (a defect of the code).  With [night_history] before [noon_batch]
    the only flag is for label 0 of the combined frame, the night payment
    of the history; consolidation reads it as position 0 of the current
    batch and reports the noon payment, which no detector flagged.  And
    with no history the payload reported is the batch row after feature
    engineering wrote into it: a payment given without a category comes
    back with one. *)
Theorem index_read_in_the_wrong_frame :
  detector_hits example_lib noon_batch night_history
  = [("isolation_forest", []); ("statistical", []); ("zscore", []);
     ("business_rules", [0])]%string
  /\ map (fun a => (transaction_index a, transaction_data a, reasons a))
         (anomalies_of (detect_anomalies example_lib noon_batch night_history "u1"))
     = [(0, txn 7 (at_time 1 12 0), ["Transaction at unusual hour: 3:00"]%string)]
  /\ map (fun a => (transaction_index a, transaction_data a))
         (anomalies_of (detect_anomalies example_lib two_early_payments [] "u1"))
     = [(0, txn 20 (at_time 0 3 0) ++ [("category", VStr "Unknown")]);
        (1, txn 25 (at_time 0 3 1) ++ [("category", VStr "Unknown")])].
Proof. repeat split; vm_compute; reflexivity. Qed.

(** ** The statistical detector *)

Lemma Qlt_bool_iff (a b : Q) : Qlt_bool a b = true <-> (a < b)%Q.
Proof.
  unfold Qlt_bool. rewrite negb_true_iff. split.
  - intros H. apply Qnot_le_lt. intros Hle. apply Qle_bool_iff in Hle. congruence.
  - intros H. destruct (Qle_bool b a) eqn:E; [|reflexivity].
    apply Qle_bool_iff in E. exfalso. exact (Qlt_not_le _ _ H E).
Qed.

Lemma outside_fence_iff (k Q1 Q3 amount : Q) :
  outside_fence k Q1 Q3 amount = true
  <-> (amount < Q1 - k * (Q3 - Q1) \/ Q3 + k * (Q3 - Q1) < amount)%Q.
Proof.
  unfold outside_fence. rewrite orb_true_iff, !Qlt_bool_iff. reflexivity.
Qed.




Lemma has_column_assign_new (df : DataFrame) (c : string) (f : dict -> value) :
  has_column (assign df c f) c = true.
Proof.
  unfold has_column, assign. simpl. unfold has_column.
  destruct (str_mem c (columns df)) eqn:E; [exact E|].
  unfold str_mem. rewrite existsb_app. simpl. rewrite String.eqb_refl.
  apply orb_true_r.
Qed.

Lemma has_column_assign_keep (df : DataFrame) (c c' : string) (f : dict -> value) :
  has_column df c = true -> has_column (assign df c' f) c = true.
Proof.
  unfold has_column, assign. simpl. unfold has_column. intros H.
  destruct (str_mem c' (columns df)); [exact H|].
  unfold str_mem in *. rewrite existsb_app, H. reflexivity.
Qed.

(** The frame the detectors receive always has an amount column, so the
    first hypothesis of C5 holds throughout the pipeline. *)
Lemma engineered_frame_has_amount (L : pylib) (current_df historical_df : DataFrame) :
  has_column (fst (_engineer_features L current_df historical_df)) "amount" = true.
Proof.
  unfold _engineer_features. simpl.
  match goal with
  | |- has_column (if ?c then sort_values_date ?d else ?d) _ = true =>
      assert (H : has_column d "amount" = true); [|destruct c; exact H]
  end.
  apply has_column_assign_keep, has_column_assign_keep, has_column_assign_new.
Qed.

Lemma dict_get_set_same (d : dict) (k : string) (v : value) :
  dict_get (dict_set d k v) k = Some v.
Proof.
  induction d as [|[k' v'] d IH]; simpl.
  - rewrite String.eqb_refl. reflexivity.
  - destruct (String.eqb k' k) eqn:E; simpl; rewrite E; [reflexivity|exact IH].
Qed.

Lemma dict_get_set_other (d : dict) (k k' : string) (v : value) :
  String.eqb k' k = false -> dict_get (dict_set d k' v) k = dict_get d k.
Proof.
  intros Hne. induction d as [|[k0 v0] d IH]; simpl.
  - rewrite Hne. reflexivity.
  - destruct (String.eqb k0 k') eqn:E; simpl.
    + apply String.eqb_eq in E. subst k0. rewrite Hne. reflexivity.
    + destruct (String.eqb k0 k); [reflexivity|exact IH].
Qed.

(** After feature engineering every amount cell holds a number: [amount_of]
    reads the frame as the detectors do. *)
Lemma engineered_amounts_are_numbers (L : pylib) (current_df historical_df : DataFrame) :
  Forall (fun r => exists q, cell (snd r) "amount" = VNum q)
         (rows (fst (_engineer_features L current_df historical_df))).
Proof.
  unfold _engineer_features. simpl.
  match goal with
  | |- Forall ?P (rows (if ?c then sort_values_date ?d else ?d)) =>
      assert (H : Forall P (rows d));
        [|destruct c; [|exact H]; unfold sort_values_date; simpl;
          rewrite List.Forall_forall in *; intros r Hr; apply H;
          apply (Permutation_in r (Permutation_sym (isort_perm date_leb (rows d)))), Hr]
  end.
  unfold assign. simpl. rewrite !List.Forall_map. apply List.Forall_forall.
  intros r _. simpl. unfold cell.
  rewrite dict_get_set_other by reflexivity.
  rewrite dict_get_set_other by reflexivity.
  rewrite dict_get_set_same. eauto.
Qed.

(** ** Failing detectors *)

Lemma isolation_forest_returns (L : pylib) (features_df : DataFrame) :
  exists flags, _isolation_forest_detection L features_df = Ok flags.
Proof.
  unfold _isolation_forest_detection.
  destruct (df_len features_df <? 10)%nat; [eauto|].
  destruct (forest_fit_predict L features_df); eauto.
Qed.

Lemma statistical_returns (L : pylib) (features_df : DataFrame) :
  exists flags, _statistical_outlier_detection L features_df = Ok flags.
Proof.
  unfold _statistical_outlier_detection. destruct (_ && _); eauto.
Qed.

Lemma zscore_returns (L : pylib) (features_df : DataFrame) :
  exists flags, _zscore_detection L features_df = Ok flags.
Proof.
  unfold _zscore_detection. destruct (_ && _); [|eauto].
  destruct (Qlt_bool _ _); eauto.
Qed.

Lemma business_rules_raise_an_Exception (L : pylib) (features_df historical_df : DataFrame)
    (e : exn) :
  _business_rule_detection L features_df historical_df = Raise e ->
  is_Exception e = true.
Proof.
  unfold _business_rule_detection, obind.
  destruct (_ && _); [|discriminate].
  destruct (has_column historical_df "amount").
  - destruct (_ <? _)%nat; discriminate.
  - intros H. injection H as <-. reflexivity.
Qed.

Lemma run_multiple_raises_an_Exception (L : pylib) (features_df historical_df : DataFrame)
    (e : exn) :
  _run_multiple_detection_methods L features_df historical_df = Raise e ->
  is_Exception e = true.
Proof.
  unfold _run_multiple_detection_methods.
  destruct (isolation_forest_returns L features_df) as [f1 ->].
  destruct (statistical_returns L features_df) as [f2 ->].
  destruct (zscore_returns L features_df) as [f3 ->]. simpl.
  destruct (_business_rule_detection L features_df historical_df) eqn:E; simpl.
  - discriminate.
  - intros H. injection H as <-.
    exact (business_rules_raise_an_Exception _ _ _ _ E).
Qed.

(** Whatever happens inside, the caller gets a result dict. *)
Lemma detect_anomalies_returns (L : pylib) (transactions historical_data : list dict)
    (user : string) :
  exists r, detect_anomalies L transactions historical_data user = Ok r.
Proof.
  unfold detect_anomalies.
  destruct (df_empty (pd_DataFrame transactions)); [eauto|].
  destruct (_engineer_features L (pd_DataFrame transactions)
              (pd_DataFrame historical_data)) as [features_df current_df].
  destruct (_run_multiple_detection_methods L features_df
              (pd_DataFrame historical_data)) as [results|e] eqn:E; simpl.
  - unfold _generate_insights. destruct (forallb _ _); simpl; eauto.
  - rewrite (run_multiple_raises_an_Exception _ _ _ _ E). eauto.
Qed.




(** ** Tasks: how the combinators keep invariants *)

Section TaskFacts.
Context {A B : Type}.

Lemma respects_tbind (I : bus -> Prop) (P : request -> Prop) (t : task A)
    (f : A -> coroutine B) :
  respects I P t -> (forall a b, I b -> respects I P (f a b)) ->
  respects I P (tbind t f).
Proof.
  induction t as [b r|b rq k IH]; simpl.
  - intros Hb Hf. destruct r; [apply Hf, Hb|exact Hb].
  - intros [Hb [Hrq Hk]] Hf. repeat split; auto.
Qed.

Lemma respects_ttry (I : bus -> Prop) (P : request -> Prop) (t : task A)
    (h : exn -> coroutine A) :
  respects I P t -> (forall e b, I b -> respects I P (h e b)) ->
  respects I P (ttry t h).
Proof.
  induction t as [b r|b rq k IH]; simpl.
  - intros Hb Hh. destruct r as [a|e]; [exact Hb|].
    destruct (is_Exception e); [apply Hh, Hb|exact Hb].
  - intros [Hb [Hrq Hk]] Hh. repeat split; auto.
Qed.

Lemma dies_tbind (t : task A) (f : A -> coroutine B) :
  dies_when_cancelled t -> (forall a b, dies_when_cancelled (f a b)) ->
  dies_when_cancelled (tbind t f).
Proof.
  induction t as [b r|b rq k IH]; simpl.
  - intros _ Hf. destruct r; [apply Hf|exact I].
  - intros [Hc Hk] Hf. split.
    + intros b'. rewrite Hc. reflexivity.
    + intros ans b'. apply IH; auto.
Qed.

Lemma dies_ttry (t : task A) (h : exn -> coroutine A) :
  dies_when_cancelled t -> (forall e b, dies_when_cancelled (h e b)) ->
  dies_when_cancelled (ttry t h).
Proof.
  induction t as [b r|b rq k IH]; simpl.
  - intros _ Hh. destruct r as [a|e]; [exact I|].
    destruct (is_Exception e); [apply Hh|exact I].
  - intros [Hc Hk] Hh. split.
    + intros b'. rewrite Hc. reflexivity.
    + intros ans b'. apply IH; auto.
Qed.

Lemma absorbs_tbind (t : task A) (f : A -> coroutine B) :
  absorbs_exceptions t -> (forall a b, absorbs_exceptions (f a b)) ->
  absorbs_exceptions (tbind t f).
Proof.
  induction t as [b r|b rq k IH]; simpl.
  - intros Hr Hf. destruct r; [apply Hf|exact Hr].
  - intros Hk Hf ans b'. apply IH; auto.
Qed.

(** A handler that absorbs makes the whole [try] absorb, whatever the
    body does. *)
Lemma absorbs_ttry (t : task A) (h : exn -> coroutine A) :
  (forall e b, absorbs_exceptions (h e b)) -> absorbs_exceptions (ttry t h).
Proof.
  intros Hh. induction t as [b r|b rq k IH]; simpl.
  - destruct r as [a|e]; [exact I|].
    destruct (is_Exception e) eqn:E; [apply Hh|exact E].
  - intros ans b'. apply IH.
Qed.

(** Scripted runs: a part that runs to its end on a prefix of the
    answers, followed by the rest. *)
Lemma exec_tbind (t : task A) (f : A -> coroutine B) (a1 a2 : list (outcome unit))
    (served : list request) (b : bus) (x : A) :
  exec t a1 = (served, Return b (Ok x)) ->
  List.length served = List.length a1 ->
  exec (tbind t f) (a1 ++ a2)
  = (served ++ fst (exec (f x b) a2), snd (exec (f x b) a2)).
Proof.
  revert a1 served. induction t as [b0 r|b0 rq k IH]; intros a1 served He Hl.
  - assert (He' : exec (Return b0 r) a1 = ([], Return b0 r)) by (destruct a1; reflexivity).
    rewrite He' in He. injection He as Hs Hb Hr. subst.
    destruct a1; [|discriminate]. simpl.
    match goal with |- context [exec ?u a2] => destruct (exec u a2) end.
    reflexivity.
  - destruct a1 as [|ans a1]; [discriminate|]. simpl in *.
    destruct (exec (k ans b0) a1) as [served' t'] eqn:E.
    injection He as <- ->. simpl in Hl.
    rewrite (IH ans b0 a1 served' E); [|lia]. reflexivity.
Qed.

Lemma exec_ttry_ok (t : task A) (h : exn -> coroutine A) (a1 : list (outcome unit))
    (served : list request) (b : bus) (x : A) :
  exec t a1 = (served, Return b (Ok x)) ->
  exec (ttry t h) a1 = (served, Return b (Ok x)).
Proof.
  revert a1 served. induction t as [b0 r|b0 rq k IH]; intros a1 served He.
  - assert (He' : exec (Return b0 r) a1 = ([], Return b0 r)) by (destruct a1; reflexivity).
    rewrite He' in He. injection He as Hs Hb Hr. subst. destruct a1; reflexivity.
  - destruct a1 as [|ans a1]; [discriminate|]. simpl in *.
    destruct (exec (k ans b0) a1) as [served' t'] eqn:E.
    injection He as <- ->. rewrite (IH ans b0 a1 served' E). reflexivity.
Qed.

Lemma exec_Return (b : bus) (r : outcome A) (answers : list (outcome unit)) :
  exec (Return b r) answers = ([], Return b r).
Proof. destruct answers; reflexivity. Qed.

Lemma respects_exec (I : bus -> Prop) (P : request -> Prop) (t : task A)
    (answers : list (outcome unit)) :
  respects I P t ->
  Forall P (fst (exec t answers)) /\ respects I P (snd (exec t answers)).
Proof.
  revert answers. induction t as [b r|b rq k IH]; intros answers H.
  - rewrite exec_Return. split; [constructor|exact H].
  - destruct answers as [|ans answers]; [split; [constructor|exact H]|].
    simpl. destruct H as [Hb [Hrq Hk]].
    destruct (IH ans b answers (Hk ans b Hb)) as [H1 H2].
    destruct (exec (k ans b) answers). simpl in *. split; [constructor|]; assumption.
Qed.

Lemma dies_exec (t : task A) (answers : list (outcome unit)) :
  dies_when_cancelled t -> dies_when_cancelled (snd (exec t answers)).
Proof.
  revert answers. induction t as [b r|b rq k IH]; intros answers H.
  - rewrite exec_Return. exact H.
  - destruct answers as [|ans answers]; [exact H|].
    simpl. destruct H as [Hc Hk].
    specialize (IH ans b answers (Hk ans b)).
    destruct (exec (k ans b) answers). exact IH.
Qed.

Lemma absorbs_exec (t : task A) (answers : list (outcome unit)) :
  absorbs_exceptions t -> absorbs_exceptions (snd (exec t answers)).
Proof.
  revert answers. induction t as [b r|b rq k IH]; intros answers H.
  - rewrite exec_Return. exact H.
  - destruct answers as [|ans answers]; [exact H|].
    simpl. specialize (IH ans b answers (H ans b)).
    destruct (exec (k ans b) answers). exact IH.
Qed.
End TaskFacts.

(** ** The consumer coroutine: cancellation and exceptions *)

Lemma dies_lift {A : Type} (m : action A) (b : bus) : dies_when_cancelled (lift m b).
Proof. unfold lift. destruct (m b). exact I. Qed.

Lemma dies_await (rq : request) (b : bus) : dies_when_cancelled (await rq b).
Proof. simpl. split; [reflexivity|intros; exact I]. Qed.

Lemma dies_for_each {X : Type} (l : list X) (body : X -> coroutine unit) (b : bus) :
  (forall x b', dies_when_cancelled (body x b')) ->
  dies_when_cancelled (for_each l body b).
Proof.
  intros Hbody. revert b. induction l as [|x l IH]; intros b; cbn [for_each].
  - exact I.
  - unfold cbind. apply dies_tbind; [apply Hbody|]. intros _ b'. apply IH.
Qed.

Lemma dies_notify_one (event : SyncEvent) (cb : callback) (b : bus) :
  dies_when_cancelled (notify_one event cb b).
Proof.
  unfold notify_one, try_except. apply dies_ttry; [apply dies_await|].
  intros e b'. apply dies_lift.
Qed.

Lemma dies_notify_subscribers (event : SyncEvent) (b : bus) :
  dies_when_cancelled (_notify_subscribers event b).
Proof.
  unfold _notify_subscribers. destruct (subscribers b !! _); [|exact I].
  apply dies_for_each. intros cb b'. apply dies_notify_one.
Qed.

Lemma dies_send_one (ws : websocket) (message : dict) (b : bus) :
  dies_when_cancelled (send_one ws message b).
Proof.
  unfold send_one, try_except, cbind. apply dies_ttry.
  - apply dies_tbind; [apply dies_await|]. intros _ b'. exact I.
  - intros e b'. apply dies_tbind; [apply dies_lift|]. intros _ b''. exact I.
Qed.

Lemma dies_send_to_all (conns : list websocket) (message : dict)
    (disconnected : list websocket) (b : bus) :
  dies_when_cancelled (send_to_all conns message disconnected b).
Proof.
  revert disconnected b.
  induction conns as [|ws conns IH]; intros disconnected b; cbn [send_to_all].
  - exact I.
  - unfold cbind. apply dies_tbind; [apply dies_send_one|]. intros failed b'. apply IH.
Qed.

Lemma dies_send_realtime_updates (L : pylib) (event : SyncEvent) (b : bus) :
  dies_when_cancelled (_send_realtime_updates L event b).
Proof.
  unfold _send_realtime_updates. destruct (active_connections b !! _); [|exact I].
  unfold cbind. apply dies_tbind; [apply dies_send_to_all|].
  intros disconnected b'. apply dies_for_each. intros ws b''. apply dies_lift.
Qed.

Lemma dies_handle_event (L : pylib) (event : SyncEvent) (b : bus) :
  dies_when_cancelled (_handle_event L event b).
Proof.
  unfold _handle_event, try_except, cbind. apply dies_ttry.
  - apply dies_tbind; [apply dies_lift|]. intros _ b1.
    apply dies_tbind; [apply dies_lift|]. intros _ b2.
    apply dies_tbind; [apply dies_notify_subscribers|]. intros _ b3.
    apply dies_tbind; [apply dies_send_realtime_updates|]. intros _ b4.
    apply dies_tbind; [apply dies_lift|]. intros _ b5.
    apply dies_tbind; [apply dies_lift|]. intros _ b6. exact I.
  - intros e b'. apply dies_tbind; [apply dies_lift|]. intros _ b''. exact I.
Qed.

Lemma dies_process_one (L : pylib) (b : bus) : dies_when_cancelled (process_one L b).
Proof.
  unfold process_one, try_except, cbind. apply dies_ttry.
  - apply dies_tbind.
    + simpl. split; [reflexivity|]. intros [u|e] b'; [|exact I].
      destruct (event_queue b'); exact I.
    + intros event b'. apply dies_tbind; [apply dies_handle_event|].
      intros _ b''. exact I.
  - intros e b'. destruct e; try apply dies_lift. exact I.
Qed.

(** The consumer has no handler that catches a cancellation: wherever it
    is suspended, a cancellation ends it there. *)
Lemma dies_process_events (L : pylib) (fuel : nat) (b : bus) :
  dies_when_cancelled (_process_events L fuel b).
Proof.
  revert b. induction fuel as [|fuel IH]; intros b; cbn [_process_events].
  - exact I.
  - destruct (running b); [|exact I].
    unfold cbind. apply dies_tbind; [apply dies_process_one|].
    intros _ b'. apply IH.
Qed.

Lemma absorbs_process_one (L : pylib) (b : bus) : absorbs_exceptions (process_one L b).
Proof.
  unfold process_one, try_except. apply absorbs_ttry.
  intros e b'. destruct e; exact I.
Qed.

(** No [Exception] gets out of the consumer loop. *)
Lemma absorbs_process_events (L : pylib) (fuel : nat) (b : bus) :
  absorbs_exceptions (_process_events L fuel b).
Proof.
  revert b. induction fuel as [|fuel IH]; intros b; cbn [_process_events].
  - exact I.
  - destruct (running b); [|exact I].
    unfold cbind. apply absorbs_tbind; [apply absorbs_process_one|].
    intros _ b'. apply IH.
Qed.




(** ** One event: which stages run *)

Lemma same_but_log_refl (b : bus) : same_but_log b b.
Proof. repeat split. Qed.

Lemma not_cancelled_Exception (e : exn) :
  not_cancelled (Raise e) -> is_Exception e = true.
Proof. destruct e; simpl; tauto. Qed.

(** Every subscriber is called, whatever the earlier ones did. *)
Lemma notify_all_exec (event : SyncEvent) (callbacks : list callback)
    (answers : list (outcome unit)) (b : bus) :
  List.length answers = List.length callbacks ->
  Forall not_cancelled answers ->
  exists b',
    exec (for_each callbacks (notify_one event) b) answers
    = (map (fun cb => Callback cb event) callbacks, Return b' (Ok tt))
    /\ same_but_log b b'.
Proof.
  revert answers b. induction callbacks as [|cb callbacks IH]; intros answers b Hl Hn.
  - destruct answers; [|discriminate]. exists b. split; [reflexivity|apply same_but_log_refl].
  - destruct answers as [|ans answers]; [discriminate|].
    inversion Hn as [|? ? Hans Hrest]; subst. simpl in Hl.
    cbn [for_each]. unfold cbind. unfold notify_one at 1. unfold try_except, await.
    cbn [ttry tbind exec].
    destruct ans as [[]|e].
    + cbn [ttry tbind]. destruct (IH answers b) as [b' [He Hs]]; [lia|assumption|].
      rewrite He. exists b'. split; [reflexivity|exact Hs].
    + cbn [ttry]. rewrite (not_cancelled_Exception e Hans).
      unfold lift, logger. cbn [tbind].
      destruct (IH answers (add_log ERROR ("Error in subscriber callback: " +:+ exn_str e) b))
        as [b' [He Hs]]; [lia|assumption|].
      rewrite He. exists b'. split; [reflexivity|exact Hs].
Qed.

(** Every connection is sent to, whatever the earlier sends did. *)
Lemma send_to_all_exec (message : dict) (conns : list websocket)
    (answers : list (outcome unit)) (disconnected : list websocket) (b : bus) :
  List.length answers = List.length conns ->
  Forall not_cancelled answers ->
  exists b' disconnected',
    exec (send_to_all conns message disconnected b) answers
    = (map (fun ws => SendText ws message) conns, Return b' (Ok disconnected'))
    /\ same_but_log b b'.
Proof.
  revert answers disconnected b.
  induction conns as [|ws conns IH]; intros answers disconnected b Hl Hn.
  - destruct answers; [|discriminate]. exists b, disconnected.
    split; [reflexivity|apply same_but_log_refl].
  - destruct answers as [|ans answers]; [discriminate|].
    inversion Hn as [|? ? Hans Hrest]; subst. simpl in Hl.
    cbn [send_to_all]. unfold cbind. unfold send_one at 1.
    unfold cbind, try_except, await.
    cbn [ttry tbind exec].
    destruct ans as [[]|e].
    + unfold cret. cbn [ttry tbind].
      destruct (IH answers disconnected b) as [b' [d' [He Hs]]]; [lia|assumption|].
      rewrite He. exists b', d'. split; [reflexivity|exact Hs].
    + cbn [ttry tbind]. rewrite (not_cancelled_Exception e Hans).
      unfold lift, logger, cret. cbn [tbind].
      destruct (IH answers (disconnected ++ [ws])
                  (add_log WARNING ("Failed to send WebSocket message: " +:+ exn_str e) b))
        as [b' [d' [He Hs]]]; [lia|assumption|].
      rewrite He. exists b', d'. split; [reflexivity|exact Hs].
Qed.

(** Pruning the failed connections never waits and never raises. *)
Lemma prune_returns (uid : string) (disconnected : list websocket) (b : bus) :
  exists b',
    for_each disconnected (fun ws => lift (remove_websocket_connection uid ws)) b
    = Return b' (Ok tt).
Proof.
  revert b. induction disconnected as [|ws disconnected IH]; intros b; cbn [for_each].
  - exists b. reflexivity.
  - unfold cbind, lift, remove_websocket_connection. cbn [tbind]. apply IH.
Qed.

Lemma update_related_entities_returns (event : SyncEvent) (b : bus) :
  exists b', _update_related_entities event b = (b', Ok tt).
Proof.
  unfold _update_related_entities. destruct (assoc_get _ _); eexists; reflexivity.
Qed.

Lemma notify_subscribers_exec (event : SyncEvent) (answers : list (outcome unit)) (b : bus) :
  List.length answers
  = List.length (default [] (subscribers b !! event_value (event_type event))) ->
  Forall not_cancelled answers ->
  exists b',
    exec (_notify_subscribers event b) answers
    = (map (fun cb => Callback cb event)
           (default [] (subscribers b !! event_value (event_type event))),
       Return b' (Ok tt))
    /\ same_but_log b b'.
Proof.
  unfold _notify_subscribers.
  destruct (subscribers b !! event_value (event_type event)) as [callbacks|]; simpl.
  - apply notify_all_exec.
  - intros Hl _. destruct answers; [|discriminate].
    exists b. split; [reflexivity|apply same_but_log_refl].
Qed.

Lemma send_realtime_updates_exec (L : pylib) (event : SyncEvent)
    (answers : list (outcome unit)) (b : bus) :
  List.length answers
  = List.length (default [] (active_connections b !! user_id event)) ->
  Forall not_cancelled answers ->
  exists b',
    exec (_send_realtime_updates L event b) answers
    = (map (fun ws => SendText ws (wire_message L event))
           (default [] (active_connections b !! user_id event)),
       Return b' (Ok tt)).
Proof.
  unfold _send_realtime_updates.
  destruct (active_connections b !! user_id event) as [conns|]; simpl.
  - intros Hl Hn.
    destruct (send_to_all_exec (wire_message L event) conns answers [] b Hl Hn)
      as [b1 [disconnected [He _]]].
    unfold cbind.
    rewrite <- (app_nil_r answers).
    rewrite (exec_tbind _ _ answers [] _ b1 disconnected He)
      by (rewrite length_map; lia).
    destruct (prune_returns (user_id event) disconnected b1) as [b2 Hp].
    rewrite Hp. simpl. rewrite app_nil_r. exists b2. reflexivity.
  - intros Hl _. destruct answers; [|discriminate]. exists b. reflexivity.
Qed.

Lemma handle_event_after_logic (L : pylib) (event : SyncEvent) (b b1 : bus) :
  _process_event_by_type L event
    (add_log INFO ("Processing event: " +:+ event_value (event_type event)) b)
  = (b1, Ok tt) ->
  _handle_event L event b
  = ttry (tbind (_notify_subscribers event b1)
            (fun _ =>
               co _s <- _send_realtime_updates L event;
               co _r <- lift (_update_related_entities event);
               co _d <- lift (logger INFO ("Event processed: "
                                           +:+ event_id (set_processed event)));
               cret (set_processed event)))
         (fun e =>
            co _l <- lift (logger ERROR ("Error handling event " +:+ event_id event
                                         +:+ ": " +:+ exn_str e));
            cret event).
Proof.
  intros H. unfold _handle_event, try_except.
  unfold cbind at 1. unfold lift at 1. unfold logger at 1. cbn [tbind].
  unfold cbind at 1. unfold lift at 1. rewrite H. cbn [tbind]. reflexivity.
Qed.

(** The kind-specific logic raised: the handler around all stages logs,
    and nothing else runs. *)
Lemma handle_event_logic_raised (L : pylib) (event : SyncEvent) (b b1 : bus) (e : exn)
    (answers : list (outcome unit)) :
  _process_event_by_type L event
    (add_log INFO ("Processing event: " +:+ event_value (event_type event)) b)
  = (b1, Raise e) ->
  is_Exception e = true ->
  exec (_handle_event L event b) answers
  = ([], Return (add_log ERROR ("Error handling event " +:+ event_id event
                                +:+ ": " +:+ exn_str e) b1)
                (Ok event)).
Proof.
  intros H He.
  unfold _handle_event, try_except.
  unfold cbind at 1. unfold lift at 1. unfold logger at 1. cbn [tbind].
  unfold cbind at 1. unfold lift at 1. rewrite H. cbn [tbind ttry].
  rewrite He. unfold cbind, lift, logger, cret. cbn [tbind].
  apply exec_Return.
Qed.

(** The kind-specific logic returned: every subscriber and every
    connection gets its call, and the event is marked processed. *)
Lemma handle_event_all_stages (L : pylib) (event : SyncEvent) (b b1 : bus)
    (answers : list (outcome unit)) :
  _process_event_by_type L event
    (add_log INFO ("Processing event: " +:+ event_value (event_type event)) b)
  = (b1, Ok tt) ->
  Forall not_cancelled answers ->
  List.length answers
  = (List.length (default [] (subscribers b1 !! event_value (event_type event)))
     + List.length (default [] (active_connections b1 !! user_id event)))%nat ->
  exists b',
    exec (_handle_event L event b) answers
    = (map (fun cb => Callback cb event)
           (default [] (subscribers b1 !! event_value (event_type event)))
       ++ map (fun ws => SendText ws (wire_message L event))
              (default [] (active_connections b1 !! user_id event)),
       Return b' (Ok (set_processed event))).
Proof.
  intros H Hn Hl.
  rewrite (handle_event_after_logic L event b b1 H).
  set (n := List.length (default [] (subscribers b1 !! event_value (event_type event)))).
  assert (Hn1 : Forall not_cancelled (firstn n answers)) by (apply Forall_take, Hn).
  assert (Hn2 : Forall not_cancelled (skipn n answers)) by (apply Forall_drop, Hn).
  assert (Hl1 : List.length (firstn n answers) = n) by (rewrite length_firstn; lia).
  assert (Hl2 : List.length (skipn n answers)
                = List.length (default [] (active_connections b1 !! user_id event)))
    by (rewrite length_skipn; lia).
  destruct (notify_subscribers_exec event (firstn n answers) b1 Hl1 Hn1)
    as [b2 [He2 Hs2]].
  destruct Hs2 as [_ [_ [Hconn _]]].
  rewrite <- Hconn in Hl2.
  destruct (send_realtime_updates_exec L event (skipn n answers) b2 Hl2 Hn2)
    as [b3 He3].
  destruct (update_related_entities_returns event b3) as [b4 Hu].
  eexists. apply exec_ttry_ok.
  rewrite <- (firstn_skipn n answers) at 1.
  rewrite (exec_tbind _ _ _ _ _ b2 tt He2) by (rewrite length_map; fold n; lia).
  unfold cbind.
  rewrite <- (app_nil_r (skipn n answers)).
  rewrite (exec_tbind _ _ _ [] _ b3 tt He3) by (rewrite length_map; lia).
  unfold lift. rewrite Hu. unfold logger, cret. cbn [tbind exec fst snd].
  rewrite app_nil_r, Hconn. reflexivity.
Qed.

(** C2, as amended.  (1) An exception raised by the kind-specific logic
    is caught by the one handler around all stages: no subscriber is
    notified, nothing is sent, the event stays unprocessed, and the call
    returns normally.  (2) When the kind-specific logic returns, every
    subscriber is called and every connection of the user is sent to,
    whichever of these calls raise, and the event is marked processed.
    (3) The consumer loop never ends with an exception other than a
    cancellation. *)
Theorem stage_failures (L : pylib) (event : SyncEvent) (b : bus) :
  (forall b1 e answers,
     _process_event_by_type L event
       (add_log INFO ("Processing event: " +:+ event_value (event_type event)) b)
     = (b1, Raise e) ->
     is_Exception e = true ->
     exec (_handle_event L event b) answers
     = ([], Return (add_log ERROR ("Error handling event " +:+ event_id event
                                   +:+ ": " +:+ exn_str e) b1)
                   (Ok event)))
  /\ (forall b1 answers,
        _process_event_by_type L event
          (add_log INFO ("Processing event: " +:+ event_value (event_type event)) b)
        = (b1, Ok tt) ->
        Forall not_cancelled answers ->
        List.length answers
        = (List.length (default [] (subscribers b1 !! event_value (event_type event)))
           + List.length (default [] (active_connections b1 !! user_id event)))%nat ->
        exists b',
          exec (_handle_event L event b) answers
          = (map (fun cb => Callback cb event)
                 (default [] (subscribers b1 !! event_value (event_type event)))
             ++ map (fun ws => SendText ws (wire_message L event))
                    (default [] (active_connections b1 !! user_id event)),
             Return b' (Ok (set_processed event))))
  /\ (forall fuel answers served b' e,
        exec (_process_events L fuel b) answers = (served, Return b' (Raise e)) ->
        e = CancelledError).
Proof.
  split; [|split].
  - intros b1 e answers. apply handle_event_logic_raised.
  - intros b1 answers. apply handle_event_all_stages.
  - intros fuel answers served b' e He.
    pose proof (absorbs_exec _ answers (absorbs_process_events L fuel b)) as Ha.
    rewrite He in Ha. simpl in Ha. destruct e; try discriminate. reflexivity.
Qed.

(** C2 as stated fails.  The receipt event of [receipt_raw_text] makes the
    kind-specific logic raise ([parsed_data] is a string and has no
    [get]); subscriber 7 and connection 3 are registered, yet the consumer
    serves no request for either, and the event is returned unprocessed.
    The loop itself goes on waiting for the queue. *)
Lemma failing_logic_skips_the_other_stages :
  exec (_handle_event example_lib (receipt_event receipt_raw_text)
          (set_queue [] (bus_with_receipt receipt_raw_text)))
       [Ok tt; Ok tt]
  = ([], Return
           (add_log ERROR "Error handling event uuid-0: object has no attribute 'get'"
              (add_log INFO "Processing event: receipt_processed"
                 (set_queue [] (bus_with_receipt receipt_raw_text))))
           (Ok (receipt_event receipt_raw_text)))
  /\ subscribers (bus_with_receipt receipt_raw_text) !! "receipt_processed" = Some [7]
  /\ active_connections (bus_with_receipt receipt_raw_text) !! "alice" = Some [3]
  /\ fst (resume (start example_lib 5 (NoTask (bus_with_receipt receipt_raw_text)))
                 [Ok tt])
     = [QueueGet]
  /\ snd (fst (observe (snd (resume (start example_lib 5
                                      (NoTask (bus_with_receipt receipt_raw_text)))
                                    [Ok tt]))))
     = Some QueueGet.
Proof. repeat split; vm_compute; reflexivity. Qed.

(** The cases of C2 occur: here the subscriber and the send both raise,
    and both are served. *)
Lemma stage_failures_witness :
  exists b',
    exec (_handle_event example_lib (receipt_event receipt_payload)
            (set_queue [] (bus_with_receipt receipt_payload)))
         [Raise (OtherError "callback failed"); Raise (OtherError "socket closed")]
    = ([Callback 7 (receipt_event receipt_payload);
        SendText 3 (wire_message example_lib (receipt_event receipt_payload))],
       Return b' (Ok (set_processed (receipt_event receipt_payload)))).
Proof.
  destruct (proj1 (proj2 (stage_failures example_lib (receipt_event receipt_payload)
                            (set_queue [] (bus_with_receipt receipt_payload))))
              (fst (_process_event_by_type example_lib (receipt_event receipt_payload)
                      (add_log INFO "Processing event: receipt_processed"
                         (set_queue [] (bus_with_receipt receipt_payload)))))
              [Raise (OtherError "callback failed"); Raise (OtherError "socket closed")])
    as [b' He].
  - vm_compute. reflexivity.
  - repeat constructor.
  - vm_compute. reflexivity.
  - exists b'. exact He.
Defined.

(** ** Invariants through the stages of one event *)

Lemma respects_task_bus {A : Type} (I : bus -> Prop) (P : request -> Prop) (t : task A) :
  respects I P t -> I (task_bus t).
Proof. destruct t; simpl; tauto. Qed.

Lemma respects_lift {A : Type} (I : bus -> Prop) (P : request -> Prop) (m : action A)
    (b : bus) :
  preserves I m -> I b -> respects I P (lift m b).
Proof.
  intros Hm Hb. unfold lift. specialize (Hm b Hb).
  destruct (m b) as [b' r]. exact Hm.
Qed.

Lemma respects_await (I : bus -> Prop) (P : request -> Prop) (rq : request) (b : bus) :
  I b -> P rq -> respects I P (await rq b).
Proof. intros Hb Hrq. simpl. repeat split; auto. Qed.

Lemma respects_for_each {X : Type} (I : bus -> Prop) (P : request -> Prop) (l : list X)
    (body : X -> coroutine unit) (b : bus) :
  (forall x b', I b' -> respects I P (body x b')) -> I b ->
  respects I P (for_each l body b).
Proof.
  intros Hbody. revert b. induction l as [|x l IH]; intros b Hb; cbn [for_each].
  - exact Hb.
  - unfold cbind. apply respects_tbind; [apply Hbody, Hb|]. intros _ b' Hb'. apply IH, Hb'.
Qed.

Section StageInvariant.
Variable L : pylib.
Variable I : bus -> Prop.
Variable P : request -> Prop.
Variable event : SyncEvent.

(** The invariant does not look at the log or at the connections. *)
Hypothesis I_log : forall l msg b, I b -> I (add_log l msg b).
Hypothesis I_connections : forall c b, I b -> I (set_connections c b).
Hypothesis P_callback : forall cb, P (Callback cb event).
Hypothesis P_send : forall ws, P (SendText ws (wire_message L event)).

Lemma preserves_logger (l : level) (msg : string) : preserves I (logger l msg).
Proof. intros b Hb. apply I_log, Hb. Qed.

Lemma preserves_remove (uid : string) (ws : websocket) :
  preserves I (remove_websocket_connection uid ws).
Proof.
  intros b Hb. unfold remove_websocket_connection. simpl. apply I_log.
  destruct (active_connections b !! uid) as [conns|]; [|exact Hb].
  destruct (list_remove ws conns) as [[|w rest]|]; try exact Hb;
    apply I_connections, Hb.
Qed.

Lemma preserves_update_related : preserves I (_update_related_entities event).
Proof.
  intros b Hb. unfold _update_related_entities.
  destruct (assoc_get _ _) as [related|]; [|exact Hb]. simpl.
  revert b Hb. induction related as [|r related IH]; intros b Hb; simpl.
  - exact Hb.
  - apply IH, I_log, Hb.
Qed.

Lemma respects_notify_subscribers (b : bus) :
  I b -> respects I P (_notify_subscribers event b).
Proof.
  intros Hb. unfold _notify_subscribers.
  destruct (subscribers b !! _); [|exact Hb].
  apply respects_for_each; [|exact Hb].
  intros cb b' Hb'. unfold notify_one, try_except.
  apply respects_ttry; [apply respects_await; auto|].
  intros e b'' Hb''. apply respects_lift; [apply preserves_logger|exact Hb''].
Qed.

Lemma respects_send_to_all (conns disconnected : list websocket) (b : bus) :
  I b -> respects I P (send_to_all conns (wire_message L event) disconnected b).
Proof.
  revert disconnected b.
  induction conns as [|ws conns IH]; intros disconnected b Hb; cbn [send_to_all].
  - exact Hb.
  - unfold cbind. apply respects_tbind; [|intros failed b' Hb'; apply IH, Hb'].
    unfold send_one, try_except, cbind. apply respects_ttry.
    + apply respects_tbind; [apply respects_await; auto|].
      intros _ b' Hb'. exact Hb'.
    + intros e b' Hb'.
      apply respects_tbind; [apply respects_lift; [apply preserves_logger|exact Hb']|].
      intros _ b'' Hb''. exact Hb''.
Qed.

Lemma respects_send_realtime_updates (b : bus) :
  I b -> respects I P (_send_realtime_updates L event b).
Proof.
  intros Hb. unfold _send_realtime_updates.
  destruct (active_connections b !! _); [|exact Hb].
  unfold cbind. apply respects_tbind; [apply respects_send_to_all, Hb|].
  intros disconnected b' Hb'. apply respects_for_each; [|exact Hb'].
  intros ws b'' Hb''. apply respects_lift; [apply preserves_remove|exact Hb''].
Qed.

(** The first state [_handle_event] shows is the one its kind-specific
    logic leaves; from there on the invariant is kept. *)
Lemma respects_handle_event (b : bus) :
  I (fst (_process_event_by_type L event
            (add_log INFO ("Processing event: " +:+ event_value (event_type event)) b))) ->
  respects I P (_handle_event L event b).
Proof.
  intros H1. unfold _handle_event, try_except.
  unfold cbind at 1. unfold lift at 1. unfold logger at 1. cbn [tbind].
  unfold cbind at 1. unfold lift at 1.
  destruct (_process_event_by_type L event _) as [b1 [[]|e]]; simpl in H1; cbn [tbind].
  - apply respects_ttry.
    + apply respects_tbind; [apply respects_notify_subscribers, H1|].
      intros _ b2 H2. unfold cbind.
      apply respects_tbind; [apply respects_send_realtime_updates, H2|].
      intros _ b3 H3.
      apply respects_tbind;
        [apply respects_lift; [apply preserves_update_related|exact H3]|].
      intros _ b4 H4.
      apply respects_tbind; [apply respects_lift; [apply preserves_logger|exact H4]|].
      intros _ b5 H5. exact H5.
    + intros e b' Hb'. unfold cbind.
      apply respects_tbind; [apply respects_lift; [apply preserves_logger|exact Hb']|].
      intros _ b'' Hb''. exact Hb''.
  - cbn [ttry]. destruct (is_Exception e); [|exact H1].
    unfold cbind.
    apply respects_tbind; [apply respects_lift; [apply preserves_logger|exact H1]|].
    intros _ b'' Hb''. exact Hb''.
Qed.
End StageInvariant.

(** Only the kind-specific logic touches the queue: at every await of
    [_handle_event], and when it ends, the queue is the one that logic
    left. *)
Lemma handle_event_queue (L : pylib) (event : SyncEvent) (b : bus)
    (answers : list (outcome unit)) :
  event_queue (task_bus (snd (exec (_handle_event L event b) answers)))
  = event_queue
      (fst (_process_event_by_type L event
              (add_log INFO ("Processing event: " +:+ event_value (event_type event)) b))).
Proof.
  set (q := event_queue (fst (_process_event_by_type L event _))).
  apply (respects_task_bus (fun b' => event_queue b' = q) (fun _ => True)).
  apply respects_exec.
  apply respects_handle_event; auto.
Qed.

(** ** The receipt cascade *)

(** A successful parse with parsed data: one [transaction_added] event is
    emitted, built from the parsed fields and their defaults. *)
Lemma handle_receipt_processed_emits (L : pylib) (event : SyncEvent) (b : bus)
    (receipt parsed : dict) (success : value) :
  data event = VDict receipt ->
  dict_get receipt "success" = Some success ->
  truthy success = true ->
  dict_get receipt "parsed_data" = Some (VDict parsed) ->
  parsed <> [] ->
  _handle_receipt_processed L event b
  = emit_event L TRANSACTION_ADDED (user_id event)
      (VDict [("amount", default (VNum 0) (dict_get parsed "total"));
              ("category", default (VStr "Unknown") (dict_get parsed "category"));
              ("description",
               VStr ("Receipt from "
                     +:+ py_str L (default (VStr "Unknown") (dict_get parsed "vendor"))));
              ("date", default (VStr (isoformat L (clock b))) (dict_get parsed "date"));
              ("type", VStr "expense");
              ("receipt_id", default VNone (dict_get receipt "receipt_id"));
              ("receipt_url", default VNone (dict_get receipt "receipt_url"))])
      (Some ["budget"; "goal"]%string) b.
Proof.
  intros Hd Hs Ht Hp Hne.
  unfold _handle_receipt_processed, abind, lift_outcome, aret, py_get, py_getitem,
    py_get_default.
  rewrite Hd, Hs. simpl. rewrite Ht, Hp. simpl.
  destruct parsed as [|kv parsed']; [congruence|]. reflexivity.
Qed.

(** An unsuccessful parse, or one without parsed data: nothing happens. *)
Lemma handle_receipt_processed_skips (L : pylib) (event : SyncEvent) (b : bus)
    (receipt : dict) :
  data event = VDict receipt ->
  truthy (default VNone (dict_get receipt "success")) = false
  \/ truthy (default VNone (dict_get receipt "parsed_data")) = false ->
  _handle_receipt_processed L event b = (b, Ok tt).
Proof.
  intros Hd H.
  unfold _handle_receipt_processed, abind, lift_outcome, aret, py_get.
  rewrite Hd.
  destruct (truthy (default VNone (dict_get receipt "success"))) eqn:Es.
  - destruct H as [H|H]; [discriminate|]. rewrite H. reflexivity.
  - rewrite Es. reflexivity.
Qed.

(** C7.  Processing a receipt event whose payload has a true [success] and
    parsed data with total, category, vendor and date puts exactly one
    event on the queue: a [transaction_added] for the same user, whose
    amount is the total and whose category is the category of the
    receipt, with related entities budget and goal; no later stage of
    that event adds or removes another. *)
Theorem receipt_cascade (L : pylib) (event : SyncEvent) (b : bus)
    (receipt parsed : dict) (success total category vendor date : value)
    (answers : list (outcome unit)) :
  event_type event = RECEIPT_PROCESSED ->
  data event = VDict receipt ->
  dict_get receipt "success" = Some success ->
  truthy success = true ->
  dict_get receipt "parsed_data" = Some (VDict parsed) ->
  dict_get parsed "total" = Some total ->
  dict_get parsed "category" = Some category ->
  dict_get parsed "vendor" = Some vendor ->
  dict_get parsed "date" = Some date ->
  event_queue (task_bus (snd (exec (_handle_event L event b) answers)))
  = event_queue b
    ++ [mkEvent (uuid4 L (uuid_count b)) TRANSACTION_ADDED (user_id event)
          (VDict [("amount", total);
                  ("category", category);
                  ("description", VStr ("Receipt from " +:+ py_str L vendor));
                  ("date", date);
                  ("type", VStr "expense");
                  ("receipt_id", default VNone (dict_get receipt "receipt_id"));
                  ("receipt_url", default VNone (dict_get receipt "receipt_url"))])
          (clock b) false ["budget"; "goal"]%string].
Proof.
  intros Hty Hd Hs Ht Hp Htot Hcat Hven Hdate.
  rewrite handle_event_queue. unfold _process_event_by_type. rewrite Hty.
  rewrite (handle_receipt_processed_emits L event _ receipt parsed success Hd Hs Ht Hp)
    by (intros ->; discriminate).
  rewrite Htot, Hcat, Hven, Hdate. reflexivity.
Qed.

(** The hypotheses of C7 hold for the payload of the specification's
    example. *)
Lemma receipt_cascade_witness :
  event_queue
    (task_bus (snd (exec (_handle_event example_lib (receipt_event receipt_payload)
                            (set_queue [] (bus_with_receipt receipt_payload)))
                         [Ok tt; Ok tt])))
  = [mkEvent "uuid-1" TRANSACTION_ADDED "alice"
       (VDict [("amount", VNum (85 # 2)); ("category", VStr "Groceries");
               ("description", VStr "Receipt from Acme");
               ("date", VStr "2024-01-05"); ("type", VStr "expense");
               ("receipt_id", VNone); ("receipt_url", VNone)])
       1000 false ["budget"; "goal"]%string].
Proof.
  apply (receipt_cascade example_lib (receipt_event receipt_payload)
           (set_queue [] (bus_with_receipt receipt_payload))
           [("success", VBool true);
            ("parsed_data",
             VDict [("total", VNum (85 # 2)); ("category", VStr "Groceries");
                    ("vendor", VStr "Acme"); ("date", VStr "2024-01-05")])]
           [("total", VNum (85 # 2)); ("category", VStr "Groceries");
            ("vendor", VStr "Acme"); ("date", VStr "2024-01-05")]
           (VBool true) (VNum (85 # 2)) (VStr "Groceries") (VStr "Acme")
           (VStr "2024-01-05") [Ok tt; Ok tt]);
    reflexivity.
Defined.

(** C6, as amended.  Take a receipt event whose payload is a dict.  If
    [success] is false or missing, or the parsed data is missing or empty,
    processing leaves the queue as it was, at every await and at the end,
    and when no call of a later stage is cancelled the event ends up
    marked processed.  If the parse succeeded and the parsed data only
    lacks the total, the cascade still happens: the queue grows by one
    [transaction_added] event, whose amount is 0. *)
Theorem failed_receipt_emits_nothing (L : pylib) (event : SyncEvent) (b : bus)
    (receipt : dict) (answers : list (outcome unit)) :
  event_type event = RECEIPT_PROCESSED ->
  data event = VDict receipt ->
  (truthy (default VNone (dict_get receipt "success")) = false
   \/ truthy (default VNone (dict_get receipt "parsed_data")) = false ->
   event_queue (task_bus (snd (exec (_handle_event L event b) answers)))
   = event_queue b
   /\ (Forall not_cancelled answers ->
       List.length answers
       = (List.length (default [] (subscribers b !! "receipt_processed"))
          + List.length (default [] (active_connections b !! user_id event)))%nat ->
       exists b',
         snd (exec (_handle_event L event b) answers)
         = Return b' (Ok (set_processed event))))
  /\ (forall success parsed,
        dict_get receipt "success" = Some success ->
        truthy success = true ->
        dict_get receipt "parsed_data" = Some (VDict parsed) ->
        parsed <> [] ->
        dict_get parsed "total" = None ->
        exists emitted,
          event_queue (task_bus (snd (exec (_handle_event L event b) answers)))
          = event_queue b ++ [emitted]
          /\ event_type emitted = TRANSACTION_ADDED
          /\ py_get (data emitted) "amount" = Ok (VNum 0)).
Proof.
  intros Hty Hd. split.
  - intros H.
    assert (H1 : _process_event_by_type L event
                   (add_log INFO ("Processing event: "
                                  +:+ event_value (event_type event)) b)
                 = (add_log INFO ("Processing event: "
                                  +:+ event_value (event_type event)) b,
                    Ok tt)).
    { unfold _process_event_by_type. rewrite Hty.
      apply (handle_receipt_processed_skips L event _ receipt Hd H). }
    split.
    + rewrite handle_event_queue, H1. reflexivity.
    + intros Hn Hl.
      destruct (handle_event_all_stages L event b _ answers H1 Hn) as [b' He].
      * rewrite Hty. exact Hl.
      * exists b'. rewrite He. reflexivity.
  - intros success parsed Hs Ht Hp Hne Htot.
    eexists. rewrite handle_event_queue. unfold _process_event_by_type. rewrite Hty.
    rewrite (handle_receipt_processed_emits L event _ receipt parsed success
               Hd Hs Ht Hp Hne).
    rewrite Htot. simpl. split; [reflexivity|]. split; reflexivity.
Qed.

(** The hypotheses of C6 hold for the payload [{success: false}]. *)
Lemma failed_receipt_emits_nothing_witness :
  event_queue
    (task_bus (snd (exec (_handle_event example_lib
                            (receipt_event (VDict [("success", VBool false)]))
                            (set_queue [] (bus_with_receipt
                                             (VDict [("success", VBool false)]))))
                         [Ok tt; Ok tt])))
  = [].
Proof.
  apply (proj1 (failed_receipt_emits_nothing example_lib
                  (receipt_event (VDict [("success", VBool false)]))
                  (set_queue [] (bus_with_receipt (VDict [("success", VBool false)])))
                  [("success", VBool false)] [Ok tt; Ok tt] eq_refl eq_refl)).
  left. reflexivity.
Defined.

(** C6 as stated fails: the parse of [receipt_without_total] succeeded
    but found no total, and processing the event still emits a
    [transaction_added], with amount 0. *)
Lemma missing_total_still_cascades :
  dict_get [("category", VStr "Groceries"); ("vendor", VStr "Acme")] "total" = None
  /\ event_queue
       (task_bus (snd (exec (_handle_event example_lib
                               (receipt_event receipt_without_total)
                               (set_queue [] (bus_with_receipt receipt_without_total)))
                            [Ok tt; Ok tt])))
     = [mkEvent "uuid-1" TRANSACTION_ADDED "alice"
          (VDict [("amount", VNum 0); ("category", VStr "Groceries");
                  ("description", VStr "Receipt from Acme");
                  ("date", VStr "1000"); ("type", VStr "expense");
                  ("receipt_id", VNone); ("receipt_url", VNone)])
          1000 false ["budget"; "goal"]%string].
Proof. split; vm_compute; reflexivity. Qed.

(** ** What goes over the wire *)

Lemma preserves_abind {A B : Type} (I : bus -> Prop) (m : action A) (f : A -> action B) :
  preserves I m -> (forall a, preserves I (f a)) -> preserves I (abind m f).
Proof.
  intros Hm Hf b Hb. unfold abind. specialize (Hm b Hb).
  destruct (m b) as [b' [a|e]]; simpl in *; [apply Hf, Hm|exact Hm].
Qed.

Lemma preserves_aret {A : Type} (I : bus -> Prop) (a : A) : preserves I (aret a).
Proof. intros b Hb. exact Hb. Qed.

Lemma preserves_lift_outcome {A : Type} (I : bus -> Prop) (o : outcome A) :
  preserves I (lift_outcome o).
Proof. intros b Hb. exact Hb. Qed.

Lemma preserves_logger_fresh (l : level) (msg : string) :
  preserves queue_fresh (logger l msg).
Proof. intros b Hb. exact Hb. Qed.

(** [emit_event] queues the event it constructs with [processed] false. *)
Lemma preserves_emit_fresh (L : pylib) (et : EventType) (uid : string) (d : value)
    (related : option (list string)) :
  preserves queue_fresh (emit_event L et uid d related).
Proof.
  intros b Hb. unfold queue_fresh, emit_event. simpl.
  apply Forall_app. split; [exact Hb|]. repeat constructor.
Qed.

Ltac preserve_fresh :=
  repeat first
    [ apply preserves_emit_fresh
    | apply preserves_logger_fresh
    | apply preserves_lift_outcome
    | apply preserves_aret
    | apply preserves_abind; [|intros ?]
    | match goal with
      | |- preserves _ (if ?c then _ else _) => destruct c
      end ].

Lemma preserves_process_event_by_type (L : pylib) (event : SyncEvent) :
  preserves queue_fresh (_process_event_by_type L event).
Proof.
  unfold _process_event_by_type.
  destruct (event_type event); try apply preserves_aret.
  - unfold _handle_transaction_added, _update_budget_from_transaction,
      _update_goal_progress_from_transaction, _check_spending_anomalies, get_eq_or.
    preserve_fresh.
  - unfold _handle_receipt_processed. preserve_fresh.
    intros b Hb. exact Hb.
  - unfold _handle_goal_progress_updated, _update_budget_from_goal_progress.
    preserve_fresh.
  - unfold _handle_budget_updated. preserve_fresh.
Qed.

Lemma wire_message_processed (L : pylib) (event : SyncEvent) :
  wire_processed (wire_message L event) = Some (VBool (processed event)).
Proof. reflexivity. Qed.

Lemma respects_process_one (L : pylib) (b : bus) :
  queue_fresh b -> respects queue_fresh sends_unprocessed (process_one L b).
Proof.
  intros Hb. unfold process_one, try_except, cbind, wait_for_queue_get.
  cbn [tbind ttry]. split; [exact Hb|]. split; [exact I|].
  intros ans b' Hb'.
  assert (Hh : forall e b0, queue_fresh b0 ->
                 respects queue_fresh sends_unprocessed
                   (match e with
                    | TimeoutError => cret tt
                    | _ => lift (logger ERROR ("Error processing event: " +:+ exn_str e))
                    end b0)).
  { intros e b0 H0. destruct e; try exact H0. }
  destruct ans as [u|e].
  - destruct (event_queue b') as [|event rest] eqn:Eq.
    + cbn [tbind ttry]. simpl. exact Hb'.
    + unfold queue_fresh in Hb'. rewrite Eq in Hb'.
      inversion Hb' as [|? ? Hev Hrest]; subst.
      cbn [tbind]. apply respects_ttry; [|exact Hh].
      apply respects_tbind; [|intros _ b0 H0; exact H0].
      apply respects_handle_event.
      * intros l msg b0 H0. exact H0.
      * intros c b0 H0. exact H0.
      * intros cb. exact I.
      * intros ws. simpl. rewrite wire_message_processed, Hev. reflexivity.
      * apply preserves_process_event_by_type. exact Hrest.
  - cbn [tbind ttry]. destruct (is_Exception e); [apply Hh, Hb'|exact Hb'].
Qed.

(** The consumer keeps the queue fresh and sends only messages whose
    [processed] entry is false, however the event loop answers and
    whatever fresh queue it is resumed with. *)
Lemma respects_process_events (L : pylib) (fuel : nat) (b : bus) :
  queue_fresh b -> respects queue_fresh sends_unprocessed (_process_events L fuel b).
Proof.
  revert b. induction fuel as [|fuel IH]; intros b Hb; cbn [_process_events].
  - exact Hb.
  - destruct (running b); [|exact Hb].
    unfold cbind. apply respects_tbind; [apply respects_process_one, Hb|].
    intros _ b' Hb'. apply IH, Hb'.
Qed.

(** C10.  Let the queue hold only events that are not processed, as
    [emit_event] makes them.  Then in every run of the consumer, every
    message it hands to a connection carries an event object whose
    [processed] entry is false. *)
Theorem delivered_messages_are_unprocessed (L : pylib) (fuel : nat) (b : bus)
    (answers : list (outcome unit)) (ws : websocket) (message : dict) :
  queue_fresh b ->
  In (SendText ws message) (fst (exec (_process_events L fuel b) answers)) ->
  wire_processed message = Some (VBool false).
Proof.
  intros Hb Hin.
  destruct (respects_exec queue_fresh sends_unprocessed _ answers
              (respects_process_events L fuel b Hb)) as [Hall _].
  rewrite List.Forall_forall in Hall. exact (Hall _ Hin).
Qed.

(** The hypotheses of C10 hold for the bus with alice's receipt, on
    which the consumer sends one message. *)
Lemma delivered_messages_are_unprocessed_witness :
  fst (exec (_process_events example_lib 2
               (set_running true (bus_with_receipt receipt_payload)))
            [Ok tt; Ok tt; Ok tt])
  = [QueueGet; Callback 7 (receipt_event receipt_payload);
     SendText 3 (wire_message example_lib (receipt_event receipt_payload))]
  /\ wire_processed (wire_message example_lib (receipt_event receipt_payload))
     = Some (VBool false).
Proof.
  split; [vm_compute; reflexivity|].
  apply (delivered_messages_are_unprocessed example_lib 2
           (set_running true (bus_with_receipt receipt_payload))
           [Ok tt; Ok tt; Ok tt] 3).
  - repeat constructor.
  - vm_compute. right. right. left. reflexivity.
Defined.

(** * Further properties of the bus and of the anomaly engine *)

(** ** What the handlers put on the queue *)

Section Appends.
Context {A B : Type} (C : SyncEvent -> Prop).

Lemma appends_weaken (n n' : nat) (m : action A) :
  (n <= n')%nat -> appends C n m -> appends C n' m.
Proof.
  intros Hn Hm b. destruct (Hm b) as (children & Hq & HC & Hl).
  exists children. repeat split; auto. lia.
Qed.

Lemma appends_aret (n : nat) (a : A) : appends C n (aret a).
Proof.
  intros b. exists []. simpl. rewrite app_nil_r. repeat split; auto. lia.
Qed.

Lemma appends_lift_outcome (n : nat) (o : outcome A) : appends C n (lift_outcome o).
Proof.
  intros b. exists []. simpl. rewrite app_nil_r. repeat split; auto. lia.
Qed.

Lemma appends_abind (n k : nat) (m : action A) (f : A -> action B) :
  appends C n m -> (forall a, appends C k (f a)) -> appends C (n + k) (abind m f).
Proof.
  intros Hm Hf b. unfold abind.
  destruct (Hm b) as (c1 & Hq1 & HC1 & Hl1).
  destruct (m b) as [b1 [a|e]]; simpl in Hq1.
  - destruct (Hf a b1) as (c2 & Hq2 & HC2 & Hl2).
    exists (c1 ++ c2). rewrite Hq2, Hq1, <- app_assoc. repeat split.
    + apply Forall_app; auto.
    + rewrite length_app. lia.
  - exists c1. simpl. repeat split; auto. lia.
Qed.
End Appends.

Lemma appends_logger (C : SyncEvent -> Prop) (n : nat) (l : level) (msg : string) :
  appends C n (logger l msg).
Proof.
  intros b. exists []. simpl. rewrite app_nil_r. repeat split; auto. lia.
Qed.

Lemma appends_emit (L : pylib) (C : SyncEvent -> Prop) (et : EventType) (uid : string)
    (d : value) (related : option (list string)) :
  (forall id now, C (mkEvent id et uid d now false (default [] related))) ->
  appends C 1 (emit_event L et uid d related).
Proof.
  intros HC b. eexists. simpl. repeat split; [|simpl; lia].
  constructor; [apply HC|constructor].
Qed.

(** A step of a handler that emits nothing, in front of the rest. *)
Ltac appends_pure n :=
  apply (appends_abind _ 0 n);
  [first [apply appends_lift_outcome | apply appends_logger | apply appends_aret]
  |intros ?].

Lemma appends_get_eq_or (C : SyncEvent -> Prop) (v : value) (k1 s1 k2 s2 : string) :
  appends C 0 (get_eq_or v k1 s1 k2 s2).
Proof.
  unfold get_eq_or. appends_pure 0.
  destruct (value_eq_str _ _); [apply appends_aret|].
  appends_pure 0. apply appends_aret.
Qed.

Lemma appends_process_event_by_type (L : pylib) (event : SyncEvent) :
  appends (child_of event) (cascade_fanout (event_type event))
          (_process_event_by_type L event).
Proof.
  unfold _process_event_by_type.
  destruct (event_type event) eqn:Et; try apply appends_aret; cbn [cascade_fanout].
  - unfold _handle_transaction_added.
    apply (appends_abind _ 1 1).
    { unfold _update_budget_from_transaction. appends_pure 1.
      destruct (value_eq_str _ _); [|apply appends_aret].
      do 4 appends_pure 1. apply appends_emit.
      intros id now. unfold child_of. rewrite Et. simpl. repeat split. lia. }
    intros _. apply (appends_abind _ 0 1); [apply appends_get_eq_or|]. intros savings.
    apply (appends_abind _ 1 0).
    { destruct savings; [|apply appends_aret].
      unfold _update_goal_progress_from_transaction.
      apply (appends_abind _ 0 1); [apply appends_get_eq_or|]. intros go.
      destruct go; [|apply appends_aret].
      do 3 appends_pure 1. apply appends_emit.
      intros id now. unfold child_of. rewrite Et. simpl. repeat split. lia. }
    intros _. unfold _check_spending_anomalies. appends_pure 0. apply appends_logger.
  - unfold _handle_receipt_processed. appends_pure 1.
    apply (appends_abind _ 0 1).
    { destruct (truthy _); [apply appends_lift_outcome|apply appends_aret]. }
    intros parsed. destruct (truthy parsed); [|apply appends_aret].
    do 4 appends_pure 1.
    apply (appends_abind _ 0 1).
    { intros b. exists []. simpl. rewrite app_nil_r. repeat split; auto. }
    intros now. do 3 appends_pure 1.
    apply appends_emit.
    intros id now'. unfold child_of. rewrite Et. simpl. repeat split. lia.
  - unfold _handle_goal_progress_updated.
    apply (appends_abind _ 0 1); [apply appends_lift_outcome|]. intros milestone.
    apply (appends_abind _ 1 0).
    { destruct (truthy milestone); [|apply appends_aret].
      do 3 appends_pure 1.
      apply appends_emit.
      intros id now. unfold child_of. rewrite Et. simpl. repeat split. lia. }
    intros _. unfold _update_budget_from_goal_progress. appends_pure 0.
    apply appends_logger.
  - unfold _handle_budget_updated. apply appends_logger.
Qed.

(** The queue after an event is processed, whatever the later stages
    do. *)
Lemma processing_children (L : pylib) (event : SyncEvent) (b : bus)
    (answers : list (outcome unit)) :
  exists children,
    event_queue (task_bus (snd (exec (_handle_event L event b) answers)))
    = event_queue b ++ children
    /\ Forall (child_of event) children
    /\ (List.length children <= cascade_fanout (event_type event))%nat.
Proof.
  rewrite handle_event_queue.
  destruct (appends_process_event_by_type L event
              (add_log INFO ("Processing event: " +:+ event_value (event_type event)) b))
    as (children & Hq & HC & Hl).
  exists children. split; [exact Hq|]. split; assumption.
Qed.

(** X1.  Whatever the kind and the payload of an event, and however its
    callbacks and sends turn out (cancellation included), processing it
    leaves every event that was queued in place and in order, and only
    puts new events behind them: at most two for a transaction_added
    event, one for a receipt_processed or goal_progress_updated event,
    none for any other kind.  Each new event is for the user of the
    processed one, is not processed, and is of a kind strictly nearer to
    the end of a cascade (receipt_processed, then transaction_added, then
    goal_progress_updated, then every other kind). *)
Theorem processing_only_appends_children (L : pylib) (event : SyncEvent) (b : bus)
    (answers : list (outcome unit)) :
  exists children,
    event_queue (task_bus (snd (exec (_handle_event L event b) answers)))
    = event_queue b ++ children
    /\ Forall (child_of event) children
    /\ (List.length children <= cascade_fanout (event_type event))%nat.
Proof. apply processing_children. Qed.

(** What [_handle_transaction_added] does with a payload that is a dict. *)
Lemma handle_transaction_added_dict (L : pylib) (event : SyncEvent) (b : bus) (d : dict) :
  data event = VDict d ->
  exists b',
    _handle_transaction_added L event b = (b', Ok tt)
    /\ event_queue b'
       = event_queue b
         ++ (if is_expense d
             then [budget_event L (user_id event) d (uuid_count b) (clock b)]
             else [])
         ++ (if is_saving d
             then [goal_event L (user_id event) d
                     (uuid_count b + (if is_expense d then 1 else 0)) (clock b)]
             else []).
Proof.
  intros Hd.
  unfold _handle_transaction_added, _update_budget_from_transaction,
    _update_goal_progress_from_transaction, _check_spending_anomalies, get_eq_or,
    is_expense, is_saving, budget_event, goal_event.
  rewrite Hd. unfold abind, lift_outcome, py_get, py_get_default, aret, logger.
  destruct (value_eq_str (default VNone (dict_get d "type")) "expense") eqn:He;
    cbn [emit_event fst snd];
    destruct (value_eq_str (default VNone (dict_get d "type")) "income") eqn:Hi;
    cbn [orb];
    destruct (value_eq_str (default VNone (dict_get d "category")) "Savings") eqn:Hs;
    cbn [emit_event fst snd uuid_count clock event_queue set_queue set_uuid_count add_log];
    eexists; (split; [reflexivity|]); cbn [event_queue];
    rewrite ?app_nil_r, ?Nat.add_0_r, ?Nat.add_1_r, <- ?app_assoc; reflexivity.
Qed.

(** X2.  A transaction_added event whose payload is a dict: processing it
    emits a budget_updated event exactly when the type is 'expense', and
    after it a goal_progress_updated event exactly when the type is
    'income' or the category is 'Savings'; the first carries the
    category (default 'Unknown'), the amount as amount_spent (default 0)
    and the id of the transaction, the second the amount as amount_added,
    the id and the source 'transaction'.  Nothing else is queued, whatever
    the later stages do. *)
Theorem transaction_added_cascade (L : pylib) (event : SyncEvent) (b : bus) (d : dict)
    (answers : list (outcome unit)) :
  event_type event = TRANSACTION_ADDED ->
  data event = VDict d ->
  event_queue (task_bus (snd (exec (_handle_event L event b) answers)))
  = event_queue b
    ++ (if is_expense d
        then [budget_event L (user_id event) d (uuid_count b) (clock b)]
        else [])
    ++ (if is_saving d
        then [goal_event L (user_id event) d
                (uuid_count b + (if is_expense d then 1 else 0)) (clock b)]
        else []).
Proof.
  intros Et Hd. rewrite handle_event_queue.
  unfold _process_event_by_type. rewrite Et.
  destruct (handle_transaction_added_dict L event
              (add_log INFO ("Processing event: " +:+ event_value TRANSACTION_ADDED) b)
              d Hd) as (b' & Hrun & Hq).
  rewrite Hrun. exact Hq.
Qed.

Lemma transaction_added_cascade_witness :
  event_queue (task_bus (snd (exec (_handle_event example_lib savings_expense
                                      bus_after_savings) [])))
  = [mkEvent "uuid-1" BUDGET_UPDATED "alice"
       (VDict [("category", VStr "Savings"); ("amount_spent", VNum 35);
               ("transaction_id", VStr "t1")])
       1000 false [];
     mkEvent "uuid-2" GOAL_PROGRESS_UPDATED "alice"
       (VDict [("amount_added", VNum 35); ("transaction_id", VStr "t1");
               ("source", VStr "transaction")])
       1000 false []].
Proof.
  apply (transaction_added_cascade example_lib savings_expense bus_after_savings
           savings_payload []);
    reflexivity.
Defined.

(** ** Invariants of the whole consumer *)

Lemma respects_for_each_in {X : Type} (I : bus -> Prop) (P : request -> Prop) (l : list X)
    (body : X -> coroutine unit) (b : bus) :
  Forall (fun x => forall b', I b' -> respects I P (body x b')) l -> I b ->
  respects I P (for_each l body b).
Proof.
  intros Hbody. revert b. induction Hbody as [|x l Hx Hl IH]; intros b Hb; cbn [for_each].
  - exact Hb.
  - unfold cbind. apply respects_tbind; [apply Hx, Hb|]. intros _ b' Hb'. apply IH, Hb'.
Qed.

Section LogicFrame.
Variable L : pylib.
Variable I : bus -> Prop.

(** The invariant does not look at the log, the queue or the count of
    identifiers drawn. *)
Hypothesis I_log : forall l msg b, I b -> I (add_log l msg b).
Hypothesis I_queue : forall q b, I b -> I (set_queue q b).
Hypothesis I_uuid : forall n b, I b -> I (set_uuid_count n b).

Lemma frame_logger (l : level) (msg : string) : preserves I (logger l msg).
Proof. intros b Hb. apply I_log, Hb. Qed.

Lemma frame_emit_event (et : EventType) (uid : string) (d : value)
    (related : option (list string)) :
  preserves I (emit_event L et uid d related).
Proof. intros b Hb. simpl. apply I_log, I_uuid, I_queue, Hb. Qed.

Lemma frame_process_event_by_type (event : SyncEvent) :
  preserves I (_process_event_by_type L event).
Proof.
  unfold _process_event_by_type.
  destruct (event_type event); try apply preserves_aret;
    unfold _handle_transaction_added, _update_budget_from_transaction,
      _update_goal_progress_from_transaction, _check_spending_anomalies, get_eq_or,
      _handle_receipt_processed, _handle_goal_progress_updated,
      _update_budget_from_goal_progress, _handle_budget_updated;
    repeat first
      [ apply frame_emit_event
      | apply frame_logger
      | apply preserves_lift_outcome
      | apply preserves_aret
      | apply preserves_abind; [|intros ?]
      | match goal with
        | |- preserves _ (if ?c then _ else _) => destruct c
        end
      | (intros b Hb; exact Hb) ].
Qed.

Lemma frame_update_related (event : SyncEvent) :
  preserves I (_update_related_entities event).
Proof.
  intros b Hb. unfold _update_related_entities.
  destruct (assoc_get _ _) as [related|]; [|exact Hb]. simpl.
  revert b Hb. induction related as [|r related IH]; intros b Hb; simpl.
  - exact Hb.
  - apply IH, I_log, Hb.
Qed.
End LogicFrame.

Section ConsumerInvariant.
Variable L : pylib.
Variable I : bus -> Prop.
Variable P : request -> Prop.

Hypothesis I_log : forall l msg b, I b -> I (add_log l msg b).
Hypothesis I_queue : forall q b, I b -> I (set_queue q b).
Hypothesis I_uuid : forall n b, I b -> I (set_uuid_count n b).
Hypothesis I_remove :
  forall uid ws, preserves I (remove_websocket_connection uid ws).
Hypothesis P_get : P QueueGet.
Hypothesis P_callback :
  forall b event callbacks cb,
    I b -> subscribers b !! event_value (event_type event) = Some callbacks ->
    In cb callbacks -> P (Callback cb event).
Hypothesis P_send :
  forall b event conns ws,
    I b -> active_connections b !! user_id event = Some conns ->
    In ws conns -> P (SendText ws (wire_message L event)).

Lemma invariant_notify_subscribers (event : SyncEvent) (b : bus) :
  I b -> respects I P (_notify_subscribers event b).
Proof.
  intros Hb. unfold _notify_subscribers.
  destruct (subscribers b !! _) as [callbacks|] eqn:Hs; [|exact Hb].
  apply respects_for_each_in; [|exact Hb].
  apply List.Forall_forall. intros cb Hcb b' Hb'. unfold notify_one, try_except.
  apply respects_ttry.
  - apply respects_await; [exact Hb'|]. exact (P_callback b event callbacks cb Hb Hs Hcb).
  - intros e b'' Hb''. apply respects_lift; [apply frame_logger, I_log|exact Hb''].
Qed.

Lemma invariant_send_to_all (event : SyncEvent) (conns disconnected : list websocket)
    (b : bus) :
  Forall (fun ws => P (SendText ws (wire_message L event))) conns ->
  I b -> respects I P (send_to_all conns (wire_message L event) disconnected b).
Proof.
  intros Hconns. revert disconnected b.
  induction Hconns as [|ws conns Hws Hconns IH]; intros disconnected b Hb;
    cbn [send_to_all].
  - exact Hb.
  - unfold cbind. apply respects_tbind; [|intros failed b' Hb'; apply IH, Hb'].
    unfold send_one, try_except, cbind. apply respects_ttry.
    + apply respects_tbind; [apply respects_await; auto|].
      intros _ b' Hb'. exact Hb'.
    + intros e b' Hb'.
      apply respects_tbind;
        [apply respects_lift; [apply frame_logger, I_log|exact Hb']|].
      intros _ b'' Hb''. exact Hb''.
Qed.

Lemma invariant_send_realtime_updates (event : SyncEvent) (b : bus) :
  I b -> respects I P (_send_realtime_updates L event b).
Proof.
  intros Hb. unfold _send_realtime_updates.
  destruct (active_connections b !! _) as [conns|] eqn:Hc; [|exact Hb].
  unfold cbind. apply respects_tbind.
  - apply invariant_send_to_all; [|exact Hb].
    apply List.Forall_forall. intros ws Hws. exact (P_send b event conns ws Hb Hc Hws).
  - intros disconnected b' Hb'. apply respects_for_each; [|exact Hb'].
    intros ws b'' Hb''. apply respects_lift; [apply I_remove|exact Hb''].
Qed.

Lemma invariant_handle_event (event : SyncEvent) (b : bus) :
  I b -> respects I P (_handle_event L event b).
Proof.
  intros Hb.
  assert (H1 : I (fst (_process_event_by_type L event
                         (add_log INFO ("Processing event: "
                                        +:+ event_value (event_type event)) b)))).
  { apply frame_process_event_by_type; auto. }
  unfold _handle_event, try_except.
  unfold cbind at 1. unfold lift at 1. unfold logger at 1. cbn [tbind].
  unfold cbind at 1. unfold lift at 1.
  destruct (_process_event_by_type L event _) as [b1 [[]|e]]; simpl in H1; cbn [tbind].
  - apply respects_ttry.
    + apply respects_tbind; [apply invariant_notify_subscribers, H1|].
      intros _ b2 H2. unfold cbind.
      apply respects_tbind; [apply invariant_send_realtime_updates, H2|].
      intros _ b3 H3.
      apply respects_tbind;
        [apply respects_lift; [apply frame_update_related, I_log|exact H3]|].
      intros _ b4 H4.
      apply respects_tbind;
        [apply respects_lift; [apply frame_logger, I_log|exact H4]|].
      intros _ b5 H5. exact H5.
    + intros e b' Hb'. unfold cbind.
      apply respects_tbind;
        [apply respects_lift; [apply frame_logger, I_log|exact Hb']|].
      intros _ b'' Hb''. exact Hb''.
  - cbn [ttry]. destruct (is_Exception e); [|exact H1].
    unfold cbind.
    apply respects_tbind;
      [apply respects_lift; [apply frame_logger, I_log|exact H1]|].
    intros _ b'' Hb''. exact Hb''.
Qed.

Lemma invariant_process_one (b : bus) : I b -> respects I P (process_one L b).
Proof.
  intros Hb. unfold process_one, try_except, cbind, wait_for_queue_get.
  cbn [tbind ttry]. split; [exact Hb|]. split; [exact P_get|].
  intros ans b' Hb'.
  assert (Hh : forall e b0, I b0 ->
                 respects I P
                   (match e with
                    | TimeoutError => cret tt
                    | _ => lift (logger ERROR ("Error processing event: " +:+ exn_str e))
                    end b0)).
  { intros e b0 H0. destruct e; try exact H0; apply I_log, H0. }
  destruct ans as [u|e].
  - destruct (event_queue b') as [|event rest] eqn:Eq.
    + cbn [tbind ttry]. simpl. exact Hb'.
    + cbn [tbind]. apply respects_ttry; [|exact Hh].
      apply respects_tbind; [|intros _ b0 H0; exact H0].
      apply invariant_handle_event. apply I_queue, Hb'.
  - cbn [tbind ttry]. destruct (is_Exception e); [apply Hh, Hb'|exact Hb'].
Qed.

Lemma invariant_process_events (fuel : nat) (b : bus) :
  I b -> respects I P (_process_events L fuel b).
Proof.
  revert b. induction fuel as [|fuel IH]; intros b Hb; cbn [_process_events].
  - exact Hb.
  - destruct (running b); [|exact Hb].
    unfold cbind. apply respects_tbind; [apply invariant_process_one, Hb|].
    intros _ b' Hb'. apply IH, Hb'.
Qed.
End ConsumerInvariant.

(** ** The connection registry *)

Lemma list_remove_incl (ws : nat) (l l' : list nat) :
  list_remove ws l = Some l' -> forall x, In x l' -> In x l.
Proof.
  revert l'. induction l as [|y l IH]; intros l' H x Hx; simpl in H; [discriminate|].
  destruct (y =? ws)%nat.
  - injection H as <-. right. exact Hx.
  - destruct (list_remove ws l) as [r|]; [|discriminate]. injection H as <-.
    destruct Hx as [<-|Hx]; [left; reflexivity|right; apply (IH r); auto].
Qed.

Lemma list_remove_absent (ws : nat) (l : list nat) :
  seen_in ws l = false -> list_remove ws l = None.
Proof.
  unfold seen_in. induction l as [|y l IH]; simpl; [reflexivity|].
  rewrite Nat.eqb_sym. destruct (y =? ws)%nat; simpl; [discriminate|].
  intros H. rewrite (IH H). reflexivity.
Qed.

Lemma filter_keeps_all {X : Type} (p : X -> bool) (l : list X) :
  (forall x, In x l -> p x = true) -> List.filter p l = l.
Proof.
  induction l as [|y l IH]; intros H; simpl; [reflexivity|].
  rewrite (H y) by (left; reflexivity). f_equal. apply IH. intros x Hx. apply H. right. exact Hx.
Qed.

Lemma list_remove_NoDup (ws : nat) (l : list nat) :
  List.NoDup l -> In ws l ->
  list_remove ws l = Some (List.filter (fun x => negb (x =? ws)%nat) l).
Proof.
  induction l as [|y l IH]; intros Hnd Hin; [destruct Hin|].
  inversion Hnd as [|? ? Hy Hl]; subst. simpl.
  destruct (y =? ws)%nat eqn:E; simpl.
  - apply Nat.eqb_eq in E. subst y. f_equal. symmetry. apply filter_keeps_all.
    intros x Hx. apply negb_true_iff, Nat.eqb_neq. intros ->. contradiction.
  - destruct Hin as [->|Hin]; [rewrite Nat.eqb_refl in E; discriminate|].
    rewrite (IH Hl Hin). reflexivity.
Qed.

Lemma filter_filter_and {X : Type} (p q : X -> bool) (l : list X) :
  List.filter q (List.filter p l) = List.filter (fun x => p x && q x) l.
Proof.
  induction l as [|y l IH]; simpl; [reflexivity|].
  destruct (p y); simpl; [destruct (q y); rewrite IH; reflexivity|exact IH].
Qed.

(** [remove_websocket_connection], with the registry as the statements
    below read it. *)
Lemma remove_connection_unfold (uid : string) (ws : websocket) (b : bus) :
  remove_websocket_connection uid ws b
  = (add_log INFO ("WebSocket disconnected for user " +:+ uid)
       match @lookup string (list websocket) _ _ uid (active_connections b) with
       | Some conns =>
           match list_remove ws conns with
           | Some [] => set_connections (delete uid (active_connections b)) b
           | Some rest => set_connections (<[uid := rest]> (active_connections b)) b
           | None => b
           end
       | None => b
       end, Ok tt).
Proof. reflexivity. Qed.

Lemma remove_connection_registry (uid : string) (ws : websocket) (b : bus) :
  active_connections (fst (remove_websocket_connection uid ws b))
  = match @lookup string (list websocket) _ _ uid (active_connections b) with
    | Some conns =>
        match list_remove ws conns with
        | Some [] => delete uid (active_connections b)
        | Some rest => <[uid := rest]> (active_connections b)
        | None => active_connections b
        end
    | None => active_connections b
    end.
Proof.
  rewrite remove_connection_unfold.
  destruct (active_connections b !! uid) as [conns|]; [|reflexivity].
  destruct (list_remove ws conns) as [[|w rest]|]; reflexivity.
Qed.

Lemma remove_connection_frame (uid : string) (ws : websocket) (b : bus) :
  event_queue (fst (remove_websocket_connection uid ws b)) = event_queue b
  /\ subscribers (fst (remove_websocket_connection uid ws b)) = subscribers b
  /\ running (fst (remove_websocket_connection uid ws b)) = running b
  /\ uuid_count (fst (remove_websocket_connection uid ws b)) = uuid_count b.
Proof.
  rewrite remove_connection_unfold.
  destruct (active_connections b !! uid) as [conns|]; [|repeat split].
  destruct (list_remove ws conns) as [[|w rest]|]; repeat split.
Qed.

(** Removing a connection of a user who has none registered changes
    nothing but the log. *)
Lemma prune_unknown_user (uid : string) (fs : list websocket) (b : bus) :
  active_connections b !! uid = None ->
  exists b',
    for_each fs (fun ws => lift (remove_websocket_connection uid ws)) b
    = Return b' (Ok tt)
    /\ same_but_log b b'.
Proof.
  unfold websocket in *.
  revert b. induction fs as [|ws fs IH]; intros b Hb; cbn [for_each].
  - exists b. split; [reflexivity|apply same_but_log_refl].
  - unfold cbind, lift. unfold remove_websocket_connection at 1. cbn [tbind].
    unfold websocket in *. rewrite Hb.
    destruct (IH (add_log INFO ("WebSocket disconnected for user " +:+ uid) b) Hb)
      as (b' & Hrun & Hs).
    exists b'. split; [exact Hrun|]. exact Hs.
Qed.

(** The second loop of [_send_realtime_updates] on connections that are
    registered: what is left of the user's list, the key being deleted
    with the last connection. *)
Lemma prune_registry (uid : string) (fs : list websocket) (b : bus) (l : list websocket) :
  active_connections b !! uid = Some l ->
  List.NoDup l -> l <> [] -> List.NoDup fs -> (forall x, In x fs -> In x l) ->
  exists b',
    for_each fs (fun ws => lift (remove_websocket_connection uid ws)) b
    = Return b' (Ok tt)
    /\ active_connections b'
       = match List.filter (fun x => negb (seen_in x fs)) l with
         | [] => delete uid (active_connections b)
         | alive => <[uid := alive]> (active_connections b)
         end
    /\ subscribers b' = subscribers b
    /\ event_queue b' = event_queue b
    /\ running b' = running b
    /\ uuid_count b' = uuid_count b.
Proof.
  unfold websocket in *.
  revert b l. induction fs as [|ws fs IH]; intros b l Hb Hnd Hne Hfs Hin; cbn [for_each].
  - exists b. split; [reflexivity|]. split; [|repeat split].
    rewrite filter_keeps_all by reflexivity.
    destruct l as [|x l]; [contradiction|]. symmetry. apply insert_id. exact Hb.
  - inversion Hfs as [|? ? Hws Hfs']; subst.
    unfold cbind, lift. unfold remove_websocket_connection at 1. cbn [tbind].
    unfold websocket in *. rewrite Hb.
    rewrite (list_remove_NoDup ws l Hnd) by (apply Hin; left; reflexivity).
    assert (Hsplit : List.filter (fun x => negb (seen_in x (ws :: fs))) l
                     = List.filter (fun x => negb (seen_in x fs))
                         (List.filter (fun x => negb (x =? ws)%nat) l)).
    { rewrite filter_filter_and. apply List.filter_ext. intros x.
      unfold seen_in. simpl. rewrite negb_orb. reflexivity. }
    rewrite Hsplit.
    destruct (List.filter (fun x => negb (x =? ws)%nat) l) as [|y l1] eqn:E.
    + destruct (prune_unknown_user uid fs
                  (add_log INFO ("WebSocket disconnected for user " +:+ uid)
                     (set_connections (delete uid (active_connections b)) b)))
        as (b' & Hrun & Hs).
      { simpl. apply lookup_delete_eq. }
      exists b'. split; [exact Hrun|].
      destruct Hs as (Hq & Hsub & Hc & Hr & Hu & _). simpl in Hq, Hsub, Hc, Hr, Hu.
      repeat split; assumption.
    + assert (Hnd1 : List.NoDup (y :: l1)).
      { rewrite <- E. apply List.NoDup_filter. exact Hnd. }
      destruct (IH
                  (add_log INFO ("WebSocket disconnected for user " +:+ uid)
                     (set_connections (<[uid := y :: l1]> (active_connections b)) b))
                  (y :: l1)) as (b' & Hrun & Hc & Hsub & Hq & Hr & Hu).
      { simpl. apply lookup_insert_eq. }
      { exact Hnd1. }
      { discriminate. }
      { exact Hfs'. }
      { intros x Hx. rewrite <- E. apply List.filter_In. split.
        - apply Hin. right. exact Hx.
        - apply negb_true_iff, Nat.eqb_neq. intros ->. contradiction. }
      exists b'. split; [exact Hrun|]. cbn [active_connections add_log set_connections subscribers event_queue running
           uuid_count] in Hc, Hsub, Hq, Hr, Hu.
      rewrite Hc.
      split; [|repeat split; assumption].
      destruct (List.filter (fun x => negb (seen_in x fs)) (y :: l1)).
      * apply delete_insert_eq.
      * apply insert_insert_eq.
Qed.

Lemma failed_sublist (conns : list websocket) (answers : list (outcome unit)) :
  forall x, In x (failed conns answers) -> In x conns.
Proof.
  revert answers. induction conns as [|ws conns IH]; intros answers x Hx.
  - destruct answers; destruct Hx.
  - destruct answers as [|[u|e] answers]; simpl in Hx.
    + destruct Hx.
    + right. apply (IH answers). exact Hx.
    + destruct Hx as [<-|Hx]; [left; reflexivity|right; apply (IH answers); exact Hx].
Qed.

Lemma failed_NoDup (conns : list websocket) (answers : list (outcome unit)) :
  List.NoDup conns -> List.NoDup (failed conns answers).
Proof.
  revert answers. induction conns as [|ws conns IH]; intros answers Hnd.
  - destruct answers; constructor.
  - inversion Hnd as [|? ? Hws Hnd']; subst.
    destruct answers as [|[u|e] answers]; simpl.
    + constructor.
    + apply IH, Hnd'.
    + constructor; [|apply IH, Hnd'].
      intros Hin. apply Hws. apply (failed_sublist conns answers). exact Hin.
Qed.

Lemma delivered_filter (conns : list websocket) (answers : list (outcome unit)) :
  List.NoDup conns -> List.length answers = List.length conns ->
  delivered conns answers
  = List.filter (fun x => negb (seen_in x (failed conns answers))) conns.
Proof.
  revert answers. induction conns as [|ws conns IH]; intros answers Hnd Hl.
  - destruct answers; reflexivity.
  - inversion Hnd as [|? ? Hws Hnd']; subst.
    destruct answers as [|[u|e] answers]; [discriminate| |]; simpl in Hl |- *.
    + assert (Hs : seen_in ws (failed conns answers) = false).
      { destruct (seen_in ws (failed conns answers)) eqn:E; [|reflexivity].
        apply seen_in_In in E. apply failed_sublist in E. contradiction. }
      rewrite Hs. simpl. f_equal. apply IH; [exact Hnd'|lia].
    + unfold seen_in at 1. simpl. rewrite Nat.eqb_refl. simpl.
      rewrite IH by (auto; lia). apply List.filter_ext_in. intros x Hx.
      unfold seen_in. simpl.
      assert (Hne : (x =? ws)%nat = false).
      { apply Nat.eqb_neq. intros ->. contradiction. }
      rewrite Hne. reflexivity.
Qed.

(** The first loop of [_send_realtime_updates]: every connection is sent
    to, and the connections collected are those whose send raised. *)
Lemma send_to_all_collects (message : dict) (conns : list websocket)
    (answers : list (outcome unit)) (disconnected : list websocket) (b : bus) :
  List.length answers = List.length conns ->
  Forall not_cancelled answers ->
  exists b',
    exec (send_to_all conns message disconnected b) answers
    = (map (fun ws => SendText ws message) conns,
       Return b' (Ok (disconnected ++ failed conns answers)))
    /\ same_but_log b b'.
Proof.
  revert answers disconnected b.
  induction conns as [|ws conns IH]; intros answers disconnected b Hl Hn.
  - destruct answers; [|discriminate]. exists b. simpl. rewrite app_nil_r.
    split; [reflexivity|apply same_but_log_refl].
  - destruct answers as [|ans answers]; [discriminate|].
    inversion Hn as [|? ? Hans Hrest]; subst. simpl in Hl.
    cbn [send_to_all]. unfold cbind. unfold send_one at 1.
    unfold cbind, try_except, await.
    cbn [ttry tbind exec].
    destruct ans as [[]|e].
    + unfold cret. cbn [ttry tbind failed].
      destruct (IH answers disconnected b) as [b' [He Hs]]; [lia|assumption|].
      rewrite He. exists b'. split; [reflexivity|exact Hs].
    + cbn [ttry tbind failed]. rewrite (not_cancelled_Exception e Hans).
      unfold lift, logger, cret. cbn [tbind].
      destruct (IH answers (disconnected ++ [ws])
                  (add_log WARNING ("Failed to send WebSocket message: " +:+ exn_str e) b))
        as [b' [He Hs]]; [lia|assumption|].
      rewrite He. exists b'. rewrite <- app_assoc. split; [reflexivity|exact Hs].
Qed.

(** X3.  The fan-out heals the registry.  Let the user of an event have
    the connections [conns] registered, each once.  When the sends are
    answered (one outcome per connection, none a cancellation), every
    connection is sent the message, and afterwards the user's list holds
    exactly the connections whose send returned, in their order; when
    every send raised, the user's key is gone.  Subscribers and the queue
    are untouched. *)
Theorem failed_connections_are_pruned (L : pylib) (event : SyncEvent) (b : bus)
    (conns : list websocket) (answers : list (outcome unit)) :
  active_connections b !! user_id event = Some conns ->
  List.NoDup conns ->
  conns <> [] ->
  List.length answers = List.length conns ->
  Forall not_cancelled answers ->
  exists b',
    exec (_send_realtime_updates L event b) answers
    = (map (fun ws => SendText ws (wire_message L event)) conns, Return b' (Ok tt))
    /\ active_connections b'
       = match delivered conns answers with
         | [] => delete (user_id event) (active_connections b)
         | alive => <[user_id event := alive]> (active_connections b)
         end
    /\ subscribers b' = subscribers b
    /\ event_queue b' = event_queue b.
Proof.
  intros Hb Hnd Hne Hl Hn. unfold _send_realtime_updates. rewrite Hb.
  destruct (send_to_all_collects (wire_message L event) conns answers [] b Hl Hn)
    as (b1 & He & Hq1 & Hs1 & Hc1 & _).
  simpl in He.
  destruct (prune_registry (user_id event) (failed conns answers) b1 conns)
    as (b2 & Hp & Hc2 & Hs2 & Hq2 & _).
  { rewrite Hc1. exact Hb. }
  { exact Hnd. }
  { exact Hne. }
  { apply failed_NoDup, Hnd. }
  { apply failed_sublist. }
  exists b2. split.
  - unfold cbind. rewrite <- (app_nil_r answers).
    rewrite (exec_tbind _ _ answers [] _ b1 (failed conns answers) He)
      by (rewrite length_map; lia).
    rewrite Hp. simpl. rewrite app_nil_r. reflexivity.
  - rewrite Hc2, Hc1, Hs2, Hs1, Hq2, Hq1, <- delivered_filter by assumption.
    repeat split.
Qed.

Lemma failed_connections_are_pruned_witness :
  exists b',
    exec (_send_realtime_updates example_lib (receipt_event receipt_payload)
            bus_two_connections)
         [Raise (OtherError "socket closed"); Ok tt]
    = (map (fun ws => SendText ws (wire_message example_lib
                                     (receipt_event receipt_payload))) [3; 4],
       Return b' (Ok tt))
    /\ active_connections b'
       = <["alice" := [4]]> (active_connections bus_two_connections)
    /\ subscribers b' = subscribers bus_two_connections
    /\ event_queue b' = event_queue bus_two_connections.
Proof.
  apply (failed_connections_are_pruned example_lib (receipt_event receipt_payload)
           bus_two_connections [3; 4] [Raise (OtherError "socket closed"); Ok tt]).
  - vm_compute. reflexivity.
  - repeat constructor; simpl; intuition discriminate.
  - discriminate.
  - reflexivity.
  - repeat constructor.
Defined.


(** ** The registry holds no empty list *)

Lemma registry_ok_remove (uid : string) (ws : websocket) (b : bus) :
  registry_ok b -> registry_ok (fst (remove_websocket_connection uid ws b)).
Proof.
  unfold registry_ok. rewrite remove_connection_registry. intros Hb.
  destruct (active_connections b !! uid) as [conns|]; [|exact Hb].
  destruct (list_remove ws conns) as [[|w rest]|]; [| |exact Hb].
  - apply map_Forall_delete. exact Hb.
  - apply map_Forall_insert_2; [discriminate|exact Hb].
Qed.

Lemma registry_ok_add (uid : string) (ws : websocket) (b : bus) :
  registry_ok b -> registry_ok (fst (add_websocket_connection uid ws b)).
Proof.
  unfold registry_ok, add_websocket_connection. simpl. intros Hb.
  apply map_Forall_insert_2; [|exact Hb].
  destruct (default [] (active_connections b !! uid)); discriminate.
Qed.

(** X5.  The connection registry never holds an empty list.  From a
    registry without one (the new bus has none), registering and
    removing a connection and every run of the consumer, in which failed
    connections are removed, lead to a registry without one.  So the
    status of a user reads connected exactly when it counts at least
    one connection. *)
Theorem registry_holds_no_empty_list (L : pylib) (b : bus) (uid : string) (ws : websocket)
    (fuel : nat) (answers : list (outcome unit)) :
  registry_ok b ->
  registry_ok (fst (add_websocket_connection uid ws b))
  /\ registry_ok (fst (remove_websocket_connection uid ws b))
  /\ registry_ok (task_bus (snd (exec (_process_events L fuel b) answers)))
  /\ (connected (get_sync_status L uid b) = true
      <-> (0 < status_connections (get_sync_status L uid b))%nat).
Proof.
  intros Hb. split; [apply registry_ok_add, Hb|].
  split; [apply registry_ok_remove, Hb|]. split.
  - apply (respects_task_bus registry_ok (fun _ => True)).
    apply respects_exec. apply invariant_process_events; auto.
    intros uid' ws' b' Hb'. apply registry_ok_remove, Hb'.
  - unfold get_sync_status. simpl.
    destruct (active_connections b !! uid) as [conns|] eqn:E; simpl.
    + split; [intros _|reflexivity].
      specialize (Hb uid conns E). simpl in Hb. destruct conns; [contradiction|simpl; lia].
    + split; [discriminate|lia].
Qed.

Lemma registry_holds_no_empty_list_witness :
  registry_ok (fst (add_websocket_connection "bob" 5 bus_two_connections))
  /\ registry_ok (fst (remove_websocket_connection "bob" 5 bus_two_connections))
  /\ registry_ok (task_bus (snd (exec (_process_events example_lib 2 bus_two_connections)
                                      [Ok tt])))
  /\ (connected (get_sync_status example_lib "bob" bus_two_connections) = true
      <-> (0 < status_connections
                 (get_sync_status example_lib "bob" bus_two_connections))%nat).
Proof.
  apply (registry_holds_no_empty_list example_lib bus_two_connections "bob" 5 2 [Ok tt]).
  unfold registry_ok. apply (bool_decide_unpack _). vm_compute. exact I.
Defined.

(** X6.  Registering a connection and removing it again restores the
    registry, provided the registry holds no empty list and the
    connection was not yet registered for that user: the user's list is
    the old one, and a user without connections has no key again. *)
Theorem add_then_remove_restores (uid : string) (ws : websocket) (b : bus) :
  registry_ok b ->
  seen_in ws (default [] (active_connections b !! uid)) = false ->
  active_connections
    (fst (remove_websocket_connection uid ws (fst (add_websocket_connection uid ws b))))
  = active_connections b.
Proof.
  intros Hb Hws. rewrite remove_connection_registry.
  unfold add_websocket_connection.
  cbn [fst active_connections add_log set_connections]. rewrite lookup_insert_eq.
  assert (Hr : forall l, seen_in ws l = false -> list_remove ws (l ++ [ws]) = Some l).
  { unfold seen_in. induction l as [|y l IH]; simpl.
    - rewrite Nat.eqb_refl. reflexivity.
    - rewrite Nat.eqb_sym. destruct (y =? ws)%nat; simpl; [discriminate|].
      intros H. rewrite (IH H). reflexivity. }
  unfold websocket in *. rewrite (Hr _ Hws).
  match goal with
  | |- context [default [] ?o] => destruct o as [conns|] eqn:E
  end; simpl.
  - specialize (Hb uid conns E). simpl in Hb.
    destruct conns as [|w conns]; [contradiction|]. simpl.
    rewrite insert_insert_eq. apply insert_id. exact E.
  - simpl. rewrite delete_insert_eq. apply delete_id. exact E.
Qed.

Lemma add_then_remove_restores_witness :
  active_connections
    (fst (remove_websocket_connection "alice" 9
            (fst (add_websocket_connection "alice" 9 bus_two_connections))))
  = active_connections bus_two_connections.
Proof.
  apply (add_then_remove_restores "alice" 9 bus_two_connections).
  - unfold registry_ok. apply (bool_decide_unpack _). vm_compute. exact I.
  - vm_compute. reflexivity.
Defined.

(** X7.  Removing a connection that is not registered for the user (an
    unknown user included) raises nothing and changes nothing but the
    log, which gets the line of a disconnect all the same. *)
Theorem remove_unregistered_only_logs (uid : string) (ws : websocket) (b : bus) :
  seen_in ws (default [] (active_connections b !! uid)) = false ->
  remove_websocket_connection uid ws b
  = (add_log INFO ("WebSocket disconnected for user " +:+ uid) b, Ok tt).
Proof.
  intros Hws. rewrite remove_connection_unfold.
  destruct (active_connections b !! uid) as [conns|]; simpl in Hws; [|reflexivity].
  rewrite (list_remove_absent ws conns Hws). reflexivity.
Qed.

Lemma remove_unregistered_only_logs_witness :
  remove_websocket_connection "bob" 3 bus_two_connections
  = (add_log INFO "WebSocket disconnected for user bob" bus_two_connections, Ok tt).
Proof.
  apply (remove_unregistered_only_logs "bob" 3 bus_two_connections).
  vm_compute. reflexivity.
Defined.

(** ** The life cycle of the service *)

Lemma start_runs (L : pylib) (fuel : nat) (s : service) :
  running (service_bus (start L fuel s)) = true.
Proof.
  unfold start. destruct (running (service_bus s)) eqn:E; [exact E|].
  destruct fuel as [|fuel]; reflexivity.
Qed.

(** X8.  [start] on a service that is running does nothing: a second
    [start] leaves the service exactly as the first one left it, with its
    one consumer task. *)
Theorem start_is_idempotent (L : pylib) (fuel fuel' : nat) (s : service) :
  start L fuel' (start L fuel s) = start L fuel s.
Proof.
  unfold start at 1. rewrite start_runs. reflexivity.
Qed.

Lemma consumer_dies_when_cancelled (L : pylib) (fuel : nat) (b : bus)
    (answers : list (outcome unit)) (b1 : bus) (rq : request)
    (k : outcome unit -> bus -> task loop_end) :
  snd (resume (start L fuel (NoTask b)) answers) = Task (Await b1 rq k) ->
  forall b', k (Raise CancelledError) b' = Return b' (Raise CancelledError).
Proof.
  intros Hs.
  assert (Hd : forall t : task loop_end,
             dies_when_cancelled t ->
             snd (resume (Task t) answers) = Task (Await b1 rq k) ->
             forall b', k (Raise CancelledError) b' = Return b' (Raise CancelledError)).
  { intros t Ht Hr. simpl in Hr.
    pose proof (dies_exec t answers Ht) as Hd.
    destruct (exec t answers) as [served t'] eqn:E. simpl in Hr, Hd.
    injection Hr as ->. simpl in Hd. apply Hd. }
  unfold start in Hs. simpl in Hs.
  destruct (running b).
  - simpl in Hs. discriminate.
  - apply (Hd _ (dies_process_events L fuel _) Hs).
Qed.


(** ** Cascades end *)

Section RaisesExceptions.
Context {A B : Type}.

Lemma raises_aret (a : A) : raises_Exceptions (aret a).
Proof. intros b b' x H. discriminate. Qed.

Lemma raises_abind (m : action A) (f : A -> action B) :
  raises_Exceptions m -> (forall a, raises_Exceptions (f a)) ->
  raises_Exceptions (abind m f).
Proof.
  intros Hm Hf b b' x. unfold abind.
  destruct (m b) as [b1 [a|e]] eqn:E.
  - apply Hf.
  - intros H. injection H as _ <-. apply (Hm b b1 e E).
Qed.
End RaisesExceptions.

Lemma raises_py_get (v : value) (k : string) : raises_Exceptions (lift_outcome (py_get v k)).
Proof. intros b b' x. destruct v; simpl; intros H; inversion H; reflexivity. Qed.

Lemma raises_py_get_default (v : value) (k : string) (dflt : value) :
  raises_Exceptions (lift_outcome (py_get_default v k dflt)).
Proof. intros b b' x. destruct v; simpl; intros H; inversion H; reflexivity. Qed.

Lemma raises_py_getitem (v : value) (k : string) :
  raises_Exceptions (lift_outcome (py_getitem v k)).
Proof.
  intros b b' x. destruct v; simpl; intros H; try (inversion H; reflexivity).
  destruct (dict_get d k); inversion H; reflexivity.
Qed.

Lemma raises_logger (l : level) (msg : string) : raises_Exceptions (logger l msg).
Proof. intros b b' x H. discriminate. Qed.

Lemma raises_emit_event (L : pylib) (et : EventType) (uid : string) (d : value)
    (related : option (list string)) :
  raises_Exceptions (emit_event L et uid d related).
Proof. intros b b' x H. discriminate. Qed.

(** The kind-specific logic raises nothing but [Exception]s: the failed
    reads of a payload. *)
Lemma logic_raises_Exceptions (L : pylib) (event : SyncEvent) :
  raises_Exceptions (_process_event_by_type L event).
Proof.
  unfold _process_event_by_type.
  destruct (event_type event); try apply raises_aret;
    unfold _handle_transaction_added, _update_budget_from_transaction,
      _update_goal_progress_from_transaction, _check_spending_anomalies, get_eq_or,
      _handle_receipt_processed, _handle_goal_progress_updated,
      _update_budget_from_goal_progress, _handle_budget_updated;
    repeat first
      [ apply raises_emit_event
      | apply raises_logger
      | apply raises_py_get
      | apply raises_py_get_default
      | apply raises_py_getitem
      | apply raises_aret
      | apply raises_abind; [|intros ?]
      | match goal with
        | |- raises_Exceptions (if ?c then _ else _) => destruct c
        end
      | (intros b b' x H; discriminate) ].
Qed.

Lemma child_weight (event c : SyncEvent) :
  child_of event c ->
  (cascade_weight (event_type c) * cascade_fanout (event_type event)
   < cascade_weight (event_type event))%nat.
Proof.
  intros (_ & _ & Hr).
  destruct (event_type event), (event_type c); simpl in Hr |- *; lia.
Qed.

Lemma children_weight (event : SyncEvent) (children : list SyncEvent) :
  Forall (child_of event) children ->
  (List.length children <= cascade_fanout (event_type event))%nat ->
  (queue_weight children < cascade_weight (event_type event))%nat.
Proof.
  intros HC Hl.
  assert (Hw : forall c, In c children ->
                 (cascade_weight (event_type c) * cascade_fanout (event_type event)
                  < cascade_weight (event_type event))%nat).
  { intros c Hc. apply child_weight. revert c Hc. apply List.Forall_forall. exact HC. }
  destruct children as [|c1 [|c2 [|c3 children]]]; unfold queue_weight; simpl in *.
  - destruct (event_type event); simpl; lia.
  - specialize (Hw c1 (or_introl eq_refl)).
    destruct (cascade_fanout (event_type event)); [lia|]. lia.
  - pose proof (Hw c1 (or_introl eq_refl)) as H1.
    pose proof (Hw c2 (or_intror (or_introl eq_refl))) as H2.
    destruct (cascade_fanout (event_type event)) as [|[|n]]; [lia|lia|]. nia.
  - destruct (event_type event); simpl in Hl; lia.
Qed.

Lemma queue_weight_app (q1 q2 : list SyncEvent) :
  queue_weight (q1 ++ q2) = (queue_weight q1 + queue_weight q2)%nat.
Proof.
  unfold queue_weight. rewrite map_app. induction (map _ q1); simpl; [reflexivity|lia].
Qed.

Lemma handle_event_keeps_running (L : pylib) (event : SyncEvent) (b : bus)
    (answers : list (outcome unit)) :
  running (task_bus (snd (exec (_handle_event L event b) answers))) = running b.
Proof.
  apply (respects_task_bus (fun b' => running b' = running b) (fun _ => True)).
  apply respects_exec.
  apply invariant_handle_event; auto.
  intros uid ws b' Hb'. destruct (remove_connection_frame uid ws b') as (_ & _ & Hr & _).
  rewrite Hr. exact Hb'.
Qed.

(** One pass of the loop on a queue that is not empty, with callbacks
    and sends that return. *)
Lemma process_one_drains (L : pylib) (b : bus) (event : SyncEvent) (rest : list SyncEvent) :
  event_queue b = event :: rest ->
  exists n served b',
    exec (process_one L b) (repeat (Ok tt) n) = (served, Return b' (Ok tt))
    /\ List.length served = n
    /\ running b' = running b
    /\ (queue_weight (event_queue b') < queue_weight (event_queue b))%nat.
Proof.
  intros Hq.
  set (b0 := set_queue rest b).
  assert (Hev : exists n served b',
             exec (_handle_event L event b0) (repeat (Ok tt) n)
             = (served, Return b' (Ok (match (snd (_process_event_by_type L event
                    (add_log INFO ("Processing event: "
                                   +:+ event_value (event_type event)) b0))) with
                                       | Ok _ => set_processed event
                                       | Raise _ => event
                                       end)))
             /\ List.length served = n).
  { destruct (_process_event_by_type L event
                (add_log INFO ("Processing event: " +:+ event_value (event_type event)) b0))
      as [b1 [[]|x]] eqn:E.
    - set (n := (List.length (default [] (subscribers b1 !! event_value (event_type event)))
                 + List.length (default [] (active_connections b1 !! user_id event)))%nat).
      destruct (handle_event_all_stages L event b0 b1 (repeat (Ok tt) n) E) as [b' He].
      { apply List.Forall_forall. intros a Ha. apply repeat_spec in Ha. subst a. exact I. }
      { apply repeat_length. }
      eexists n, _, b'. split; [exact He|].
      rewrite length_app, !length_map. reflexivity.
    - eexists 0, [], _. split; [|reflexivity].
      apply (handle_event_logic_raised L event b0 b1 x [] E).
      apply (logic_raises_Exceptions L event _ _ _ E). }
  destruct Hev as (n & served & b' & He & Hl).
  exists (S n), (QueueGet :: served), b'.
  assert (Hb' : b' = task_bus (snd (exec (_handle_event L event b0) (repeat (Ok tt) n)))).
  { rewrite He. reflexivity. }
  split; [|split; [simpl; lia|split]].
  - unfold process_one, try_except, cbind, wait_for_queue_get.
    cbn [tbind ttry exec repeat]. rewrite Hq. cbn [tbind]. fold b0.
    rewrite <- (app_nil_r (repeat (Ok tt) n)).
    erewrite exec_ttry_ok; [reflexivity|].
    rewrite (exec_tbind _ _ (repeat (Ok tt) n) [] served b' _ He)
      by (rewrite repeat_length; exact Hl).
    simpl. rewrite !app_nil_r. reflexivity.
  - rewrite Hb', handle_event_keeps_running. reflexivity.
  - rewrite Hb'.
    destruct (processing_children L event b0 (repeat (Ok tt) n))
      as (children & Hc & HC & Hn).
    rewrite Hc, Hq. subst b0. cbn [event_queue set_queue].
    rewrite queue_weight_app.
    pose proof (children_weight event children HC Hn).
    unfold queue_weight in *. simpl. lia.
Qed.

(** X10.  Cascades end, and the consumer drains the queue.  Give every
    event a weight by its kind: 6 for receipt_processed, 5 for
    transaction_added, 2 for goal_progress_updated, 1 for any other.
    When the service is running and every callback and send returns, the
    loop needs no more passes than the weight of the queue to reach an
    empty queue, the events emitted on the way included. *)
Theorem consumer_drains_the_queue (L : pylib) (b : bus) :
  running b = true ->
  exists fuel n served b',
    exec (_process_events L fuel b) (repeat (Ok tt) n)
    = (served, Return b' (Ok OutOfFuel))
    /\ event_queue b' = []
    /\ (fuel <= queue_weight (event_queue b))%nat.
Proof.
  assert (H : forall w b,
             (queue_weight (event_queue b) <= w)%nat -> running b = true ->
             exists fuel n served b',
               exec (_process_events L fuel b) (repeat (Ok tt) n)
               = (served, Return b' (Ok OutOfFuel))
               /\ List.length served = n
               /\ event_queue b' = []
               /\ (fuel <= queue_weight (event_queue b))%nat).
  { induction w as [|w IH]; intros b0 Hw Hr.
    - exists 0, 0, [], b0. repeat split; [|lia].
      destruct (event_queue b0) as [|e q]; [reflexivity|].
      unfold queue_weight in Hw. simpl in Hw. destruct (event_type e); simpl in Hw; lia.
    - destruct (event_queue b0) as [|e q] eqn:Hq.
      + exists 0, 0, [], b0. repeat split; [exact Hq|lia].
      + destruct (process_one_drains L b0 e q Hq) as (n1 & s1 & b1 & He1 & Hl1 & Hr1 & Hw1).
        rewrite Hq in Hw1.
        destruct (IH b1) as (fuel & n2 & s2 & b2 & He2 & Hl2 & Hq2 & Hf);
          [lia|congruence|].
        exists (S fuel), (n1 + n2)%nat, (s1 ++ s2), b2.
        split; [|split; [rewrite length_app; lia|split; [exact Hq2|lia]]].
        cbn [_process_events]. rewrite Hr. unfold cbind.
        rewrite repeat_app.
        rewrite (exec_tbind _ _ (repeat (Ok tt) n1) (repeat (Ok tt) n2) s1 b1 tt He1)
          by (rewrite repeat_length; exact Hl1).
        rewrite He2. reflexivity. }
  intros Hr.
  destruct (H (queue_weight (event_queue b)) b (le_n _) Hr)
    as (fuel & n & served & b' & He & _ & Hq & Hf).
  exists fuel, n, served, b'. repeat split; assumption.
Qed.

Lemma consumer_drains_the_queue_witness :
  exists fuel n served b',
    exec (_process_events example_lib fuel
            (set_running true (bus_with_receipt receipt_payload)))
         (repeat (Ok tt) n)
    = (served, Return b' (Ok OutOfFuel))
    /\ event_queue b' = []
    /\ (fuel <= queue_weight
                  (event_queue (set_running true (bus_with_receipt receipt_payload))))%nat.
Proof.
  apply (consumer_drains_the_queue example_lib
           (set_running true (bus_with_receipt receipt_payload))).
  reflexivity.
Defined.

(** ** Subscriptions *)

Lemma event_value_injective (a c : EventType) :
  event_value a = event_value c -> a = c.
Proof. destruct a, c; simpl; intros H; try reflexivity; discriminate. Qed.

Lemma EventType_eqb_eq (a c : EventType) : EventType_eqb a c = true <-> a = c.
Proof.
  unfold EventType_eqb. rewrite String.eqb_eq. split.
  - apply event_value_injective.
  - intros ->. reflexivity.
Qed.

(** X11.  Subscriptions accumulate per kind, in the order of the calls:
    after any sequence of [subscribe] calls the callbacks of a kind are
    those it had before, followed by the callbacks subscribed to that
    kind, in call order and as often as they were subscribed; calls for
    other kinds do not touch them (the names of the ten kinds are
    distinct). *)
Theorem subscriptions_accumulate_in_order (subs : list (EventType * callback))
    (b : bus) (et : EventType) :
  default [] (subscribers (subscribe_all subs b) !! event_value et)
  = default [] (subscribers b !! event_value et)
    ++ map snd (List.filter (fun s => EventType_eqb (fst s) et) subs).
Proof.
  revert b. induction subs as [|[et' cb] subs IH]; intros b.
  - simpl. rewrite app_nil_r. reflexivity.
  - unfold subscribe_all in *. cbn [fold_left]. rewrite IH.
    unfold subscribe. cbn [fst snd subscribers add_log set_subscribers List.filter].
    destruct (EventType_eqb et' et) eqn:E.
    + apply EventType_eqb_eq in E. subst et'.
      rewrite lookup_insert_eq. simpl. rewrite <- app_assoc. reflexivity.
    + rewrite lookup_insert_ne; [reflexivity|].
      intros H. apply event_value_injective in H. subst et'.
      assert (Ht : EventType_eqb et et = true) by (apply EventType_eqb_eq; reflexivity).
      congruence.
Qed.

(** ** Entry points *)

Lemma dict_get_absent (d : dict) (k : string) :
  ~ In k (map fst d) -> dict_get d k = None.
Proof.
  induction d as [|[k' v] d IH]; simpl; intros H; [reflexivity|].
  destruct (String.eqb k' k) eqn:E.
  - apply String.eqb_eq in E. subst. exfalso. apply H. left. reflexivity.
  - apply IH. intros Hin. apply H. right. exact Hin.
Qed.

(** Reading a dict display: an entry of the unpacked dict wins over a
    written one. *)
Lemma dict_get_display (written d : dict) (k : string) :
  List.NoDup (map fst d) ->
  dict_get (dict_display written d) k
  = match dict_get d k with
    | Some v => Some v
    | None => dict_get written k
    end.
Proof.
  revert written. induction d as [|[k' v] d IH]; intros written Hnd.
  - reflexivity.
  - simpl in Hnd. inversion Hnd as [|? ? Hk Hd]; subst.
    unfold dict_display in *. cbn [fold_left fst snd]. rewrite (IH _ Hd).
    cbn [dict_get]. destruct (String.eqb k' k) eqn:E.
    + apply String.eqb_eq in E. subst k'.
      rewrite (dict_get_absent d k Hk). apply dict_get_set_same.
    + destruct (dict_get d k); [reflexivity|]. apply dict_get_set_other. exact E.
Qed.

(** X12.  [sync_goal_progress] queues one goal_progress_updated event
    for the user whose payload is the progress data with the goal id
    added: every key of the progress data reads as it was given, and the
    goal id of the payload is the one inside the progress data when it
    has such a key, the argument of the call only otherwise.  Progress
    data that is no dict raises a TypeError and queues nothing. *)
Theorem goal_progress_payload (L : pylib) (uid : string) (goal_id : value) (d : dict)
    (b : bus) :
  List.NoDup (map fst d) ->
  exists payload,
    queued (fst (sync_goal_progress L uid goal_id (VDict d) b))
    = queued b ++ [(GOAL_PROGRESS_UPDATED, uid, VDict payload)]
    /\ snd (sync_goal_progress L uid goal_id (VDict d) b) = Ok tt
    /\ dict_get payload "goal_id" = Some (default goal_id (dict_get d "goal_id"))
    /\ (forall k v, dict_get d k = Some v -> dict_get payload k = Some v)
    /\ (forall k, k <> "goal_id"%string -> dict_get payload k = dict_get d k)
    /\ forall v, match v with VDict _ => False | _ => True end ->
         sync_goal_progress L uid goal_id v b
         = (b, Raise (TypeError "object is not a mapping")).
Proof.
  intros Hnd. exists (dict_display [("goal_id", goal_id)] d).
  split; [|split; [reflexivity|split; [|split; [|split]]]].
  - unfold queued. simpl. rewrite map_app. reflexivity.
  - rewrite dict_get_display by exact Hnd. destruct (dict_get d "goal_id"); reflexivity.
  - intros k v Hk. rewrite dict_get_display by exact Hnd. rewrite Hk. reflexivity.
  - intros k Hk. rewrite dict_get_display by exact Hnd.
    destruct (dict_get d k); [reflexivity|]. cbn [dict_get].
    destruct (String.eqb "goal_id" k) eqn:E; [|reflexivity].
    apply String.eqb_eq in E. congruence.
  - intros v Hv. destruct v; try reflexivity. destruct Hv.
Qed.

Lemma goal_progress_payload_witness :
  exists payload,
    queued (fst (sync_goal_progress example_lib "alice" (VStr "g1")
                   (VDict progress_with_milestone) (new_bus 1000)))
    = queued (new_bus 1000) ++ [(GOAL_PROGRESS_UPDATED, "alice"%string, VDict payload)]
    /\ snd (sync_goal_progress example_lib "alice" (VStr "g1")
              (VDict progress_with_milestone) (new_bus 1000)) = Ok tt
    /\ dict_get payload "goal_id"
       = Some (default (VStr "g1") (dict_get progress_with_milestone "goal_id"))
    /\ (forall k v, dict_get progress_with_milestone k = Some v ->
                    dict_get payload k = Some v)
    /\ (forall k, k <> "goal_id"%string ->
                  dict_get payload k = dict_get progress_with_milestone k)
    /\ forall v, match v with VDict _ => False | _ => True end ->
         sync_goal_progress example_lib "alice" (VStr "g1") v (new_bus 1000)
         = (new_bus 1000, Raise (TypeError "object is not a mapping")).
Proof.
  apply (goal_progress_payload example_lib "alice" (VStr "g1") progress_with_milestone
           (new_bus 1000)).
  repeat constructor; simpl; intuition discriminate.
Defined.

(** What [_handle_goal_progress_updated] does with a payload that is a
    dict. *)
Lemma handle_goal_progress_dict (L : pylib) (event : SyncEvent) (b : bus) (d : dict) :
  data event = VDict d ->
  exists b',
    _handle_goal_progress_updated L event b = (b', Ok tt)
    /\ event_queue b'
       = event_queue b
         ++ (if truthy (default VNone (dict_get d "milestone_achieved"))
             then [milestone_event L (user_id event) d (uuid_count b) (clock b)]
             else []).
Proof.
  intros Hd.
  unfold _handle_goal_progress_updated, _update_budget_from_goal_progress, milestone_event.
  rewrite Hd. unfold abind, lift_outcome, py_get, aret, logger.
  destruct (truthy (default VNone (dict_get d "milestone_achieved")));
    cbn [emit_event fst snd];
    eexists; (split; [reflexivity|]); cbn [event_queue add_log set_uuid_count set_queue];
    rewrite ?app_nil_r; reflexivity.
Qed.

(** X13.  A goal_progress_updated event whose payload is a dict:
    processing it emits one milestone_achieved event, with the goal id,
    the milestone and the celebration message of the payload, exactly
    when the payload has a truthy milestone_achieved entry; otherwise
    nothing is queued, whatever the later stages do. *)
Theorem goal_progress_cascade (L : pylib) (event : SyncEvent) (b : bus) (d : dict)
    (answers : list (outcome unit)) :
  event_type event = GOAL_PROGRESS_UPDATED ->
  data event = VDict d ->
  event_queue (task_bus (snd (exec (_handle_event L event b) answers)))
  = event_queue b
    ++ (if truthy (default VNone (dict_get d "milestone_achieved"))
        then [milestone_event L (user_id event) d (uuid_count b) (clock b)]
        else []).
Proof.
  intros Et Hd. rewrite handle_event_queue.
  unfold _process_event_by_type. rewrite Et.
  destruct (handle_goal_progress_dict L event
              (add_log INFO ("Processing event: " +:+ event_value GOAL_PROGRESS_UPDATED) b)
              d Hd) as (b' & Hrun & Hq).
  rewrite Hrun. exact Hq.
Qed.

Lemma goal_progress_cascade_witness :
  event_queue (fst (sync_goal_progress example_lib "alice" (VStr "g1")
                      (VDict progress_with_milestone) (new_bus 1000)))
  = [progress_event]
  /\ event_queue (task_bus (snd (exec (_handle_event example_lib progress_event
                                         (new_bus 1000)) [])))
     = [mkEvent "uuid-0" MILESTONE_ACHIEVED "alice"
          (VDict [("goal_id", VStr "g2"); ("milestone", VStr "50%");
                  ("celebration_message", VNone)])
          1000 false []].
Proof.
  split; [reflexivity|].
  apply (goal_progress_cascade example_lib progress_event (new_bus 1000)
           (dict_display [("goal_id", VStr "g1")] progress_with_milestone) []);
    reflexivity.
Defined.

(** X14.  From a receipt to the budget.  Let a receipt_processed event
    with a successful parse be processed on an empty queue, and then the
    transaction_added event it leaves there.  Afterwards the queue holds
    a budget_updated event for the user of the receipt with the category
    and the total of the receipt (defaults 'Unknown' and 0) and no
    transaction id, followed by a goal_progress_updated event exactly
    when the category is 'Savings': a receipt is always booked as an
    expense.  This holds whatever the callbacks and sends of both events
    do. *)
Theorem receipt_reaches_the_budget (L : pylib) (event : SyncEvent) (b : bus)
    (receipt parsed : dict) (success : value) (answers1 answers2 : list (outcome unit)) :
  event_type event = RECEIPT_PROCESSED ->
  data event = VDict receipt ->
  dict_get receipt "success" = Some success ->
  truthy success = true ->
  dict_get receipt "parsed_data" = Some (VDict parsed) ->
  parsed <> [] ->
  event_queue b = [] ->
  exists transaction,
    event_queue (task_bus (snd (exec (_handle_event L event b) answers1)))
    = [transaction]
    /\ event_type transaction = TRANSACTION_ADDED
    /\ queued (task_bus
                 (snd (exec (_handle_event L transaction
                               (set_queue []
                                  (task_bus (snd (exec (_handle_event L event b)
                                                       answers1)))))
                            answers2)))
       = (BUDGET_UPDATED, user_id event,
          VDict [("category", default (VStr "Unknown") (dict_get parsed "category"));
                 ("amount_spent", default (VNum 0) (dict_get parsed "total"));
                 ("transaction_id", VNone)])
         :: (if value_eq_str (default (VStr "Unknown") (dict_get parsed "category"))
                             "Savings"
             then [(GOAL_PROGRESS_UPDATED, user_id event,
                    VDict [("amount_added", default (VNum 0) (dict_get parsed "total"));
                           ("transaction_id", VNone);
                           ("source", VStr "transaction")])]
             else []).
Proof.
  intros Et Hd Hs Ht Hp Hne Hq.
  rewrite handle_event_queue. unfold _process_event_by_type at 1. rewrite Et.
  rewrite (handle_receipt_processed_emits L event _ receipt parsed success Hd Hs Ht Hp Hne).
  cbn [emit_event fst event_queue add_log set_uuid_count set_queue]. rewrite Hq.
  eexists. split; [reflexivity|]. split; [reflexivity|].
  unfold queued. rewrite handle_event_queue.
  unfold _process_event_by_type. cbn [event_type].
  match goal with
  | |- context [_handle_transaction_added L ?e ?b0] =>
      destruct (handle_transaction_added_dict L e b0 _ eq_refl) as (b' & Hrun & Hq')
  end.
  rewrite Hrun. cbn [fst]. rewrite Hq'.
  cbn [event_queue add_log set_queue app user_id].
  unfold is_expense, is_saving, budget_event, goal_event.
  cbn [dict_get String.eqb Ascii.eqb Bool.eqb default from_option id value_eq_str orb].
  destruct (value_eq_str (from_option id (VStr "Unknown") (dict_get parsed "category"))
                         "Savings");
    reflexivity.
Qed.

Lemma receipt_reaches_the_budget_witness :
  exists transaction,
    event_queue (task_bus (snd (exec (_handle_event example_lib
                                        (receipt_event receipt_payload)
                                        bus_after_receipt) [])))
    = [transaction]
    /\ event_type transaction = TRANSACTION_ADDED
    /\ queued (task_bus
                 (snd (exec (_handle_event example_lib transaction
                               (set_queue []
                                  (task_bus (snd (exec (_handle_event example_lib
                                                          (receipt_event receipt_payload)
                                                          bus_after_receipt) [])))))
                            [])))
       = [(BUDGET_UPDATED, "alice"%string,
           VDict [("category", VStr "Groceries"); ("amount_spent", VNum (85 # 2));
                  ("transaction_id", VNone)])].
Proof.
  apply (receipt_reaches_the_budget example_lib (receipt_event receipt_payload)
           bus_after_receipt
           [("success", VBool true);
            ("parsed_data",
             VDict [("total", VNum (85 # 2)); ("category", VStr "Groceries");
                    ("vendor", VStr "Acme"); ("date", VStr "2024-01-05")])]
           [("total", VNum (85 # 2)); ("category", VStr "Groceries");
            ("vendor", VStr "Acme"); ("date", VStr "2024-01-05")]
           (VBool true) [] []);
    try reflexivity.
  discriminate.
Defined.

(** X15.  [_get_entity_type_from_event] looks for the words
    'transaction', 'receipt', 'goal' and 'budget' in the name of the
    kind, in this order; the related-entity stage then logs one update
    line per entity related to the word found, for the user of the
    event.  The names milestone_achieved and auto_save_triggered hold
    none of the words: for these kinds nothing is updated. *)
Theorem entity_type_by_name (event : SyncEvent) (b : bus) :
  _get_entity_type_from_event (event_type event)
  = entity_type_of_name (event_value (event_type event))
  /\ map snd (log (fst (_update_related_entities event b)))
     = map snd (log b)
       ++ map (fun related => "Updating " +:+ related +:+ " for user " +:+ user_id event)
              (default [] (assoc_get entity_relationships
                             (entity_type_of_name (event_value (event_type event)))))
  /\ (event_type event = MILESTONE_ACHIEVED \/ event_type event = AUTO_SAVE_TRIGGERED <->
      entity_type_of_name (event_value (event_type event)) = "unknown"%string).
Proof.
  unfold _update_related_entities.
  destruct (event_type event); (split; [reflexivity|]); split;
    try (cbn [fst fold_left _get_entity_type_from_event entity_relationships assoc_get
              String.eqb Ascii.eqb Bool.eqb log add_log];
         simpl; rewrite ?map_app, <- ?app_assoc, ?app_nil_r; reflexivity);
    (vm_compute; intuition discriminate).
Qed.

(** X16.  An automatic saving goes nowhere.  [trigger_auto_save] queues
    one auto_save_triggered event for the user, naming transaction and
    goal as related entities; when that event is processed, whatever its
    payload, nothing is put on the queue and no related entity is
    updated: the kind has no handler, and its name holds none of the
    words the related-entity stage looks for. *)
Theorem auto_save_goes_nowhere (L : pylib) (uid : string) (goal_id : value) (d : dict)
    (b b' : bus) (answers : list (outcome unit)) :
  exists event,
    trigger_auto_save L uid goal_id (VDict d) b
    = (add_log INFO ("Event emitted: auto_save_triggered for user " +:+ uid)
         (set_uuid_count (S (uuid_count b)) (set_queue (event_queue b ++ [event]) b)),
       Ok tt)
    /\ event_type event = AUTO_SAVE_TRIGGERED
    /\ user_id event = uid
    /\ related_entities event = ["transaction"; "goal"]%string
    /\ event_queue (task_bus (snd (exec (_handle_event L event b') answers)))
       = event_queue b'
    /\ _update_related_entities event b' = (b', Ok tt).
Proof.
  eexists. split; [reflexivity|]. repeat split.
  rewrite handle_event_queue. reflexivity.
Qed.

(** ** Consolidation: scores, severity and bounds *)

Lemma max_severity_snoc (fs : list flag) (a : flag) :
  max_severity (fs ++ [a]) = severity_max (max_severity fs) a.
Proof. unfold max_severity. rewrite fold_left_app. reflexivity. Qed.

Lemma summarised_update (pre : list flag) (acc : list (nat * group)) (a : flag) :
  List.NoDup (map fst acc) ->
  (forall idx g, In (idx, g) acc ->
     g_transaction_index g = idx
     /\ (idx <> f_index a -> flags_on idx pre <> [])
     /\ g_scores g = map f_score (flags_on idx pre)
     /\ g_reasons g = map (fun f => default ""%string (f_reason f)) (flags_on idx pre)
     /\ g_max_severity g = max_severity (flags_on idx pre)) ->
  summarised (pre ++ [a])
    (by_index_update acc (f_index a)
       (fun g =>
          mkGroup (g_transaction_index g) (g_transaction_data g)
            (g_detection_methods g ++ [f_method a])
            (g_scores g ++ [f_score a])
            (g_reasons g ++ [default ""%string (f_reason a)])
            (if (severity_order (g_max_severity g) <? severity_order (f_severity a))%nat
             then f_severity a else g_max_severity g))).
Proof.
  intros Hnd Hs idx g Hin. rewrite flags_on_snoc.
  destruct (by_index_update_In _ _ _ _ _ Hnd Hin) as [[Hne H]|[-> [g0 [H0 ->]]]].
  - destruct (Hs idx g H) as (Hi & Hf & Hsc & Hr & Hm).
    assert (E : (f_index a =? idx)%nat = false) by (apply Nat.eqb_neq; congruence).
    rewrite E, app_nil_r. repeat split; auto.
  - destruct (Hs _ g0 H0) as (Hi & _ & Hsc & Hr & Hm).
    rewrite Nat.eqb_refl. cbn [g_transaction_index g_scores g_reasons g_max_severity].
    rewrite !map_app, max_severity_snoc, Hsc, Hr, Hm. simpl.
    repeat split; auto.
    intros H. apply app_eq_nil in H. destruct H as [_ H]. discriminate.
Qed.

Lemma summarised_step (df : DataFrame) (pre : list flag) (acc : list (nat * group))
    (a : flag) :
  collected df pre acc -> summarised pre acc ->
  summarised (pre ++ [a]) (collect_flag df acc a).
Proof.
  intros [Hnd [Hm Hseen]] Hs.
  unfold collect_flag.
  pose proof (by_index_get_seen acc (f_index a)) as Hget.
  destruct (by_index_get acc (f_index a)) as [g0|] eqn:E.
  - rewrite E. apply summarised_update; [exact Hnd|].
    intros idx g Hin. destruct (Hs idx g Hin) as (Hi & Hf & Hsc & Hr & Hmx).
    repeat split; auto.
  - destruct (f_index a <? df_len df)%nat eqn:Hlt.
    + apply Nat.ltb_lt in Hlt.
      destruct (iloc_to_dict_lt df _ Hlt) as [t Ht]. rewrite Ht.
      assert (Hfresh : ~ In (f_index a) (map fst acc)).
      { intros H. apply seen_in_In in H. congruence. }
      assert (Hnone : flags_on (f_index a) pre = []).
      { unfold flags_on. destruct (List.filter _ pre) as [|f fs] eqn:Ef; [reflexivity|].
        assert (Hin : In f (List.filter (fun f => (f_index f =? f_index a)%nat) pre))
          by (rewrite Ef; left; reflexivity).
        apply filter_In in Hin. destruct Hin as [Hin Heq].
        apply Nat.eqb_eq in Heq.
        specialize (Hseen f Hin). rewrite Heq in Hseen.
        rewrite (Hseen Hlt) in Hget. discriminate. }
      set (acc' := acc ++ [(f_index a, mkGroup (f_index a) t [] [] [] Low)]).
      assert (Hget' : exists g, by_index_get acc' (f_index a) = Some g).
      { pose proof (by_index_get_seen acc' (f_index a)) as H.
        destruct (by_index_get acc' (f_index a)); [eauto|].
        assert (H' : seen_in (f_index a) (map fst acc') = true).
        { apply seen_in_In. unfold acc'. rewrite map_app. apply in_or_app.
          right. left. reflexivity. }
        congruence. }
      destruct Hget' as [g Hg]. rewrite Hg.
      apply summarised_update.
      * unfold acc'. rewrite map_app. simpl.
        apply List.NoDup_app; [exact Hnd|constructor; [intros []|constructor]|].
        intros x Hx [<-|[]]. exact (Hfresh Hx).
      * intros idx g' Hin. unfold acc' in Hin. apply in_app_or in Hin.
        destruct Hin as [Hin|[Hin|[]]].
        -- destruct (Hs idx g' Hin) as (Hi & Hf & Hsc & Hr & Hmx). repeat split; auto.
        -- injection Hin as <- <-. simpl. rewrite Hnone.
           repeat split; auto.
    + rewrite E. intros idx g Hin. rewrite flags_on_snoc.
      assert (Ei : (f_index a =? idx)%nat = false).
      { apply Nat.eqb_neq. intros Heq.
        assert (H : seen_in (f_index a) (map fst acc) = true).
        { apply seen_in_In. apply in_map_iff. exists (idx, g). auto. }
        congruence. }
      rewrite Ei, app_nil_r. apply Hs, Hin.
Qed.

Lemma summarised_fold (df : DataFrame) (flags pre : list flag) (acc : list (nat * group)) :
  collected df pre acc -> summarised pre acc ->
  summarised (pre ++ flags) (fold_left (collect_flag df) flags acc).
Proof.
  revert pre acc. induction flags as [|a flags IH]; intros pre acc Hc Hs; simpl.
  - rewrite app_nil_r. exact Hs.
  - replace (pre ++ a :: flags) with ((pre ++ [a]) ++ flags)
      by (rewrite <- app_assoc; reflexivity).
    apply IH; [apply collected_step, Hc|apply summarised_step; assumption].
Qed.

Lemma max_severity_bounds (fs : list flag) :
  (forall f, In f fs ->
     (severity_order (f_severity f) <= severity_order (max_severity fs))%nat)
  /\ (fs <> [] -> exists f, In f fs /\ f_severity f = max_severity fs).
Proof.
  induction fs as [|a fs IH] using rev_ind.
  - split; [intros f []|congruence].
  - destruct IH as [Hle Hex]. rewrite max_severity_snoc. unfold severity_max. split.
    + intros f Hf. apply in_app_or in Hf.
      destruct (severity_order (max_severity fs) <? severity_order (f_severity a))%nat
        eqn:E.
      * apply Nat.ltb_lt in E. destruct Hf as [Hf|[<-|[]]]; [|lia].
        specialize (Hle f Hf). lia.
      * apply Nat.ltb_ge in E. destruct Hf as [Hf|[<-|[]]]; [apply Hle, Hf|exact E].
    + intros _.
      destruct (severity_order (max_severity fs) <? severity_order (f_severity a))%nat
        eqn:E.
      * exists a. split; [apply in_or_app; right; left; reflexivity|reflexivity].
      * destruct fs as [|f0 fs'].
        -- exists a. split; [left; reflexivity|]. apply Nat.ltb_ge in E.
           unfold max_severity in *. simpl in *. destruct (f_severity a); simpl in E;
             try lia; reflexivity.
        -- destruct Hex as (f & Hf & Heq); [discriminate|].
           exists f. split; [apply in_or_app; left; exact Hf|exact Heq].
Qed.

(** X17.  Every consolidated anomaly sums up the raw flags on its index,
    of which there is at least one: its composite score is the mean of
    their scores, its severity is the highest of their severities (no
    flag is more severe, and one is as severe), its method count is
    their number, and its index lies inside the frame it was read
    from. *)
Theorem consolidated_summarises_its_flags (anomaly_results : list (string * list flag))
    (current_df : DataFrame) (a : anomaly) :
  In a (_consolidate_anomalies anomaly_results current_df) ->
  let fs := flags_on (transaction_index a) (flat_map snd anomaly_results) in
  fs <> []
  /\ composite_score a = mean (map f_score fs)
  /\ method_count a = List.length fs
  /\ (forall f, In f fs ->
        (severity_order (f_severity f) <= severity_order (a_severity a))%nat)
  /\ (exists f, In f fs /\ f_severity f = a_severity a)
  /\ (transaction_index a < df_len current_df)%nat.
Proof.
  intros Ha fs.
  pose proof (confidence_is_flag_ratio anomaly_results current_df a Ha) as [Hdm _].
  destruct (consolidated_index_and_data anomaly_results current_df) as [_ Hdata].
  specialize (Hdata a Ha).
  unfold _consolidate_anomalies in Ha.
  apply (Permutation_in a (Permutation_sym (sort_reverse_perm composite_score _))) in Ha.
  unfold consolidated_unsorted in Ha. apply in_map_iff in Ha.
  destruct Ha as [[idx g] [<- Hkv]]. simpl in *.
  rewrite collect_by_index_flat in Hkv.
  assert (Hc : collected current_df [] []).
  { split; [constructor|]. split; [intros ? ? []|intros ? []]. }
  assert (Hs : summarised ([] ++ flat_map snd anomaly_results)
                 (fold_left (collect_flag current_df) (flat_map snd anomaly_results) [])).
  { apply (summarised_fold current_df); [exact Hc|]. intros ? ? []. }
  destruct (Hs idx g Hkv) as (Hi & Hne & Hsc & Hr & Hmx). simpl in Hne, Hsc, Hr, Hmx.
  subst fs. split; [exact Hne|]. split; [|split; [|split; [|split]]].
  - unfold consolidate_group. simpl. rewrite Hsc.
    destruct (flags_on idx (flat_map snd anomaly_results)) as [|f0 fs0]; [congruence|].
    reflexivity.
  - rewrite Hdm. apply length_map.
  - rewrite Hmx. apply max_severity_bounds.
  - rewrite Hmx. apply max_severity_bounds. exact Hne.
  - unfold iloc_to_dict, df_len in *.
    destruct (nth_error (rows current_df) idx) eqn:E; [|discriminate].
    apply nth_error_Some. congruence.
Qed.

Lemma consolidated_summarises_its_flags_witness :
  let fs := flags_on (transaction_index early_anomaly) (flat_map snd early_results) in
  fs <> []
  /\ composite_score early_anomaly = mean (map f_score fs)
  /\ method_count early_anomaly = List.length fs
  /\ (forall f, In f fs ->
        (severity_order (f_severity f) <= severity_order (a_severity early_anomaly))%nat)
  /\ (exists f, In f fs /\ f_severity f = a_severity early_anomaly)
  /\ (transaction_index early_anomaly < df_len early_frame)%nat.
Proof.
  apply (consolidated_summarises_its_flags early_results early_frame early_anomaly).
  vm_compute. left. reflexivity.
Defined.

Lemma first_occurrences_In (seen l : list nat) (i : nat) :
  In i (first_occurrences seen l) -> In i l.
Proof.
  revert seen. induction l as [|j l IH]; intros seen; simpl; [auto|].
  destruct (seen_in j seen).
  - intros H. right. apply (IH seen), H.
  - intros [H|H]; [left; exact H|right; apply (IH (j :: seen)), H].
Qed.

Lemma first_encountered_lt (anomaly_results : list (string * list flag))
    (current_df : DataFrame) (i : nat) :
  In i (first_encountered anomaly_results current_df) -> (i < df_len current_df)%nat.
Proof.
  unfold first_encountered. intros H. apply first_occurrences_In in H.
  apply List.filter_In in H. destruct H as [_ H]. apply Nat.ltb_lt. exact H.
Qed.

(** Consolidation returns at most one anomaly per row of the frame. *)
Lemma consolidated_count (anomaly_results : list (string * list flag))
    (current_df : DataFrame) :
  (List.length (_consolidate_anomalies anomaly_results current_df) <= df_len current_df)%nat.
Proof.
  unfold _consolidate_anomalies.
  rewrite <- (Permutation_length (sort_reverse_perm composite_score _)).
  rewrite <- (length_map transaction_index), consolidated_unsorted_indices.
  assert (H : (List.length (first_encountered anomaly_results current_df)
               <= List.length (seq 0 (df_len current_df)))%nat).
  { apply List.NoDup_incl_length; [apply first_occurrences_NoDup|].
    intros i Hi. apply in_seq. apply first_encountered_lt in Hi. lia. }
  rewrite List.length_seq in H. exact H.
Qed.

Lemma enumerate_length {X : Type} (start : nat) (l : list X) :
  List.length (enumerate start l) = List.length l.
Proof.
  revert start. induction l as [|x l IH]; intros start; simpl; [reflexivity|].
  rewrite IH. reflexivity.
Qed.

Lemma pd_DataFrame_len (records : list dict) :
  df_len (pd_DataFrame records) = List.length records.
Proof. unfold df_len, pd_DataFrame. simpl. rewrite enumerate_length, length_map. reflexivity. Qed.

Lemma assign_len (df : DataFrame) (c : string) (f : dict -> value) :
  df_len (assign df c f) = df_len df.
Proof. unfold df_len, assign. simpl. apply length_map. Qed.

(** The batch keeps its rows through feature engineering. *)
Lemma engineered_batch_len (L : pylib) (current_df historical_df : DataFrame) :
  df_len (snd (_engineer_features L current_df historical_df)) = df_len current_df.
Proof.
  unfold _engineer_features. cbn [snd].
  destruct (df_empty historical_df); [|reflexivity].
  rewrite !assign_len.
  repeat match goal with
         | |- context [if ?c then _ else _] => destruct c
         end; rewrite ?assign_len; reflexivity.
Qed.

Lemma run_multiple_names (L : pylib) (features_df historical_df : DataFrame)
    (anomaly_results : list (string * list flag)) :
  _run_multiple_detection_methods L features_df historical_df = Ok anomaly_results ->
  map fst anomaly_results = detector_names.
Proof.
  unfold _run_multiple_detection_methods.
  destruct (isolation_forest_returns L features_df) as [f1 ->].
  destruct (statistical_returns L features_df) as [f2 ->].
  destruct (zscore_returns L features_df) as [f3 ->]. simpl.
  destruct (_business_rule_detection L features_df historical_df); simpl; [|discriminate].
  intros H. injection H as <-. reflexivity.
Qed.

(** X18.  A result of [detect_anomalies] that reports anomalies is for
    the user asked about and names the four detectors; its count is the
    length of its list; the list holds at most one anomaly per
    transaction of the batch, with pairwise different indices that are
    positions of the batch, and is in descending order of composite
    score. *)
Theorem detected_result_is_bounded (L : pylib) (transactions historical_data : list dict)
    (user uid : string) (n : nat) (anomalies : list anomaly) (methods : list string) :
  detect_anomalies L transactions historical_data user
  = Ok (Detected uid n anomalies methods) ->
  uid = user
  /\ methods = detector_names
  /\ n = List.length anomalies
  /\ (n <= List.length transactions)%nat
  /\ List.NoDup (map transaction_index anomalies)
  /\ Forall (fun a => (transaction_index a < List.length transactions)%nat) anomalies
  /\ StronglySorted (fun a c => (composite_score c <= composite_score a)%Q) anomalies.
Proof.
  unfold detect_anomalies.
  destruct (df_empty (pd_DataFrame transactions)); [discriminate|].
  pose proof (engineered_batch_len L (pd_DataFrame transactions)
                (pd_DataFrame historical_data)) as Hlen.
  destruct (_engineer_features L (pd_DataFrame transactions)
              (pd_DataFrame historical_data)) as [features_df current_df].
  cbn [snd] in Hlen. rewrite pd_DataFrame_len in Hlen.
  destruct (_run_multiple_detection_methods L features_df
              (pd_DataFrame historical_data)) as [results|e] eqn:E; simpl.
  - destruct (_generate_insights _); simpl;
      [|destruct (is_Exception _); discriminate].
    intros H. injection H as <- <- <- <-.
    split; [reflexivity|]. split; [apply (run_multiple_names _ _ _ _ E)|].
    split; [reflexivity|]. rewrite <- Hlen.
    split; [apply consolidated_count|]. split; [|split].
    + unfold _consolidate_anomalies.
      apply (Permutation_NoDup
               (Permutation_map transaction_index (sort_reverse_perm composite_score _))).
      apply consolidated_index_and_data.
    + apply List.Forall_forall. intros x Hx.
      destruct (consolidated_index_and_data results current_df) as [_ Hdata].
      specialize (Hdata x Hx). unfold iloc_to_dict, df_len in *.
      destruct (nth_error (rows current_df) (transaction_index x)) eqn:En; [|discriminate].
      apply nth_error_Some. congruence.
    + apply sort_reverse_sorted.
  - destruct (is_Exception e); discriminate.
Qed.

Lemma detected_result_is_bounded_witness :
  let anomalies := anomalies_of (detect_anomalies example_lib two_early_payments [] "u1") in
  "u1"%string = "u1"%string
  /\ detector_names = detector_names
  /\ 2%nat = List.length anomalies
  /\ (2 <= List.length two_early_payments)%nat
  /\ List.NoDup (map transaction_index anomalies)
  /\ Forall (fun a => (transaction_index a < List.length two_early_payments)%nat) anomalies
  /\ StronglySorted (fun a c => (composite_score c <= composite_score a)%Q) anomalies.
Proof.
  apply (detected_result_is_bounded example_lib two_early_payments [] "u1" "u1" 2
           (anomalies_of (detect_anomalies example_lib two_early_payments [] "u1"))
           detector_names).
  vm_compute. reflexivity.
Defined.

(** ** The entry point on small and empty inputs *)

Lemma add_keys_nonempty (acc : list string) (d : dict) :
  acc <> [] -> add_keys acc d <> [].
Proof.
  revert acc. unfold add_keys. induction d as [|kv d IH]; intros acc H; simpl; [exact H|].
  apply IH. destruct (str_mem (fst kv) acc); [exact H|].
  intros E. apply app_eq_nil in E. destruct E as [_ E]. discriminate.
Qed.

Lemma union_keys_nonempty (acc : list string) (ds : list dict) :
  acc <> [] -> union_keys acc ds <> [].
Proof.
  revert acc. unfold union_keys. induction ds as [|d ds IH]; intros acc H; simpl; [exact H|].
  apply IH, add_keys_nonempty, H.
Qed.

Lemma union_keys_empty (ds : list dict) :
  union_keys [] ds = [] <-> Forall (fun d => d = []) ds.
Proof.
  induction ds as [|d ds IH].
  - split; [constructor|reflexivity].
  - unfold union_keys in *. simpl. destruct d as [|kv d].
    + simpl. rewrite IH. split; [intros H; constructor; auto|].
      intros H. inversion H. assumption.
    + split.
      * intros H. exfalso. revert H. apply (union_keys_nonempty _ ds).
        change (add_keys [fst kv] d <> []). apply add_keys_nonempty. discriminate.
      * intros H. inversion H. discriminate.
Qed.

Lemma pd_DataFrame_empty (records : list dict) :
  df_empty (pd_DataFrame records) = true <-> Forall (fun d => d = []) records.
Proof.
  unfold df_empty, pd_DataFrame. cbn [rows columns].
  destruct records as [|d records].
  - split; [constructor|reflexivity].
  - cbn [map enumerate]. rewrite <- union_keys_empty.
    destruct (union_keys [] (d :: records)); split; congruence.
Qed.

(** X19.  [detect_anomalies] answers that there are no transactions to
    analyse exactly when the batch has no record with a key: when it is
    empty or holds empty records only.  No detector runs then.  Any other
    batch gets a list of anomalies or an error. *)
Theorem no_transactions_iff_no_columns (L : pylib) (transactions historical_data : list dict)
    (user : string) :
  detect_anomalies L transactions historical_data user = Ok (NoTransactions user)
  <-> Forall (fun d => d = []) transactions.
Proof.
  rewrite <- pd_DataFrame_empty. unfold detect_anomalies.
  destruct (df_empty (pd_DataFrame transactions)); [split; reflexivity|].
  split; [|discriminate].
  destruct (_engineer_features L (pd_DataFrame transactions)
              (pd_DataFrame historical_data)) as [features_df current_df].
  destruct (_run_multiple_detection_methods L features_df
              (pd_DataFrame historical_data)) as [results|e]; simpl.
  - destruct (_generate_insights _); simpl; [discriminate|].
    destruct (is_Exception _); discriminate.
  - destruct (is_Exception e); discriminate.
Qed.

(** With no historical rows the batch is the frame the columns are
    written into, and every amount it holds afterwards is a number. *)
Lemma aliased_batch_amounts (L : pylib) (current_df historical_df : DataFrame) :
  df_empty historical_df = true ->
  Forall (fun r => exists q, dict_get (snd r) "amount" = Some (VNum q))
         (rows (snd (_engineer_features L current_df historical_df))).
Proof.
  intros He. unfold _engineer_features. rewrite He. cbn [snd].
  unfold assign at 1 2. cbn [rows]. rewrite !List.Forall_map. apply List.Forall_forall.
  intros r _. cbn [snd].
  rewrite dict_get_set_other by reflexivity.
  rewrite dict_get_set_same. eauto.
Qed.

Lemma business_rules_without_history (L : pylib) (features_df historical_df : DataFrame) :
  df_empty historical_df = true ->
  exists flags, _business_rule_detection L features_df historical_df = Ok flags.
Proof.
  intros He. unfold _business_rule_detection. rewrite He.
  rewrite andb_false_r. simpl. eauto.
Qed.



(** ** The feature frame: rows and labels *)

Lemma enumerate_labels {X : Type} (start : nat) (l : list X) :
  map fst (enumerate start l) = seq start (List.length l).
Proof.
  revert start. induction l as [|x l IH]; intros start; simpl; [reflexivity|].
  rewrite IH. reflexivity.
Qed.

Lemma enumerate_map_nth {X Y : Type} (f : X -> Y) (start : nat) (l : list X) (j : nat)
    (x : X) :
  nth_error l j = Some x ->
  nth_error (enumerate start (map f l)) j = Some ((start + j)%nat, f x).
Proof.
  revert start j. induction l as [|y l IH]; intros start j H.
  - destruct j; discriminate.
  - destruct j as [|j]; simpl in H |- *.
    + injection H as ->. rewrite Nat.add_0_r. reflexivity.
    + rewrite (IH (S start) j H). f_equal. f_equal. lia.
Qed.

Lemma cell_reindex (cols : list string) (d : dict) (c : string) :
  cell (reindex_row cols d) c = if str_mem c cols then cell d c else VNaN.
Proof.
  unfold cell at 1. unfold reindex_row, str_mem.
  induction cols as [|c' cols IH]; simpl; [reflexivity|].
  rewrite (String.eqb_sym c c').
  destruct (String.eqb c' c) eqn:E; simpl; [|exact IH].
  apply String.eqb_eq in E. subst c'. reflexivity.
Qed.

Lemma str_mem_app (c : string) (l1 l2 : list string) :
  str_mem c (l1 ++ l2) = str_mem c l1 || str_mem c l2.
Proof. unfold str_mem. apply existsb_app. Qed.

Lemma add_key_mono (c k : string) (acc : list string) :
  str_mem c acc = true ->
  str_mem c (if str_mem k acc then acc else acc ++ [k]) = true.
Proof.
  intros H. destruct (str_mem k acc); [exact H|]. rewrite str_mem_app, H. reflexivity.
Qed.

Lemma add_key_new (k : string) (acc : list string) :
  str_mem k (if str_mem k acc then acc else acc ++ [k]) = true.
Proof.
  destruct (str_mem k acc) eqn:E; [exact E|]. rewrite str_mem_app. unfold str_mem at 2.
  simpl. rewrite String.eqb_refl. apply orb_true_r.
Qed.

Lemma add_keys_mono (c : string) (acc : list string) (d : dict) :
  str_mem c acc = true -> str_mem c (add_keys acc d) = true.
Proof.
  revert acc. unfold add_keys. induction d as [|kv d IH]; intros acc H; simpl; [exact H|].
  apply IH, add_key_mono, H.
Qed.

Lemma add_keys_has (c : string) (acc : list string) (d : dict) (v : value) :
  dict_get d c = Some v -> str_mem c (add_keys acc d) = true.
Proof.
  revert acc. induction d as [|[k v'] d IH]; intros acc H; [discriminate|].
  change (str_mem c (add_keys (if str_mem k acc then acc else acc ++ [k]) d) = true).
  simpl in H. destruct (String.eqb k c) eqn:E.
  - apply String.eqb_eq in E. subst k. apply add_keys_mono, add_key_new.
  - apply IH, H.
Qed.

Lemma union_keys_mono (c : string) (acc : list string) (ds : list dict) :
  str_mem c acc = true -> str_mem c (union_keys acc ds) = true.
Proof.
  revert acc. unfold union_keys. induction ds as [|d ds IH]; intros acc H; simpl; [exact H|].
  apply IH, add_keys_mono, H.
Qed.

Lemma union_keys_has (c : string) (acc : list string) (ds : list dict) (d : dict)
    (v : value) :
  In d ds -> dict_get d c = Some v -> str_mem c (union_keys acc ds) = true.
Proof.
  revert acc. induction ds as [|d' ds IH]; intros acc Hin Hc; [destruct Hin|].
  change (str_mem c (union_keys (add_keys acc d') ds) = true).
  destruct Hin as [->|Hin].
  - apply union_keys_mono. apply (add_keys_has c acc d v Hc).
  - apply IH; assumption.
Qed.

(** A record reads the same in the frame built from the batch. *)
Lemma cell_in_frame (records : list dict) (d : dict) (c : string) :
  In d records ->
  cell (reindex_row (columns (pd_DataFrame records)) d) c = cell d c.
Proof.
  intros Hin. rewrite cell_reindex. unfold pd_DataFrame. cbn [columns].
  destruct (str_mem c (union_keys [] records)) eqn:E; [reflexivity|].
  unfold cell. destruct (dict_get d c) as [v|] eqn:Ed; [|reflexivity].
  rewrite (union_keys_has c [] records d v Hin Ed) in E. discriminate.
Qed.

Lemma concat_columns_mono (c : string) (acc cols : list string) :
  str_mem c acc = true ->
  str_mem c (fold_left (fun acc c => if str_mem c acc then acc else acc ++ [c]) cols acc)
  = true.
Proof.
  revert acc. induction cols as [|k cols IH]; intros acc H; simpl; [exact H|].
  apply IH, add_key_mono, H.
Qed.

Lemma concat_columns_has (c : string) (acc cols : list string) :
  str_mem c cols = true ->
  str_mem c (fold_left (fun acc c => if str_mem c acc then acc else acc ++ [c]) cols acc)
  = true.
Proof.
  revert acc. induction cols as [|k cols IH]; intros acc H; [discriminate|].
  unfold str_mem in H. simpl in H. simpl.
  destruct (String.eqb c k) eqn:E.
  - apply String.eqb_eq in E. subst k. apply concat_columns_mono, add_key_new.
  - apply IH. exact H.
Qed.

(** The frame before the column assignments: the batch itself, or the
    concatenation with the history in front. *)
Lemma combined_frame_rows (transactions historical_data : list dict) :
  let current_df := pd_DataFrame transactions in
  let historical_df := pd_DataFrame historical_data in
  let all_data := if df_empty historical_df then current_df
                  else pd_concat historical_df current_df in
  map fst (rows all_data)
  = seq 0 (history_offset historical_data + List.length transactions)
  /\ forall j t, nth_error transactions j = Some t ->
       exists row,
         In ((history_offset historical_data + j)%nat, row) (rows all_data)
         /\ cell row "amount" = cell t "amount"
         /\ (has_column all_data "amount" = false -> cell row "amount" = VNaN).
Proof.
  intros current_df historical_df all_data. subst all_data. unfold history_offset.
  fold historical_df. destruct (df_empty historical_df).
  - split.
    + unfold current_df, pd_DataFrame. cbn [rows]. rewrite enumerate_labels, length_map.
      reflexivity.
    + intros j t Hj. exists (reindex_row (columns current_df) t). split; [|split].
      * unfold current_df at 2. unfold pd_DataFrame. cbn [rows].
        apply (nth_error_In _ j).
        apply (enumerate_map_nth _ 0 transactions j t Hj).
      * apply cell_in_frame. apply (nth_error_In _ _ Hj).
      * intros Hc. rewrite cell_reindex. unfold has_column in Hc. rewrite Hc. reflexivity.
  - split.
    + unfold pd_concat. cbn [rows]. rewrite enumerate_labels, length_map, length_app.
      unfold historical_df, current_df, pd_DataFrame. cbn [rows].
      rewrite !enumerate_length, !length_map. reflexivity.
    + intros j t Hj.
      set (cols := columns (pd_concat historical_df current_df)).
      exists (reindex_row cols (reindex_row (columns current_df) t)). split; [|split].
      * unfold pd_concat. cbn [rows]. fold cols.
        apply (nth_error_In _ (List.length historical_data + j)).
        assert (Hh : List.length (rows historical_df) = List.length historical_data).
        { unfold historical_df, pd_DataFrame. cbn [rows].
          rewrite enumerate_length, length_map. reflexivity. }
        assert (Hc : nth_error (rows historical_df ++ rows current_df)
                               (List.length historical_data + j)
                     = Some (j, reindex_row (columns current_df) t)).
        { rewrite nth_error_app2 by lia.
          replace (List.length historical_data + j - List.length (rows historical_df))%nat
            with j by lia.
          unfold current_df at 1. unfold pd_DataFrame. cbn [rows].
          apply (enumerate_map_nth _ 0 transactions j t Hj). }
        apply (enumerate_map_nth (fun r => reindex_row cols (snd r)) 0 _ _ _ Hc).
      * pose proof (cell_in_frame transactions t "amount" (nth_error_In _ _ Hj)) as Hcf.
        fold current_df in Hcf. rewrite cell_reindex, Hcf.
        destruct (str_mem "amount" cols) eqn:E; [reflexivity|].
        unfold cell. destruct (dict_get t "amount") as [v|] eqn:Ed; [|reflexivity].
        assert (Hm : str_mem "amount" cols = true).
        { unfold cols, pd_concat. cbn [columns]. apply concat_columns_has.
          unfold current_df, pd_DataFrame. cbn [columns].
          apply (union_keys_has "amount" [] transactions t v (nth_error_In _ _ Hj) Ed). }
        congruence.
      * intros Hc. rewrite cell_reindex. unfold has_column in Hc. fold cols in Hc.
        rewrite Hc. reflexivity.
Qed.

Lemma assign_labels (df : DataFrame) (c : string) (f : dict -> value) :
  map fst (rows (assign df c f)) = map fst (rows df).
Proof. unfold assign. cbn [rows]. rewrite map_map. reflexivity. Qed.

(** Assigning a column keeps every label and every other cell. *)
Lemma assign_keeps (df : DataFrame) (c : string) (f : dict -> value) (i : nat)
    (P : value -> Prop) :
  String.eqb c "amount" = false ->
  (exists row, In (i, row) (rows df) /\ P (cell row "amount")) ->
  exists row, In (i, row) (rows (assign df c f)) /\ P (cell row "amount").
Proof.
  intros Hc (row & Hin & HP).
  exists (dict_set row c (f row)). split.
  - unfold assign. cbn [rows]. apply in_map_iff. exists (i, row). auto.
  - unfold cell in *. rewrite dict_get_set_other by exact Hc. exact HP.
Qed.

Lemma maybe_assign_keeps (b : bool) (df : DataFrame) (c : string) (f : dict -> value)
    (i : nat) (P : value -> Prop) :
  String.eqb c "amount" = false ->
  (exists row, In (i, row) (rows df) /\ P (cell row "amount")) ->
  exists row, In (i, row) (rows (if b then df else assign df c f))
              /\ P (cell row "amount").
Proof. intros Hc H. destruct b; [exact H|apply assign_keeps; assumption]. Qed.

Lemma maybe_assign_labels (b : bool) (df : DataFrame) (c : string) (f : dict -> value) :
  map fst (rows (if b then df else assign df c f)) = map fst (rows df).
Proof. destruct b; [reflexivity|apply assign_labels]. Qed.

(** Labels, length and amounts of the frame [_engineer_features] builds. *)
Lemma feature_frame_rows (L : pylib) (transactions historical_data : list dict) :
  let features_df :=
    fst (_engineer_features L (pd_DataFrame transactions)
                            (pd_DataFrame historical_data)) in
  Permutation (map fst (rows features_df))
              (seq 0 (history_offset historical_data + List.length transactions))
  /\ df_len features_df = (history_offset historical_data + List.length transactions)%nat
  /\ forall j t, nth_error transactions j = Some t ->
       exists row,
         In ((history_offset historical_data + j)%nat, row) (rows features_df)
         /\ amount_of row = default 0%Q (to_numeric L (cell t "amount")).
Proof.
  intros features_df.
  destruct (combined_frame_rows transactions historical_data) as [Hlab Hrow].
  cbv zeta in Hlab, Hrow.
  set (all_data := if df_empty (pd_DataFrame historical_data)
                   then pd_DataFrame transactions
                   else pd_concat (pd_DataFrame historical_data)
                                  (pd_DataFrame transactions)) in *.
  assert (Hperm : Permutation (map fst (rows features_df))
                    (seq 0 (history_offset historical_data + List.length transactions))).
  { rewrite <- Hlab. subst features_df. unfold _engineer_features. cbn [fst].
    fold all_data.
    match goal with
    | |- Permutation (map fst (rows (if ?c then sort_values_date ?d else ?d))) _ =>
        assert (Hd : map fst (rows d) = map fst (rows all_data));
          [|destruct c; [|rewrite Hd; reflexivity]]
    end.
    - rewrite !assign_labels, !maybe_assign_labels. reflexivity.
    - unfold sort_values_date. cbn [rows]. rewrite <- Hd.
      apply Permutation_map. apply Permutation_sym, isort_perm. }
  split; [exact Hperm|]. split.
  - unfold df_len. rewrite <- (length_map fst), (Permutation_length Hperm).
    apply List.length_seq.
  - intros j t Hj. destruct (Hrow j t Hj) as (row0 & Hin0 & Hcell & Hnan).
    assert (Hfinal : exists row,
               In ((history_offset historical_data + j)%nat, row) (rows features_df)
               /\ (fun v => v = VNum (default 0%Q (to_numeric L (cell t "amount"))))
                    (cell row "amount")).
    { subst features_df. unfold _engineer_features. cbn [fst]. fold all_data.
      match goal with
      | |- exists row, In ?x (rows (if ?c then sort_values_date ?d else ?d)) /\ _ =>
          assert (Hd : exists row,
                     In x (rows d)
                     /\ cell row "amount"
                        = VNum (default 0%Q (to_numeric L (cell t "amount"))));
            [|destruct c; [|exact Hd]]
      end.
      - apply (assign_keeps _ _ _ _
                 (fun v => v = VNum (default 0%Q (to_numeric L (cell t "amount")))));
          [reflexivity|].
        apply (assign_keeps _ _ _ _
                 (fun v => v = VNum (default 0%Q (to_numeric L (cell t "amount")))));
          [reflexivity|].
        match goal with
        | |- exists row, In _ (rows (assign ?d _ _)) /\ _ =>
            assert (H1 : exists row,
                       In ((history_offset historical_data + j)%nat, row) (rows d)
                       /\ default 0%Q (to_numeric L (cell row "amount"))
                          = default 0%Q (to_numeric L (cell t "amount")))
        end.
        { apply (maybe_assign_keeps _ _ _ _ _
                   (fun v => default 0%Q (to_numeric L v)
                             = default 0%Q (to_numeric L (cell t "amount"))));
            [reflexivity|].
          apply (maybe_assign_keeps _ _ _ _ _
                   (fun v => default 0%Q (to_numeric L v)
                             = default 0%Q (to_numeric L (cell t "amount"))));
            [reflexivity|].
          destruct (has_column all_data "amount") eqn:Ha.
          - exists row0. split; [exact Hin0|]. rewrite Hcell. reflexivity.
          - exists (dict_set row0 "amount" (VNum 0)). split.
            + unfold assign. cbn [rows]. apply in_map_iff.
              exists ((history_offset historical_data + j)%nat, row0). auto.
            + unfold cell at 1. rewrite dict_get_set_same.
              rewrite <- Hcell, (Hnan eq_refl). reflexivity. }
        destruct H1 as (row1 & Hin1 & Hnum).
        exists (dict_set row1 "amount"
                  (VNum (default 0%Q (to_numeric L (cell row1 "amount"))))).
        split.
        + unfold assign at 1. cbn [rows]. apply in_map_iff.
          exists ((history_offset historical_data + j)%nat, row1). auto.
        + unfold cell at 1. rewrite dict_get_set_same, Hnum. reflexivity.
      - destruct Hd as (row & Hin & Hc). exists row. split; [|exact Hc].
        unfold sort_values_date. cbn [rows].
        apply (Permutation_in _ (isort_perm date_leb _)). exact Hin. }
    destruct Hfinal as (row & Hin & Hc). exists row. split; [exact Hin|].
    unfold amount_of. rewrite Hc. reflexivity.
Qed.

(** X21.  The labels of the feature frame.  The frame has one row for
    every historical record and every transaction of the batch, labelled
    0, 1, ... each once, and the historical rows come first: transaction
    number j of the batch is the row labelled h + j, where h is the
    number of historical records (0 when the historical frame is empty),
    and that row holds the amount of the transaction made numeric
    (0 when it is missing or not a number).  So a detector that flags
    transaction j reports the index h + j. *)
Theorem feature_frame_labels (L : pylib) (transactions historical_data : list dict) :
  let features_df :=
    fst (_engineer_features L (pd_DataFrame transactions)
                            (pd_DataFrame historical_data)) in
  Permutation (map fst (rows features_df))
              (seq 0 (history_offset historical_data + List.length transactions))
  /\ df_len features_df = (history_offset historical_data + List.length transactions)%nat
  /\ forall j t, nth_error transactions j = Some t ->
       exists row,
         In ((history_offset historical_data + j)%nat, row) (rows features_df)
         /\ amount_of row = default 0%Q (to_numeric L (cell t "amount")).
Proof. exact (feature_frame_rows L transactions historical_data). Qed.

(** X22.  Batches too small for the numeric detectors.  When the batch
    and the historical records that count (none when the historical
    frame is empty) are fewer than three rows together, the isolation
    forest, the IQR detector and the z-score detector flag nothing,
    whatever the amounts are: all that can be reported comes from the
    business rules.  (The isolation forest needs 10 rows, the IQR
    detector 5, the z-score detector 3.) *)
Theorem small_batches_get_business_rules_only (L : pylib)
    (transactions historical_data : list dict) :
  (history_offset historical_data + List.length transactions < 3)%nat ->
  let features_df :=
    fst (_engineer_features L (pd_DataFrame transactions)
                            (pd_DataFrame historical_data)) in
  _isolation_forest_detection L features_df = Ok []
  /\ _statistical_outlier_detection L features_df = Ok []
  /\ _zscore_detection L features_df = Ok []
  /\ _run_multiple_detection_methods L features_df (pd_DataFrame historical_data)
     = (do business_anomalies <-
          _business_rule_detection L features_df (pd_DataFrame historical_data);
        Ok [("isolation_forest", []); ("statistical", []); ("zscore", []);
            ("business_rules", business_anomalies)]).
Proof.
  intros Hn features_df.
  destruct (feature_frame_rows L transactions historical_data) as (_ & Hlen & _).
  fold features_df in Hlen.
  assert (H1 : _isolation_forest_detection L features_df = Ok []).
  { unfold _isolation_forest_detection.
    replace (df_len features_df <? 10)%nat with true; [reflexivity|].
    symmetry. apply Nat.ltb_lt. lia. }
  assert (H2 : _statistical_outlier_detection L features_df = Ok []).
  { unfold _statistical_outlier_detection.
    replace (4 <? df_len features_df)%nat with false; [|symmetry; apply Nat.ltb_ge; lia].
    rewrite andb_false_r. reflexivity. }
  assert (H3 : _zscore_detection L features_df = Ok []).
  { unfold _zscore_detection.
    replace (2 <? df_len features_df)%nat with false; [|symmetry; apply Nat.ltb_ge; lia].
    rewrite andb_false_r. reflexivity. }
  repeat split; try assumption.
  unfold _run_multiple_detection_methods. rewrite H1, H2, H3. reflexivity.
Qed.

Lemma small_batches_get_business_rules_only_witness :
  let features_df :=
    fst (_engineer_features example_lib (pd_DataFrame noon_batch)
                            (pd_DataFrame night_history)) in
  _isolation_forest_detection example_lib features_df = Ok []
  /\ _statistical_outlier_detection example_lib features_df = Ok []
  /\ _zscore_detection example_lib features_df = Ok []
  /\ _run_multiple_detection_methods example_lib features_df (pd_DataFrame night_history)
     = (do business_anomalies <-
          _business_rule_detection example_lib features_df (pd_DataFrame night_history);
        Ok [("isolation_forest", []); ("statistical", []); ("zscore", []);
            ("business_rules", business_anomalies)]).
Proof.
  apply (small_batches_get_business_rules_only example_lib noon_batch night_history).
  vm_compute. lia.
Defined.

(** ** The analysis summary *)

Lemma count_up_sum (counts : list (severity * nat)) (s : severity) :
  list_sum (map snd (count_up counts s)) = S (list_sum (map snd counts)).
Proof.
  induction counts as [|[s' n] counts IH]; simpl; [reflexivity|].
  destruct (severity_order s' =? severity_order s)%nat; simpl; [reflexivity|].
  rewrite IH. lia.
Qed.

Lemma severity_counts_sum (l : list severity) (counts : list (severity * nat)) :
  list_sum (map snd (fold_left count_up l counts))
  = (list_sum (map snd counts) + List.length l)%nat.
Proof.
  revert counts. induction l as [|s l IH]; intros counts; simpl; [lia|].
  rewrite IH, count_up_sum. lia.
Qed.

(** The rate is above [k] percent when the anomalies are more than [k]
    in a hundred transactions. *)
Lemma rate_above (k : Z) (count total : nat) :
  Qlt_bool (inject_Z k) (Qlen count / Qlen (S total) * 100)%Q = true
  <-> (k * Z.of_nat (S total) < 100 * Z.of_nat count)%Z.
Proof.
  rewrite Qlt_bool_iff. unfold Qlt, Qlen, Qdiv, Qmult, Qinv, inject_Z.
  cbn [Qnum Qden Z.of_nat]. simpl. rewrite ?Pos.mul_1_l, ?Pos.mul_1_r.
  rewrite Zpos_P_of_succ_nat. lia.
Qed.

(** X23.  The summary of a consolidated list.  It never counts more
    anomalies than transactions, so the rate is at most 100 percent.  The
    risk level is high exactly when more than one transaction in five is
    anomalous, medium exactly when more than one in ten but at most one in
    five is; the recommendation says that nothing significant was found
    exactly when there is no anomaly; and the severity breakdown counts
    every anomaly once. *)
Theorem summary_of_consolidated (round_2 : Q -> Q)
    (anomaly_results : list (string * list flag)) (current_df : DataFrame) :
  let anomalies := _consolidate_anomalies anomaly_results current_df in
  let s := _generate_analysis_summary round_2 anomalies current_df in
  let count := analysis_anomalies_detected s in
  let total := total_transactions_analyzed s in
  count = List.length anomalies
  /\ total = df_len current_df
  /\ (count <= total)%nat
  /\ (risk_level s = "high"%string <-> (total < 5 * count)%nat)
  /\ (risk_level s = "medium"%string <-> (5 * count <= total < 10 * count)%nat)
  /\ (recommendation s
      = "No significant anomalies detected. Your spending patterns appear normal."%string
      <-> count = 0%nat)
  /\ list_sum (map snd (severity_breakdown s)) = count.
Proof.
  intros anomalies s count total.
  pose proof (consolidated_count anomaly_results current_df) as Hle.
  fold anomalies in Hle.
  subst count total s. unfold _generate_analysis_summary.
  cbn [analysis_anomalies_detected total_transactions_analyzed risk_level recommendation
       severity_breakdown].
  set (c := List.length anomalies) in *. set (t := df_len current_df) in *.
  split; [reflexivity|]. split; [reflexivity|]. split; [exact Hle|].
  assert (Hrisk :
            (if Qlt_bool 20 (if (0 <? t)%nat then (Qlen c / Qlen t * 100)%Q else 0%Q)
             then "high"%string
             else if Qlt_bool 10 (if (0 <? t)%nat then (Qlen c / Qlen t * 100)%Q else 0%Q)
                  then "medium"%string else "low"%string)
            = if (t <? 5 * c)%nat then "high"%string
              else if (t <? 10 * c)%nat then "medium"%string else "low"%string).
  { destruct t as [|t'].
    - assert (c = 0%nat) by lia. subst c. replace (List.length anomalies) with 0%nat.
      reflexivity.
    - replace (0 <? S t')%nat with true by reflexivity.
      pose proof (rate_above 20 c t') as H20. pose proof (rate_above 10 c t') as H10.
      change (inject_Z 20) with 20%Q in H20. change (inject_Z 10) with 10%Q in H10.
      destruct (Qlt_bool 20 (Qlen c / Qlen (S t') * 100)%Q).
      + replace (S t' <? 5 * c)%nat with true; [reflexivity|].
        symmetry. apply Nat.ltb_lt. destruct H20 as [H _]. specialize (H eq_refl). lia.
      + replace (S t' <? 5 * c)%nat with false;
          [|symmetry; apply Nat.ltb_ge;
            destruct (Nat.lt_ge_cases (S t') (5 * c)) as [Hlt|Hge]; [|exact Hge];
            destruct H20 as [_ H]; discriminate H; lia].
        destruct (Qlt_bool 10 (Qlen c / Qlen (S t') * 100)%Q).
        * replace (S t' <? 10 * c)%nat with true; [reflexivity|].
          symmetry. apply Nat.ltb_lt. destruct H10 as [H _]. specialize (H eq_refl). lia.
        * replace (S t' <? 10 * c)%nat with false; [reflexivity|].
          symmetry. apply Nat.ltb_ge.
          destruct (Nat.lt_ge_cases (S t') (10 * c)) as [Hlt|Hge]; [|exact Hge].
          destruct H10 as [_ H]. discriminate H. lia. }
  rewrite Hrisk. clear Hrisk.
  split; [|split; [|split]].
  - destruct (t <? 5 * c)%nat eqn:E5.
    + apply Nat.ltb_lt in E5. split; [intros _; exact E5|reflexivity].
    + apply Nat.ltb_ge in E5. split; [|lia].
      destruct (t <? 10 * c)%nat; discriminate.
  - destruct (t <? 5 * c)%nat eqn:E5.
    + apply Nat.ltb_lt in E5. split; [discriminate|lia].
    + apply Nat.ltb_ge in E5. destruct (t <? 10 * c)%nat eqn:E10.
      * apply Nat.ltb_lt in E10. split; [intros _; lia|reflexivity].
      * apply Nat.ltb_ge in E10. split; [discriminate|lia].
  - unfold _get_recommendation.
    destruct (t <? 5 * c)%nat eqn:E5.
    + apply Nat.ltb_lt in E5. cbn. split; [discriminate|lia].
    + destruct (t <? 10 * c)%nat eqn:E10.
      * apply Nat.ltb_lt in E10. cbn. split; [discriminate|lia].
      * cbn. destruct c as [|c']; cbn; split; try reflexivity; try discriminate.
  - rewrite severity_counts_sum, length_map. reflexivity.
Qed.


(** ** Quantiles *)

Lemma nth_sorted (s : list Q) (i j : nat) (d1 d2 : Q) :
  StronglySorted Qle s -> (i <= j)%nat -> (j < List.length s)%nat ->
  (nth i s d1 <= nth j s d2)%Q.
Proof.
  intros Hs. revert i j. induction Hs as [|a l Hl IH Ha]; intros i j Hij Hj.
  - simpl in Hj. lia.
  - destruct j as [|j]; destruct i as [|i]; simpl in *; try lia.
    + apply Qle_refl.
    + rewrite List.Forall_forall in Ha. apply Ha. apply nth_In. lia.
    + apply IH; lia.
Qed.

Lemma lo_le_hi (s : list Q) (i : nat) :
  StronglySorted Qle s -> (nth i s 0 <= nth (S i) s (nth i s 0))%Q.
Proof.
  intros Hs. destruct (Nat.lt_ge_cases (S i) (List.length s)) as [H|H].
  - apply nth_sorted; [exact Hs|lia|exact H].
  - rewrite (nth_overflow s (nth i s 0%Q) H). apply Qle_refl.
Qed.

(** The interpolation inside [quantile], as a function of the position
    [h] between the order statistics of a sorted list [s]. *)
Lemma interpolation_monotone (s : list Q) (h1 h2 : Q) :
  StronglySorted Qle s ->
  (0 <= h1)%Q -> (h1 <= h2)%Q -> (h2 <= Qlen (List.length s - 1))%Q ->
  (nth (Z.to_nat (Qfloor h1)) s 0
   + (h1 - inject_Z (Qfloor h1))
     * (nth (S (Z.to_nat (Qfloor h1))) s (nth (Z.to_nat (Qfloor h1)) s 0)
        - nth (Z.to_nat (Qfloor h1)) s 0)
   <= nth (Z.to_nat (Qfloor h2)) s 0
      + (h2 - inject_Z (Qfloor h2))
        * (nth (S (Z.to_nat (Qfloor h2))) s (nth (Z.to_nat (Qfloor h2)) s 0)
           - nth (Z.to_nat (Qfloor h2)) s 0))%Q.
Proof.
  intros Hs H0 H12 Hn.
  pose proof (Qfloor_resp_le _ _ H0) as Hz0. change (Qfloor 0) with 0%Z in Hz0.
  pose proof (Qfloor_resp_le _ _ H12) as Hz12.
  pose proof (Qfloor_resp_le _ _ Hn) as Hzn. unfold Qlen in Hzn. rewrite Qfloor_Z in Hzn.
  pose proof (Qfloor_le h1) as Hf1. pose proof (Qlt_floor h1) as Hc1.
  pose proof (Qfloor_le h2) as Hf2. pose proof (Qlt_floor h2) as Hc2.
  rewrite inject_Z_plus in Hc1, Hc2. change (inject_Z 1) with 1%Q in Hc1, Hc2.
  set (z1 := Qfloor h1) in *. set (z2 := Qfloor h2) in *.
  pose proof (lo_le_hi s (Z.to_nat z1) Hs) as Hd1.
  pose proof (lo_le_hi s (Z.to_nat z2) Hs) as Hd2.
  set (lo1 := nth (Z.to_nat z1) s 0%Q) in *.
  set (hi1 := nth (S (Z.to_nat z1)) s lo1) in *.
  set (lo2 := nth (Z.to_nat z2) s 0%Q) in *.
  set (hi2 := nth (S (Z.to_nat z2)) s lo2) in *.
  destruct (Z.eq_dec z1 z2) as [E|E].
  - subst hi1 hi2 lo1 lo2. rewrite <- E in *.
    set (lo := nth (Z.to_nat z1) s 0%Q) in *.
    set (hi := nth (S (Z.to_nat z1)) s lo) in *.
    assert (H : ((h1 - inject_Z z1) * (hi - lo) <= (h2 - inject_Z z1) * (hi - lo))%Q).
    { apply Qmult_le_compat_r; lra. }
    lra.
  - assert (Hlt : (z1 < z2)%Z) by lia.
    assert (Hmid : (hi1 <= lo2)%Q).
    { subst hi1 lo2. apply nth_sorted; [exact Hs|lia|lia]. }
    assert (Hup : ((h1 - inject_Z z1) * (hi1 - lo1) <= 1 * (hi1 - lo1))%Q).
    { apply Qmult_le_compat_r; lra. }
    assert (Hdown : (0 <= (h2 - inject_Z z2) * (hi2 - lo2))%Q).
    { apply Qmult_le_0_compat; lra. }
    lra.
Qed.

(** [quantile] grows with the level: for levels p <= q between 0 and 1
    the quantile at p is at most the quantile at q. *)
Lemma quantile_monotone_helper (xs : list Q) (p q : Q) :
  (0 <= p)%Q -> (p <= q)%Q -> (q <= 1)%Q ->
  (quantile xs p <= quantile xs q)%Q.
Proof.
  intros H0 Hpq H1. unfold quantile.
  pose proof (isort_sorted (fun x : Q => x) xs : StronglySorted Qle (isort Qle_bool xs))
    as Hs.
  set (s := isort Qle_bool xs) in *.
  assert (Hlen : (0 <= Qlen (List.length s - 1))%Q).
  { unfold Qlen. change 0%Q with (inject_Z 0). rewrite <- Zle_Qle. lia. }
  apply (interpolation_monotone s); [exact Hs| | |].
  - apply Qmult_le_0_compat; assumption.
  - rewrite !(Qmult_comm (Qlen _)). apply Qmult_le_compat_r; assumption.
  - rewrite <- (Qmult_1_r (Qlen (List.length s - 1))) at 2.
    rewrite !(Qmult_comm (Qlen _)). apply Qmult_le_compat_r; assumption.
Qed.

(** X24.  The quartiles the IQR detector computes are in order, so
    the IQR is never negative and the lower fence is never above the
    upper one; and the detector never flags an amount between the
    quartiles: a row it flags has an amount below the first quartile or
    above the third. *)
Theorem iqr_flags_lie_outside_the_quartiles (L : pylib) (features_df : DataFrame)
    (flags : list flag) :
  _statistical_outlier_detection L features_df = Ok flags ->
  (quantile (amounts features_df) (1 # 4) <= quantile (amounts features_df) (3 # 4))%Q
  /\ forall a, In a flags ->
       exists row,
         In (f_index a, row) (rows features_df)
         /\ (amount_of row < quantile (amounts features_df) (1 # 4)
             \/ quantile (amounts features_df) (3 # 4) < amount_of row)%Q.
Proof.
  assert (Hq : (quantile (amounts features_df) (1 # 4)
                <= quantile (amounts features_df) (3 # 4))%Q).
  { apply quantile_monotone_helper; unfold Qle; simpl; lia. }
  intros H. split; [exact Hq|]. revert H.
  unfold _statistical_outlier_detection.
  destruct (_ && _); [|intros H; injection H as <-; intros a []].
  intros H. injection H as <-. intros a Ha.
  apply in_map_iff in Ha. destruct Ha as ([idx row] & <- & Hin).
  apply List.filter_In in Hin. destruct Hin as [Hin Hout]. cbn [fst snd f_index] in *.
  exists row. split; [exact Hin|].
  apply orb_true_iff in Hout. rewrite !Qlt_bool_iff in Hout.
  destruct Hout as [Hlow|Hhigh]; [left|right]; lra.
Qed.

Lemma iqr_flags_lie_outside_the_quartiles_witness :
  (quantile (amounts uneven_frame) (1 # 4) <= quantile (amounts uneven_frame) (3 # 4))%Q
  /\ forall a, In a uneven_flags ->
       exists row,
         In (f_index a, row) (rows uneven_frame)
         /\ (amount_of row < quantile (amounts uneven_frame) (1 # 4)
             \/ quantile (amounts uneven_frame) (3 # 4) < amount_of row)%Q.
Proof.
  apply (iqr_flags_lie_outside_the_quartiles example_lib uneven_frame uneven_flags).
  vm_compute. reflexivity.
Defined.

(** ** The z-score detector and the isolation forest *)



Lemma enumerate_In {X : Type} (start : nat) (l : list X) (i : nat) (x : X) :
  In (i, x) (enumerate start l)
  <-> (start <= i)%nat /\ nth_error l (i - start) = Some x.
Proof.
  revert start. induction l as [|y l IH]; intros start; simpl.
  - split; [intros []|]. intros [_ H]. destruct (i - start)%nat; discriminate.
  - rewrite IH. split.
    + intros [H|[Hle Hn]].
      * injection H as <- <-. rewrite Nat.sub_diag. split; [lia|reflexivity].
      * split; [lia|]. replace (i - start)%nat with (S (i - S start)) by lia. exact Hn.
    + intros [Hle Hn]. destruct (i - start)%nat as [|k] eqn:E.
      * left. injection Hn as ->. f_equal. lia.
      * right. split; [lia|]. replace (i - S start)%nat with k by lia. exact Hn.
Qed.

(** X26.  The isolation forest detector.  It flags nothing on a frame of
    fewer than 10 rows and nothing when the model code raises.
    Otherwise its flags are exactly the predictions -1 of the model: the
    index of a flag is the POSITION of the prediction in the model's
    output (not the label of a row), its score is the decision score,
    its severity is high exactly when the score is below -0.2, else
    medium, and it has no reason. *)
Theorem isolation_forest_flags_positions (L : pylib) (features_df : DataFrame) :
  ((df_len features_df < 10)%nat -> _isolation_forest_detection L features_df = Ok [])
  /\ (forest_fit_predict L features_df = None ->
      _isolation_forest_detection L features_df = Ok [])
  /\ forall results,
       (10 <= df_len features_df)%nat ->
       forest_fit_predict L features_df = Some results ->
       exists flags,
         _isolation_forest_detection L features_df = Ok flags
         /\ forall a,
              In a flags
              <-> exists i score,
                    nth_error results i = Some (score, (-1)%Z)
                    /\ a = mkFlag i "isolation_forest" score
                             (if Qlt_bool score (-(2 # 10))%Q then High else Medium)
                             None.
Proof.
  unfold _isolation_forest_detection. split; [|split].
  - intros H. apply Nat.ltb_lt in H. rewrite H. reflexivity.
  - intros H. rewrite H. destruct (df_len features_df <? 10)%nat; reflexivity.
  - intros results Hlen Hres.
    replace (df_len features_df <? 10)%nat with false
      by (symmetry; apply Nat.ltb_ge; lia).
    rewrite Hres. eexists. split; [reflexivity|].
    intros a. rewrite in_flat_map. split.
    + intros ([i [score prediction]] & Hin & Ha).
      apply enumerate_In in Hin. destruct Hin as [_ Hn]. rewrite Nat.sub_0_r in Hn.
      destruct (prediction =? -1)%Z eqn:E; [|destruct Ha].
      apply Z.eqb_eq in E. subst prediction.
      destruct Ha as [<-|[]]. exists i, score. split; [exact Hn|reflexivity].
    + intros (i & score & Hn & ->).
      exists (i, (score, (-1)%Z)). split.
      * apply enumerate_In. split; [lia|]. rewrite Nat.sub_0_r. exact Hn.
      * simpl. left. reflexivity.
Qed.
